(** * RoomVerse: booking lifecycle and room inventory

    A shallow embedding of the booking routes of the RoomVerse backend
    ([backend/routes/bookings.js]) together with the two Mongoose schemas
    they work on ([backend/models/Booking.js] and the [Hostel] schema).

    Modelling conventions.
    - A Mongo collection is a finite map from document ids to documents;
      [_id]s are natural numbers and a new document takes a fresh key.
      Documents carry the fields the booking routes read or write; the
      emergency contact, notes and reviews are left out, and a hostel's
      owner is kept as an id.  A booking keeps its [bookingId], absent on
      a document that was given none: its [required] validator decides
      what [POST /api/bookings] does.
    - The prices of a hostel are JavaScript Numbers, modelled by binary64
      floats, and the arithmetic the routes do on them is binary64
      arithmetic.  The amounts of a stored booking and all counters are
      Numbers holding whole values, modelled by [Z]; where the code
      multiplies such an amount by a fractional constant
      ([calculateRefund]) or by 100 (the payment order) the product is
      computed in binary64.
    - Dates are milliseconds since the epoch, in [Z]; every handler gets
      the current time [now] as an argument.
    - [doc.save()] runs the [required], [min] and [enum] validators of the
      schema on the whole document, then the [pre('save')] hook, then
      writes the document.  A failed validation throws, and the handler's
      [catch] answers 500 without undoing earlier writes.
    - A handler is a function from the database to a response and the
      new database. *)

From Stdlib Require Import ZArith String Floats.
From Stdlib Require Uint63.
From stdpp Require Import base option list gmap strings.

Local Open Scope Z_scope.

Set Default Proof Using "Type".

(** ** Documents *)

Definition Id := nat.

Inductive RoomType := Single | Double | Triple | Quad.

Inductive Role := Student | Parent | HostelOwner | Admin.

#[global] Instance RoomType_eq_dec : EqDecision RoomType.
Proof. solve_decision. Defined.

#[global] Instance Role_eq_dec : EqDecision Role.
Proof. solve_decision. Defined.

Definition roomTypeName (t : RoomType) : string :=
  match t with
  | Single => "Single" | Double => "Double"
  | Triple => "Triple" | Quad => "Quad"
  end.

Definition roleName (r : Role) : string :=
  match r with
  | Student => "Student" | Parent => "Parent"
  | HostelOwner => "HostelOwner" | Admin => "Admin"
  end.

(** [req.user], as left by the [protect] middleware. *)
Record User := { uid : Id; role : Role }.

Module Hostel.

Inductive Status := Active | Inactive | UnderReview | Rejected.

Record Pricing := {
  monthlyRent : float;
  securityDeposit : float;
  maintenanceCharges : float
}.

Record Room := {
  type : RoomType;
  totalRooms : Z;
  availableRooms : Z
}.

Record FoodOptions := {
  available : bool;
  monthlyCost : float
}.

Record t := {
  owner : Id;
  pricing : Pricing;
  rooms : list Room;
  foodOptions : FoodOptions;
  status : Status;
  isVerified : bool;
  totalCapacity : Z;
  currentOccupancy : Z
}.

#[global] Instance Status_eq_dec : EqDecision Status.
Proof. solve_decision. Defined.

(** The [min] validators of [hostelSchema]. *)
Definition validRoom (r : Room) : bool :=
  (1 <=? totalRooms r) && (0 <=? availableRooms r).

Definition validate (h : t) : bool :=
  (0 <=? monthlyRent (pricing h))%float
  && (0 <=? securityDeposit (pricing h))%float
  && (0 <=? maintenanceCharges (pricing h))%float
  && forallb validRoom (rooms h)
  && (0 <=? monthlyCost (foodOptions h))%float
  && (1 <=? totalCapacity h)
  && (0 <=? currentOccupancy h).

Definition setAvailableRooms (n : Z) (r : Room) : Room :=
  {| type := type r; totalRooms := totalRooms r; availableRooms := n |}.

Definition setRooms (rs : list Room) (h : t) : t :=
  {| owner := owner h; pricing := pricing h; rooms := rs;
     foodOptions := foodOptions h; status := status h;
     isVerified := isVerified h; totalCapacity := totalCapacity h;
     currentOccupancy := currentOccupancy h |}.

Definition setCurrentOccupancy (n : Z) (h : t) : t :=
  {| owner := owner h; pricing := pricing h; rooms := rooms h;
     foodOptions := foodOptions h; status := status h;
     isVerified := isVerified h; totalCapacity := totalCapacity h;
     currentOccupancy := n |}.

(** [hostel.rooms.findIndex(room => room.type === roomType)], with the
    entry found. *)
Definition findRoom (ty : RoomType) (h : t) : option (nat * Room) :=
  list_find (λ r, type r = ty) (rooms h).

End Hostel.

Module Booking.

Inductive Status :=
| Pending | Confirmed | Paid | CheckedIn | Active
| CheckedOut | Completed | Cancelled | Rejected | Expired.

Inductive RefundStatus :=
| RefundPending | RefundProcessed | RefundFailed | RefundNotApplicable.

Record Pricing := {
  monthlyRent : Z;
  securityDeposit : Z;
  maintenanceCharges : Z;
  totalAmount : Z;
  paidAmount : Z;
  pendingAmount : Z
}.

Record FoodOptions := {
  selected : bool;
  monthlyCost : Z
}.

Record Payment := {
  method : string;
  transactionId : option string;
  paymentDate : option Z;
  razorpayOrderId : option string;
  razorpayPaymentId : option string;
  razorpaySignature : option string
}.

Record Cancellation := {
  reason : string;
  cancelledBy : string;
  refundAmount : Z;
  refundStatus : RefundStatus
}.

Record t := {
  (** the human-readable id; [None] for a document that has none *)
  bookingId : option string;
  student : Id;
  hostel : Id;
  owner : Id;
  roomType : RoomType;
  checkInDate : Z;
  checkOutDate : Z;
  duration : Z;
  pricing : Pricing;
  foodOptions : FoodOptions;
  status : Status;
  payment : Payment;
  confirmedAt : option Z;
  paidAt : option Z;
  cancelledAt : option Z;
  cancellation : option Cancellation
}.

#[global] Instance Status_eq_dec : EqDecision Status.
Proof. solve_decision. Defined.

(** Schema defaults of the [payment] sub-document. *)
Definition defaultPayment : Payment :=
  {| method := "Online"; transactionId := None; paymentDate := None;
     razorpayOrderId := None; razorpayPaymentId := None;
     razorpaySignature := None |}.

(** A [bookingId] that is present and not the empty string: what the
    [required] validator of a String path accepts, and what JavaScript
    takes as true in [if (!this.bookingId)]. *)
Definition hasBookingId (b : t) : bool :=
  match bookingId b with
  | Some i => negb (bool_decide (i = ""))
  | None => false
  end.

(** The [required], [min] and [enum] validators of [bookingSchema]. *)
Definition validCancellation (c : Cancellation) : bool :=
  bool_decide (cancelledBy c ∈ ["Student"; "Owner"; "Admin"])
  && (0 <=? refundAmount c).

Definition validate (b : t) : bool :=
  hasBookingId b
  && (1 <=? duration b)
  && (0 <=? monthlyRent (pricing b))
  && (0 <=? securityDeposit (pricing b))
  && (0 <=? maintenanceCharges (pricing b))
  && (0 <=? totalAmount (pricing b))
  && (0 <=? paidAmount (pricing b))
  && (0 <=? pendingAmount (pricing b))
  && (0 <=? monthlyCost (foodOptions b))
  && from_option validCancellation true (cancellation b).

Definition setPendingAmount (n : Z) (p : Pricing) : Pricing :=
  {| monthlyRent := monthlyRent p; securityDeposit := securityDeposit p;
     maintenanceCharges := maintenanceCharges p;
     totalAmount := totalAmount p; paidAmount := paidAmount p;
     pendingAmount := n |}.

Definition setPaidAmount (n : Z) (p : Pricing) : Pricing :=
  {| monthlyRent := monthlyRent p; securityDeposit := securityDeposit p;
     maintenanceCharges := maintenanceCharges p;
     totalAmount := totalAmount p; paidAmount := n;
     pendingAmount := pendingAmount p |}.

Definition setPricing (p : Pricing) (b : t) : t :=
  {| bookingId := bookingId b; student := student b; hostel := hostel b;
     owner := owner b;
     roomType := roomType b; checkInDate := checkInDate b;
     checkOutDate := checkOutDate b; duration := duration b;
     pricing := p; foodOptions := foodOptions b; status := status b;
     payment := payment b; confirmedAt := confirmedAt b;
     paidAt := paidAt b; cancelledAt := cancelledAt b;
     cancellation := cancellation b |}.

Definition setStatus (s : Status) (b : t) : t :=
  {| bookingId := bookingId b; student := student b; hostel := hostel b;
     owner := owner b;
     roomType := roomType b; checkInDate := checkInDate b;
     checkOutDate := checkOutDate b; duration := duration b;
     pricing := pricing b; foodOptions := foodOptions b; status := s;
     payment := payment b; confirmedAt := confirmedAt b;
     paidAt := paidAt b; cancelledAt := cancelledAt b;
     cancellation := cancellation b |}.

Definition setPayment (p : Payment) (b : t) : t :=
  {| bookingId := bookingId b; student := student b; hostel := hostel b;
     owner := owner b;
     roomType := roomType b; checkInDate := checkInDate b;
     checkOutDate := checkOutDate b; duration := duration b;
     pricing := pricing b; foodOptions := foodOptions b;
     status := status b; payment := p; confirmedAt := confirmedAt b;
     paidAt := paidAt b; cancelledAt := cancelledAt b;
     cancellation := cancellation b |}.

Definition setConfirmedAt (d : Z) (b : t) : t :=
  {| bookingId := bookingId b; student := student b; hostel := hostel b;
     owner := owner b;
     roomType := roomType b; checkInDate := checkInDate b;
     checkOutDate := checkOutDate b; duration := duration b;
     pricing := pricing b; foodOptions := foodOptions b;
     status := status b; payment := payment b; confirmedAt := Some d;
     paidAt := paidAt b; cancelledAt := cancelledAt b;
     cancellation := cancellation b |}.

Definition setPaidAt (d : Z) (b : t) : t :=
  {| bookingId := bookingId b; student := student b; hostel := hostel b;
     owner := owner b;
     roomType := roomType b; checkInDate := checkInDate b;
     checkOutDate := checkOutDate b; duration := duration b;
     pricing := pricing b; foodOptions := foodOptions b;
     status := status b; payment := payment b;
     confirmedAt := confirmedAt b; paidAt := Some d;
     cancelledAt := cancelledAt b; cancellation := cancellation b |}.

Definition setCancelledAt (d : Z) (b : t) : t :=
  {| bookingId := bookingId b; student := student b; hostel := hostel b;
     owner := owner b;
     roomType := roomType b; checkInDate := checkInDate b;
     checkOutDate := checkOutDate b; duration := duration b;
     pricing := pricing b; foodOptions := foodOptions b;
     status := status b; payment := payment b;
     confirmedAt := confirmedAt b; paidAt := paidAt b;
     cancelledAt := Some d; cancellation := cancellation b |}.

Definition setCancellation (c : Cancellation) (b : t) : t :=
  {| bookingId := bookingId b; student := student b; hostel := hostel b;
     owner := owner b;
     roomType := roomType b; checkInDate := checkInDate b;
     checkOutDate := checkOutDate b; duration := duration b;
     pricing := pricing b; foodOptions := foodOptions b;
     status := status b; payment := payment b;
     confirmedAt := confirmedAt b; paidAt := paidAt b;
     cancelledAt := cancelledAt b; cancellation := Some c |}.

(** [bookingSchema.pre('save')]: a document without a [bookingId] gets a
    generated one, [RV] followed by the date and four random digits (made
    from the clock and [Math.random]; here the argument [generated]), and
    the pending amount is recomputed. *)
Definition preSave (generated : string) (b : t) : t :=
  {| bookingId := if hasBookingId b then bookingId b else Some generated;
     student := student b; hostel := hostel b; owner := owner b;
     roomType := roomType b; checkInDate := checkInDate b;
     checkOutDate := checkOutDate b; duration := duration b;
     pricing :=
       setPendingAmount (totalAmount (pricing b) - paidAmount (pricing b))
         (pricing b);
     foodOptions := foodOptions b; status := status b;
     payment := payment b; confirmedAt := confirmedAt b;
     paidAt := paidAt b; cancelledAt := cancelledAt b;
     cancellation := cancellation b |}.

(** [bookingSchema.methods.canBeCancelled] *)
Definition canBeCancelled (b : t) : bool :=
  bool_decide (status b ∈ [Pending; Confirmed; Paid]).

(** [bookingSchema.methods.canBeModified] *)
Definition canBeModified (b : t) : bool :=
  bool_decide (status b ∈ [Pending; Confirmed]).

End Booking.

(** ** Refund policy ([bookingSchema.methods.calculateRefund]) *)

Definition msPerDay : Z := 1000 * 60 * 60 * 24.

(** [Math.ceil((checkInDate - now) / (1000 * 60 * 60 * 24))].  Both dates
    are integer millisecond counts, for which the binary64 quotient
    followed by [Math.ceil] gives the exact integer ceiling. *)
Definition daysUntilCheckIn (checkInDate now : Z) : Z :=
  - ((- (checkInDate - now)) / msPerDay).

(** An integer amount as a JavaScript Number (round to nearest even). *)
Definition numberOfZ (z : Z) : float :=
  SF2Prim (binary_normalize prec emax z 0 false).

(** [Math.floor] of a finite Number, as an integer.  Zero is returned for
    NaN and the infinities, which no product of a stored amount and a
    refund percentage reaches. *)
Definition Math_floor (x : float) : Z :=
  match Prim2SF x with
  | S754_finite s m e =>
      let v := if s then Z.neg m else Z.pos m in
      if 0 <=? e then v * 2 ^ e else v / 2 ^ (- e)
  | _ => 0
  end.

(** [q] with [n] zero bits appended, and the number of bits by which
    the mantissa of a Number is longer than the whole number [q]. *)
Definition shl (q : positive) (n : Z) : positive :=
  match n with Zpos p => Pos.iter xO q p | _ => q end.

Definition slack (q : positive) : Z := prec - Z.pos (digits2_pos q).

(** A Number that is not a negative finite one. *)
Definition notNegative (x : spec_float) : Prop :=
  match x with
  | S754_finite true _ _ => False
  | _ => True
  end.

#[warnings="-inexact-float"]
Definition refundPercentage (daysUntilCheckIn : Z) : float :=
  if 30 <? daysUntilCheckIn then 0.9%float
  else if 15 <? daysUntilCheckIn then 0.7%float
  else if 7 <? daysUntilCheckIn then 0.5%float
  else if 0 <? daysUntilCheckIn then 0.2%float
  else 0%float.

(** [Math.floor(this.pricing.paidAmount * refundPercentage)] *)
Definition refundFor (paidAmount daysUntilCheckIn : Z) : Z :=
  Math_floor (numberOfZ paidAmount * refundPercentage daysUntilCheckIn)%float.

Definition calculateRefund (b : Booking.t) (now : Z) : Z :=
  refundFor (Booking.paidAmount (Booking.pricing b))
            (daysUntilCheckIn (Booking.checkInDate b) now).

(** The refund tiers of the specification, in exact arithmetic. *)
Definition refundPercent (daysUntilCheckIn : Z) : Z :=
  if 30 <? daysUntilCheckIn then 90
  else if 15 <? daysUntilCheckIn then 70
  else if 7 <? daysUntilCheckIn then 50
  else if 0 <? daysUntilCheckIn then 20
  else 0.

Definition specRefund (paidAmount daysUntilCheckIn : Z) : Z :=
  paidAmount * refundPercent daysUntilCheckIn / 100.

(** ** The database and the responses *)

Record DB := {
  bookings : gmap Id Booking.t;
  hostels : gmap Id Hostel.t
}.

(** [res.status(code).json({ success, message })] *)
Record Response := {
  statusCode : Z;
  success : bool;
  message : string
}.

Definition fail (code : Z) (msg : string) : Response :=
  {| statusCode := code; success := false; message := msg |}.

Definition succeed (code : Z) (msg : string) : Response :=
  {| statusCode := code; success := true; message := msg |}.

(** The [express-validator] guard of every route. *)
Definition validationFailed : Response := fail 400 "Validation failed".

(** [await booking.save()].  Mongoose validates the document first and
    throws when a validator fails ([None]); only then does it run the
    pre-save hook and write the document.  A document that has passed
    validation has a [bookingId], so the id the hook would generate is
    not used; the empty string stands for it
    (see [preSave_generated_unused]). *)
Definition saveBooking (id : Id) (b : Booking.t) (db : DB) : option DB :=
  if Booking.validate b
  then Some {| bookings := <[id := Booking.preSave "" b]> (bookings db);
               hostels := hostels db |}
  else None.

(** [await hostel.save()]: [None] when a validator throws. *)
Definition saveHostel (id : Id) (h : Hostel.t) (db : DB) : option DB :=
  if Hostel.validate h
  then Some {| bookings := bookings db;
               hostels := <[id := h]> (hostels db) |}
  else None.

(** [Booking.findOne(filter)]: some document passing the filter. *)
Definition findOne (filter : Booking.t → bool) (m : gmap Id Booking.t)
  : option (Id * Booking.t) :=
  List.find (λ kb, filter kb.2) (map_to_list m).

(** Modelled from the spec: [middleware/auth.js] is not among the sources.
    [authorize(...roles)] lets a request through when the role of the
    authenticated user is one of [roles] and otherwise answers 403 (the
    specification's ForbiddenError, "actor lacks rights"). *)
Definition authorize (roles : list Role) (u : User) : bool :=
  bool_decide (role u ∈ roles).

(** Modelled from the spec: the refusal of [authorize], which is not
    among the sources; a 403 as for the other authorization failures. *)
Definition roleNotAuthorized : Response :=
  fail 403 "User role is not authorized to access this route".

(** [`No ${roomType} rooms available`], the answer of [POST /api/bookings]
    when no room is available. *)
Definition roomUnavailable (ty : RoomType) : Response :=
  fail 400 ("No " +:+ roomTypeName ty +:+ " rooms available").

(** [today.setHours(0, 0, 0, 0)] in a zone [tzOffset] ms east of UTC. *)
Definition startOfDay (tzOffset now : Z) : Z :=
  now - (now + tzOffset) mod msPerDay.

(** [x || 0] on a Number: 0, -0 and NaN count as false. *)
Definition orZero (x : float) : float :=
  if (x =? 0)%float || PrimFloat.is_nan x then 0%float else x.

(** The statuses [POST /api/bookings] counts as an existing active
    booking. *)
Definition activeStatuses : list Booking.Status :=
  [Booking.Pending; Booking.Confirmed; Booking.Paid;
   Booking.CheckedIn; Booking.Active].

Definition isActiveBookingOf (student : Id) (b : Booking.t) : bool :=
  bool_decide (Booking.student b = student)
  && bool_decide (Booking.status b ∈ activeStatuses).

(** ** Requests *)

Record CreateRequest := {
  hostelId : Id;
  roomType : RoomType;
  checkInDate : Z;
  checkOutDate : Z;
  duration : Z;
  (** [req.body.foodOptions] and its [selected] flag, when present *)
  foodOptions : option bool
}.

Record VerifyRequest := {
  razorpay_payment_id : string;
  razorpay_order_id : string;
  razorpay_signature : string
}.

(** ** Pricing ([POST /api/bookings], "Calculate pricing") *)

Definition foodSelected (req : CreateRequest) : bool :=
  default false (foodOptions req).

(** The price as the route computes it: [duration] is the number sent
    in the request, the prices are the hostel's Numbers, and every
    product and sum is a binary64 operation.  The food cost is added only
    inside the [if]. *)
Definition computeTotalAmount (hostel : Hostel.t) (req : CreateRequest)
  : float :=
  let duration := numberOfZ (duration req) in
  let monthlyRent := Hostel.monthlyRent (Hostel.pricing hostel) in
  let securityDeposit := orZero (Hostel.securityDeposit (Hostel.pricing hostel)) in
  let maintenanceCharges :=
    orZero (Hostel.maintenanceCharges (Hostel.pricing hostel)) in
  let totalAmount :=
    ((monthlyRent * duration) + securityDeposit
     + (maintenanceCharges * duration))%float in
  if foodSelected req && Hostel.available (Hostel.foodOptions hostel)
  then
    let foodCost :=
      (Hostel.monthlyCost (Hostel.foodOptions hostel) * duration)%float in
    (totalAmount + foodCost)%float
  else totalAmount.

(** Booking documents are modelled with whole amounts: a Number that goes
    into a new document is read as a whole amount, a fractional part
    being cut.  No document built this way is ever stored (see
    [createBooking_never_succeeds]). *)
Definition wholeAmount (x : float) : Z := Math_floor x.

(** [new Booking({ ... })] in [POST /api/bookings], with schema defaults;
    the route gives the document no [bookingId]. *)
Definition newBooking (user : User) (hostel : Hostel.t) (req : CreateRequest)
  : Booking.t :=
  {| Booking.bookingId := None;
     Booking.student := uid user;
     Booking.hostel := hostelId req;
     Booking.owner := Hostel.owner hostel;
     Booking.roomType := roomType req;
     Booking.checkInDate := checkInDate req;
     Booking.checkOutDate := checkOutDate req;
     Booking.duration := duration req;
     Booking.pricing :=
       {| Booking.monthlyRent :=
            wholeAmount (Hostel.monthlyRent (Hostel.pricing hostel));
          Booking.securityDeposit :=
            wholeAmount (orZero (Hostel.securityDeposit (Hostel.pricing hostel)));
          Booking.maintenanceCharges :=
            wholeAmount
              (orZero (Hostel.maintenanceCharges (Hostel.pricing hostel)));
          Booking.totalAmount := wholeAmount (computeTotalAmount hostel req);
          Booking.paidAmount := 0;
          Booking.pendingAmount := 0 |};
     Booking.foodOptions :=
       if foodSelected req
       then {| Booking.selected := true;
               Booking.monthlyCost :=
                 wholeAmount (Hostel.monthlyCost (Hostel.foodOptions hostel)) |}
       else {| Booking.selected := false; Booking.monthlyCost := 0 |};
     Booking.status := Booking.Pending;
     Booking.payment := Booking.defaultPayment;
     Booking.confirmedAt := None;
     Booking.paidAt := None;
     Booking.cancelledAt := None;
     Booking.cancellation := None |}.

(** ** Document updates *)

(** The updates of [PUT /api/bookings/:id/confirm]. *)
Definition markConfirmed (now : Z) (booking : Booking.t) : Booking.t :=
  Booking.setConfirmedAt now (Booking.setStatus Booking.Confirmed booking).

(** The updates of [PUT /api/bookings/:id/reject]; [reason] is
    [req.body.reason]. *)
Definition markRejected (now : Z) (reason : option string)
    (booking : Booking.t) : Booking.t :=
  let cancellation :=
    {| Booking.reason :=
         match reason with
         | Some r => if bool_decide (r = "") then "Rejected by owner" else r
         | None => "Rejected by owner"
         end;
       Booking.cancelledBy := "Owner";
       Booking.refundAmount := 0;
       Booking.refundStatus := Booking.RefundNotApplicable |} in
  Booking.setCancelledAt now
    (Booking.setCancellation cancellation
       (Booking.setStatus Booking.Rejected booking)).

(** The refund computed by [PUT /api/bookings/:id/cancel]. *)
Definition cancelRefund (now : Z) (booking : Booking.t) : Z :=
  if 0 <? Booking.paidAmount (Booking.pricing booking)
  then calculateRefund booking now
  else 0.

(** The updates of [PUT /api/bookings/:id/cancel]. *)
Definition markCancelled (now : Z) (user : User) (reason : string)
    (booking : Booking.t) : Booking.t :=
  let refundAmount := cancelRefund now booking in
  let cancellation :=
    {| Booking.reason := reason;
       Booking.cancelledBy := roleName (role user);
       Booking.refundAmount := refundAmount;
       Booking.refundStatus :=
         if 0 <? refundAmount then Booking.RefundPending
         else Booking.RefundNotApplicable |} in
  Booking.setCancelledAt now
    (Booking.setCancellation cancellation
       (Booking.setStatus Booking.Cancelled booking)).

(** The updates of [POST /api/bookings/:id/payment/verify]. *)
Definition markPaid (now : Z) (req : VerifyRequest) (booking : Booking.t)
  : Booking.t :=
  let pricing :=
    Booking.setPendingAmount 0
      (Booking.setPaidAmount
         (Booking.totalAmount (Booking.pricing booking))
         (Booking.pricing booking)) in
  let payment :=
    {| Booking.method := "Online";
       Booking.transactionId := Some (razorpay_payment_id req);
       Booking.paymentDate := Some now;
       Booking.razorpayOrderId :=
         Booking.razorpayOrderId (Booking.payment booking);
       Booking.razorpayPaymentId := Some (razorpay_payment_id req);
       Booking.razorpaySignature := Some (razorpay_signature req) |} in
  Booking.setPaidAt now
    (Booking.setPayment payment
       (Booking.setPricing pricing
          (Booking.setStatus Booking.Paid booking))).

(** "Update hostel room availability": the first room entry of the
    booking's type gets [delta] added to [availableRooms], and the
    hostel's occupancy [occupancy] added, when hostel and entry exist. *)
Definition updateAvailability (delta occupancy : Z) (booking : Booking.t)
    (db : DB) : option DB :=
  match hostels db !! Booking.hostel booking with
  | None => Some db
  | Some hostel =>
    match Hostel.findRoom (Booking.roomType booking) hostel with
    | None => Some db
    | Some (roomIndex, room) =>
      let room' :=
        Hostel.setAvailableRooms (Hostel.availableRooms room + delta) room in
      let hostel' :=
        Hostel.setCurrentOccupancy (Hostel.currentOccupancy hostel + occupancy)
          (Hostel.setRooms (<[roomIndex := room']> (Hostel.rooms hostel)) hostel) in
      saveHostel (Booking.hostel booking) hostel' db
    end
  end.

(** ** Route handlers *)

Section Routes.

(** [crypto.createHmac('sha256', key).update(data).digest('hex')], the
    server's [RAZORPAY_KEY_SECRET] (when set) and its time zone. *)
Variable hmacSha256Hex : string → string → string.
Variable RAZORPAY_KEY_SECRET : option string.
Variable tzOffset : Z.

(** [POST /api/bookings] *)
Definition createBooking (now : Z) (user : User) (req : CreateRequest)
    (db : DB) : Response * DB :=
  if negb (authorize [Student] user) then (roleNotAuthorized, db)
  else if negb (1 <=? duration req) then (validationFailed, db)
  else
    let checkIn := checkInDate req in
    let checkOut := checkOutDate req in
    let today := startOfDay tzOffset now in
    if checkIn <? today
    then (fail 400 "Check-in date cannot be in the past", db)
    else if checkOut <=? checkIn
    then (fail 400 "Check-out date must be after check-in date", db)
    else
      match hostels db !! hostelId req with
      | None => (fail 404 "Hostel not found", db)
      | Some hostel =>
        if negb (bool_decide (Hostel.status hostel = Hostel.Active))
           || negb (Hostel.isVerified hostel)
        then (fail 400 "Hostel is not available for booking", db)
        else
          let noRooms := roomUnavailable (roomType req) in
          match Hostel.findRoom (roomType req) hostel with
          | None => (noRooms, db)
          | Some (_, roomInfo) =>
            if Hostel.availableRooms roomInfo <=? 0 then (noRooms, db)
            else
              match findOne (isActiveBookingOf (uid user)) (bookings db) with
              | Some _ => (fail 400 "You already have an active booking", db)
              | None =>
                let booking := newBooking user hostel req in
                match saveBooking (fresh (dom (bookings db))) booking db with
                | None => (fail 500 "Server error while creating booking", db)
                | Some db' =>
                    (succeed 201 "Booking request created successfully", db')
                end
              end
          end
      end.

(** [PUT /api/bookings/:id/confirm] *)
Definition confirmBooking (now : Z) (user : User) (id : Id) (db : DB)
  : Response * DB :=
  if negb (authorize [HostelOwner] user) then (roleNotAuthorized, db)
  else
    match bookings db !! id with
    | None => (fail 404 "Booking not found", db)
    | Some booking =>
      if negb (bool_decide (Booking.owner booking = uid user))
      then (fail 403 "Not authorized to confirm this booking", db)
      else if negb (bool_decide (Booking.status booking = Booking.Pending))
      then (fail 400 "Booking cannot be confirmed in current status", db)
      else
        match saveBooking id (markConfirmed now booking) db with
        | None => (fail 500 "Server error while confirming booking", db)
        | Some db' => (succeed 200 "Booking confirmed successfully", db')
        end
    end.

(** [PUT /api/bookings/:id/reject]; [reason] is [req.body.reason]. *)
Definition rejectBooking (now : Z) (user : User) (id : Id)
    (reason : option string) (db : DB) : Response * DB :=
  if negb (authorize [HostelOwner] user) then (roleNotAuthorized, db)
  else
    match bookings db !! id with
    | None => (fail 404 "Booking not found", db)
    | Some booking =>
      if negb (bool_decide (Booking.owner booking = uid user))
      then (fail 403 "Not authorized to reject this booking", db)
      else if negb (bool_decide (Booking.status booking = Booking.Pending))
      then (fail 400 "Booking cannot be rejected in current status", db)
      else
        match saveBooking id (markRejected now reason booking) db with
        | None => (fail 500 "Server error while rejecting booking", db)
        | Some db' => (succeed 200 "Booking rejected successfully", db')
        end
    end.

(** [PUT /api/bookings/:id/cancel]; the empty [reason] stands for a
    missing or empty [req.body.reason]. *)
Definition cancelBooking (now : Z) (user : User) (id : Id) (reason : string)
    (db : DB) : Response * DB :=
  if bool_decide (reason = "") then (validationFailed, db)
  else
    match bookings db !! id with
    | None => (fail 404 "Booking not found", db)
    | Some booking =>
      let canCancel :=
        bool_decide (Booking.student booking = uid user)
        || bool_decide (Booking.owner booking = uid user)
        || bool_decide (role user = Admin) in
      if negb canCancel
      then (fail 403 "Not authorized to cancel this booking", db)
      else if negb (Booking.canBeCancelled booking)
      then (fail 400 "Booking cannot be cancelled in current status", db)
      else
        let booking := markCancelled now user reason booking in
        let serverError := fail 500 "Server error while cancelling booking" in
        match saveBooking id booking db with
        | None => (serverError, db)
        | Some db1 =>
          match updateAvailability 1 0 booking db1 with
          | None => (serverError, db1)
          | Some db2 => (succeed 200 "Booking cancelled successfully", db2)
          end
        end
    end.

(** [POST /api/bookings/:id/payment/verify] *)
Definition verifyPayment (now : Z) (user : User) (id : Id)
    (req : VerifyRequest) (db : DB) : Response * DB :=
  if negb (authorize [Student] user) then (roleNotAuthorized, db)
  else if bool_decide (razorpay_payment_id req = "")
          || bool_decide (razorpay_order_id req = "")
          || bool_decide (razorpay_signature req = "")
  then (validationFailed, db)
  else
    let serverError := fail 500 "Server error while verifying payment" in
    match bookings db !! id with
    | None => (fail 404 "Booking not found", db)
    | Some booking =>
      if negb (bool_decide (Booking.student booking = uid user))
      then (fail 403 "Not authorized to verify payment for this booking", db)
      else
        match RAZORPAY_KEY_SECRET with
        | None => (serverError, db)
        | Some secret =>
          let body := razorpay_order_id req +:+ "|" +:+ razorpay_payment_id req in
          let expectedSignature := hmacSha256Hex secret body in
          if negb (bool_decide (expectedSignature = razorpay_signature req))
          then (fail 400 "Invalid payment signature", db)
          else
            let booking := markPaid now req booking in
            match saveBooking id booking db with
            | None => (serverError, db)
            | Some db1 =>
              match updateAvailability (-1) 1 booking db1 with
              | None => (serverError, db1)
              | Some db2 => (succeed 200 "Payment verified successfully", db2)
              end
            end
        end
    end.

(** ** Sequences of lifecycle operations *)

Inductive Op :=
| OpCreate (now : Z) (user : User) (req : CreateRequest)
| OpConfirm (now : Z) (user : User) (id : Id)
| OpReject (now : Z) (user : User) (id : Id) (reason : option string)
| OpVerify (now : Z) (user : User) (id : Id) (req : VerifyRequest)
| OpCancel (now : Z) (user : User) (id : Id) (reason : string).

Definition step (op : Op) (db : DB) : Response * DB :=
  match op with
  | OpCreate now user req => createBooking now user req db
  | OpConfirm now user id => confirmBooking now user id db
  | OpReject now user id reason => rejectBooking now user id reason db
  | OpVerify now user id req => verifyPayment now user id req db
  | OpCancel now user id reason => cancelBooking now user id reason db
  end.

Fixpoint run (ops : list Op) (db : DB) : DB :=
  match ops with
  | [] => db
  | op :: ops => run ops (step op db).2
  end.

End Routes.

Arguments createBooking tzOffset now user req db : assert.
Arguments verifyPayment hmacSha256Hex RAZORPAY_KEY_SECRET now user id req db : assert.
Arguments step hmacSha256Hex RAZORPAY_KEY_SECRET tzOffset op db : assert.
Arguments run hmacSha256Hex RAZORPAY_KEY_SECRET tzOffset ops db : assert.

(** ** Invariants *)

(** No room entry of any stored hostel has a negative [availableRooms]. *)
Definition roomsNonNegative (db : DB) : Prop :=
  map_Forall (λ _ h, Forall (λ r, 0 ≤ Hostel.availableRooms r) (Hostel.rooms h))
    (hostels db).

(** Every room entry of every stored hostel is within [0, totalRooms]. *)
Definition roomsWithinTotal (db : DB) : Prop :=
  map_Forall
    (λ _ h, Forall (λ r, 0 ≤ Hostel.availableRooms r ≤ Hostel.totalRooms r)
              (Hostel.rooms h))
    (hostels db).

(** The stored pending amount is the total less the paid amount. *)
Definition pendingConsistent (b : Booking.t) : Prop :=
  Booking.pendingAmount (Booking.pricing b)
  = Booking.totalAmount (Booking.pricing b) - Booking.paidAmount (Booking.pricing b).

(** A stored booking passes the schema validators and has a consistent
    pending amount. *)
Definition storedOk (b : Booking.t) : Prop :=
  Booking.validate b = true ∧ pendingConsistent b.

Definition bookingsOk (db : DB) : Prop :=
  map_Forall (λ _ b, storedOk b) (bookings db).

(** The refund amount in the cancellation sub-record of a stored booking. *)
Definition refundRecorded (db : DB) (id : Id) : option Z :=
  booking ← bookings db !! id;
  cancellation ← Booking.cancellation booking;
  Some (Booking.refundAmount cancellation).

(** A verification request whose three fields are present and whose
    signature is the digest of [orderId|paymentId] under [secret]. *)
Definition wellSigned (hmacSha256Hex : string → string → string)
    (secret : string) (req : VerifyRequest) : Prop :=
  razorpay_payment_id req ≠ ""
  ∧ razorpay_order_id req ≠ ""
  ∧ razorpay_signature req ≠ ""
  ∧ hmacSha256Hex secret
      (razorpay_order_id req +:+ "|" +:+ razorpay_payment_id req)
    = razorpay_signature req.

(** [availableRooms] of the room entry that the routes pick for a hostel
    and a room type. *)
Definition availableOf (db : DB) (hid : Id) (ty : RoomType) : option Z :=
  hostel ← hostels db !! hid;
  entry ← Hostel.findRoom ty hostel;
  Some (Hostel.availableRooms entry.2).

(** ** Sample data

    A hostel with two single rooms, a student, the hostel's owner, and a
    keyed digest standing in for HMAC-SHA256 in the examples (the
    theorems hold for every digest function). *)

Definition toyHmac (key data : string) : string := key +:+ "/" +:+ data.

Definition hostel0 : Hostel.t :=
  {| Hostel.owner := 2%nat;
     Hostel.pricing :=
       {| Hostel.monthlyRent := 1000%float;
          Hostel.securityDeposit := 500%float;
          Hostel.maintenanceCharges := 0%float |};
     Hostel.rooms :=
       [ {| Hostel.type := Single; Hostel.totalRooms := 2;
            Hostel.availableRooms := 2 |} ];
     Hostel.foodOptions :=
       {| Hostel.available := false; Hostel.monthlyCost := 500%float |};
     Hostel.status := Hostel.Active;
     Hostel.isVerified := true;
     Hostel.totalCapacity := 4;
     Hostel.currentOccupancy := 0 |}.

Definition db0 : DB :=
  {| bookings := ∅; hostels := {[ 1%nat := hostel0 ]} |}.

Definition alice : User := {| uid := 7%nat; role := Student |}.
Definition olga : User := {| uid := 2%nat; role := HostelOwner |}.

Definition req0 : CreateRequest :=
  {| hostelId := 1%nat; roomType := Single;
     checkInDate := 20 * msPerDay; checkOutDate := 200 * msPerDay;
     duration := 6; foodOptions := None |}.

(** The same request with a food plan selected. *)
Definition reqFood : CreateRequest :=
  {| hostelId := 1%nat; roomType := Single;
     checkInDate := 20 * msPerDay; checkOutDate := 200 * msPerDay;
     duration := 6; foodOptions := Some true |}.

Definition pay0 : VerifyRequest :=
  {| razorpay_payment_id := "pay_1";
     razorpay_order_id := "order_1";
     razorpay_signature := toyHmac "key" "order_1|pay_1" |}.

(** [pay0] with the last character of the signature changed. *)
Definition payTampered : VerifyRequest :=
  {| razorpay_payment_id := "pay_1";
     razorpay_order_id := "order_1";
     razorpay_signature := "key/order_1|pay_2" |}.

(** A booking of [alice] paid in full, twenty days before check-in. *)
Definition bookingPaid : Booking.t :=
  {| Booking.bookingId := Some "RV2611020042";
     Booking.student := 7%nat; Booking.hostel := 1%nat;
     Booking.owner := 2%nat; Booking.roomType := Single;
     Booking.checkInDate := 20 * msPerDay;
     Booking.checkOutDate := 200 * msPerDay;
     Booking.duration := 6;
     Booking.pricing :=
       {| Booking.monthlyRent := 7000; Booking.securityDeposit := 3000;
          Booking.maintenanceCharges := 0; Booking.totalAmount := 45000;
          Booking.paidAmount := 45000; Booking.pendingAmount := 0 |};
     Booking.foodOptions :=
       {| Booking.selected := false; Booking.monthlyCost := 0 |};
     Booking.status := Booking.Paid;
     Booking.payment := Booking.defaultPayment;
     Booking.confirmedAt := Some 0; Booking.paidAt := Some 0;
     Booking.cancelledAt := None; Booking.cancellation := None |}.

(** A database in which [alice] has one earlier, checked-out booking. *)
Definition dbCheckedOut : DB :=
  {| bookings := {[ 0%nat := Booking.setStatus Booking.CheckedOut bookingPaid ]};
     hostels := {[ 1%nat := hostel0 ]} |}.

(** A database holding [bookingPaid] in a given status. *)
Definition dbWith (s : Booking.Status) : DB :=
  {| bookings := {[ 0%nat := Booking.setStatus s bookingPaid ]};
     hostels := {[ 1%nat := hostel0 ]} |}.

(** A stored booking of [alice] for a single room of [hostel0], six
    months at 1000 with a deposit of 500, not yet confirmed. *)
Definition booking0 : Booking.t :=
  {| Booking.bookingId := Some "RV2611020001";
     Booking.student := 7%nat; Booking.hostel := 1%nat;
     Booking.owner := 2%nat; Booking.roomType := Single;
     Booking.checkInDate := 20 * msPerDay;
     Booking.checkOutDate := 200 * msPerDay;
     Booking.duration := 6;
     Booking.pricing :=
       {| Booking.monthlyRent := 1000; Booking.securityDeposit := 500;
          Booking.maintenanceCharges := 0; Booking.totalAmount := 6500;
          Booking.paidAmount := 0; Booking.pendingAmount := 6500 |};
     Booking.foodOptions :=
       {| Booking.selected := false; Booking.monthlyCost := 0 |};
     Booking.status := Booking.Pending;
     Booking.payment := Booking.defaultPayment;
     Booking.confirmedAt := None; Booking.paidAt := None;
     Booking.cancelledAt := None; Booking.cancellation := None |}.

(** The sample database holding [booking0]; the same after the owner has
    confirmed, and after the payment has then been verified. *)
Definition dbPending : DB :=
  {| bookings := {[ 0%nat := booking0 ]}; hostels := {[ 1%nat := hostel0 ]} |}.

Definition dbConfirmed : DB := (confirmBooking 0 olga 0%nat dbPending).2.

Definition dbPaid : DB :=
  (verifyPayment toyHmac (Some "key") 0 alice 0%nat pay0 dbConfirmed).2.

(** ** Payment orders ([POST /api/bookings/:id/payment/create-order]) *)

Module Order.

(** The [options] passed to [razorpay.orders.create]. *)
Record Options := {
  amount : float;
  currency : string;
  receipt : string;
  bookingId : option string;
  studentId : Id;
  hostelId : Id
}.

(** The [data] of a successful answer. *)
Record Data := {
  orderId : string;
  dataAmount : Z;
  dataCurrency : string;
  dataBookingId : option string
}.

End Order.

(** [booking.payment.razorpayOrderId = order.id] *)
Definition setRazorpayOrderId (orderId : string) (booking : Booking.t)
  : Booking.t :=
  Booking.setPayment
    {| Booking.method := Booking.method (Booking.payment booking);
       Booking.transactionId := Booking.transactionId (Booking.payment booking);
       Booking.paymentDate := Booking.paymentDate (Booking.payment booking);
       Booking.razorpayOrderId := Some orderId;
       Booking.razorpayPaymentId :=
         Booking.razorpayPaymentId (Booking.payment booking);
       Booking.razorpaySignature :=
         Booking.razorpaySignature (Booking.payment booking) |}
    booking.

(** The order options built for a booking and its student: the pending
    amount in paise, a binary64 product. *)
Definition orderOptions (user : User) (booking : Booking.t) : Order.Options :=
  {| Order.amount :=
       (numberOfZ (Booking.pendingAmount (Booking.pricing booking)) * 100)%float;
     Order.currency := "INR";
     Order.receipt :=
       "booking_" +:+ default "undefined" (Booking.bookingId booking);
     Order.bookingId := Booking.bookingId booking;
     Order.studentId := uid user;
     Order.hostelId := Booking.hostel booking |}.

(** [POST /api/bookings/:id/payment/create-order].  The gateway call
    [razorpay.orders.create] is an argument: it answers with the id of
    the new order, or throws ([None]). *)
Definition createPaymentOrder
    (razorpayOrdersCreate : Order.Options → option string)
    (user : User) (id : Id) (db : DB) : Response * option Order.Data * DB :=
  if negb (authorize [Student] user) then (roleNotAuthorized, None, db)
  else
    match bookings db !! id with
    | None => (fail 404 "Booking not found", None, db)
    | Some booking =>
      if negb (bool_decide (Booking.student booking = uid user))
      then (fail 403 "Not authorized to make payment for this booking", None, db)
      else if negb (bool_decide (Booking.status booking = Booking.Confirmed))
      then (fail 400 "Booking must be confirmed before payment", None, db)
      else if Booking.pendingAmount (Booking.pricing booking) <=? 0
      then (fail 400 "No pending amount for this booking", None, db)
      else
        let serverError :=
          fail 500 "Server error while creating payment order" in
        match razorpayOrdersCreate (orderOptions user booking) with
        | None => (serverError, None, db)
        | Some orderId =>
          let booking := setRazorpayOrderId orderId booking in
          match saveBooking id booking db with
          | None => (serverError, None, db)
          | Some db' =>
            let saved := Booking.preSave "" booking in
            (succeed 200 "",
             Some {| Order.orderId := orderId;
                     Order.dataAmount :=
                       Booking.pendingAmount (Booking.pricing saved);
                     Order.dataCurrency := "INR";
                     Order.dataBookingId := Booking.bookingId saved |},
             db')
          end
        end
    end.

(** ** All writing routes *)

(** A request to one of the six routes of the booking router that write
    to the database. *)
Inductive Request :=
| Lifecycle (op : Op)
| CreateOrder (razorpayOrdersCreate : Order.Options → option string)
    (user : User) (id : Id).

Section Server.

Variable hmacSha256Hex : string → string → string.
Variable RAZORPAY_KEY_SECRET : option string.
Variable tzOffset : Z.

Definition handle (r : Request) (db : DB) : DB :=
  match r with
  | Lifecycle op => (step hmacSha256Hex RAZORPAY_KEY_SECRET tzOffset op db).2
  | CreateOrder razorpayOrdersCreate user id =>
      (createPaymentOrder razorpayOrdersCreate user id db).2
  end.

Fixpoint serve (rs : list Request) (db : DB) : DB :=
  match rs with
  | [] => db
  | r :: rs => serve rs (handle r db)
  end.

End Server.

(** The ways in which a route rewrites a stored booking. *)
Inductive evolves : Booking.t → Booking.t → Prop :=
| evolves_confirm now b :
    Booking.status b = Booking.Pending →
    evolves b (Booking.preSave "" (markConfirmed now b))
| evolves_reject now reason b :
    Booking.status b = Booking.Pending →
    evolves b (Booking.preSave "" (markRejected now reason b))
| evolves_cancel now user reason b :
    Booking.canBeCancelled b = true →
    Booking.validate (markCancelled now user reason b) = true →
    evolves b (Booking.preSave "" (markCancelled now user reason b))
| evolves_paid now req b :
    evolves b (Booking.preSave "" (markPaid now req b))
| evolves_order orderId b :
    Booking.status b = Booking.Confirmed →
    evolves b (Booking.preSave "" (setRazorpayOrderId orderId b)).

(** The terms of a booking fixed at creation: the parties, the room type,
    the stay and the price. *)
Definition sameTerms (b b' : Booking.t) : Prop :=
  Booking.student b' = Booking.student b
  ∧ Booking.hostel b' = Booking.hostel b
  ∧ Booking.owner b' = Booking.owner b
  ∧ Booking.roomType b' = Booking.roomType b
  ∧ Booking.checkInDate b' = Booking.checkInDate b
  ∧ Booking.checkOutDate b' = Booking.checkOutDate b
  ∧ Booking.duration b' = Booking.duration b
  ∧ Booking.monthlyRent (Booking.pricing b') = Booking.monthlyRent (Booking.pricing b)
  ∧ Booking.securityDeposit (Booking.pricing b')
    = Booking.securityDeposit (Booking.pricing b)
  ∧ Booking.maintenanceCharges (Booking.pricing b')
    = Booking.maintenanceCharges (Booking.pricing b)
  ∧ Booking.totalAmount (Booking.pricing b') = Booking.totalAmount (Booking.pricing b)
  ∧ Booking.foodOptions b' = Booking.foodOptions b.

(** A booking that is unpaid or paid in full: the pending amount is the
    total less the paid amount, which is 0 or the total; nothing is paid
    without a payment stamp; a Pending or Confirmed booking has paid
    nothing, and a Paid one has paid the total and carries the payment
    stamp and the gateway's payment id. *)
Definition paymentState (b : Booking.t) : Prop :=
  let p := Booking.pricing b in
  Booking.pendingAmount p = Booking.totalAmount p - Booking.paidAmount p
  ∧ (Booking.paidAmount p = 0 ∨ Booking.paidAmount p = Booking.totalAmount p)
  ∧ (Booking.paidAt b = None → Booking.paidAmount p = 0)
  ∧ (Booking.status b ∈ [Booking.Pending; Booking.Confirmed] →
     Booking.paidAmount p = 0 ∧ Booking.paidAt b = None)
  ∧ (Booking.status b = Booking.Paid →
     Booking.paidAmount p = Booking.totalAmount p
     ∧ Booking.pendingAmount p = 0
     ∧ is_Some (Booking.paidAt b)
     ∧ is_Some (Booking.razorpayPaymentId (Booking.payment b))).

(** A booking whose cancellation data fit its status: a Cancelled or
    Rejected booking carries a cancellation record and a cancellation
    stamp; a cancellation record names Student, Owner or Admin, has a
    refund amount that is not negative, and its refund status is Pending
    exactly when that amount is positive and Not Applicable exactly when
    it is 0; a Rejected booking was cancelled by "Owner" with refund 0, a
    Cancelled one not by "Owner". *)
Definition cancellationState (b : Booking.t) : Prop :=
  (Booking.status b ∈ [Booking.Cancelled; Booking.Rejected] →
   is_Some (Booking.cancellation b) ∧ is_Some (Booking.cancelledAt b))
  ∧ ∀ c, Booking.cancellation b = Some c →
      Booking.cancelledBy c ∈ ["Student"; "Owner"; "Admin"]
      ∧ 0 ≤ Booking.refundAmount c
      ∧ (Booking.refundStatus c = Booking.RefundPending
         ↔ 0 < Booking.refundAmount c)
      ∧ (Booking.refundStatus c = Booking.RefundNotApplicable
         ↔ Booking.refundAmount c = 0)
      ∧ (Booking.status b = Booking.Rejected →
         Booking.cancelledBy c = "Owner" ∧ Booking.refundAmount c = 0)
      ∧ (Booking.status b = Booking.Cancelled →
         Booking.cancelledBy c ≠ "Owner").

(** A room entry without its [availableRooms]. *)
Definition roomKind (r : Hostel.Room) : RoomType * Z :=
  (Hostel.type r, Hostel.totalRooms r).

(** Two versions of a hostel document that differ at most in the
    [availableRooms] of their room entries and in [currentOccupancy]. *)
Definition sameListing (h h' : Hostel.t) : Prop :=
  Hostel.owner h' = Hostel.owner h
  ∧ Hostel.pricing h' = Hostel.pricing h
  ∧ Hostel.foodOptions h' = Hostel.foodOptions h
  ∧ Hostel.status h' = Hostel.status h
  ∧ Hostel.isVerified h' = Hostel.isVerified h
  ∧ Hostel.totalCapacity h' = Hostel.totalCapacity h
  ∧ roomKind <$> Hostel.rooms h' = roomKind <$> Hostel.rooms h.

(** The change a request can make to one [availableRooms] count and to
    one hostel's [currentOccupancy]: payment verification takes a room
    and adds an occupant, cancellation gives a room back. *)
Definition roomDelta (r : Request) : Z :=
  match r with
  | Lifecycle (OpVerify _ _ _ _) => -1
  | Lifecycle (OpCancel _ _ _ _) => 1
  | _ => 0
  end.

Definition occupancyDelta (r : Request) : Z :=
  match r with
  | Lifecycle (OpVerify _ _ _ _) => 1
  | _ => 0
  end.

(** ** Virtuals and statistics of the Booking model *)

(** The strings of the [status] enumeration. *)
Definition statusName (s : Booking.Status) : string :=
  match s with
  | Booking.Pending => "Pending" | Booking.Confirmed => "Confirmed"
  | Booking.Paid => "Paid" | Booking.CheckedIn => "CheckedIn"
  | Booking.Active => "Active" | Booking.CheckedOut => "CheckedOut"
  | Booking.Completed => "Completed" | Booking.Cancelled => "Cancelled"
  | Booking.Rejected => "Rejected" | Booking.Expired => "Expired"
  end.

Definition allStatuses : list Booking.Status :=
  [Booking.Pending; Booking.Confirmed; Booking.Paid; Booking.CheckedIn;
   Booking.Active; Booking.CheckedOut; Booking.Completed; Booking.Cancelled;
   Booking.Rejected; Booking.Expired].

#[global] Instance BookingStatus_countable : Countable Booking.Status.
Proof.
  refine (inj_countable'
            (λ s, match s with
                  | Booking.Pending => 0 | Booking.Confirmed => 1
                  | Booking.Paid => 2 | Booking.CheckedIn => 3
                  | Booking.Active => 4 | Booking.CheckedOut => 5
                  | Booking.Completed => 6 | Booking.Cancelled => 7
                  | Booking.Rejected => 8 | Booking.Expired => 9
                  end%nat)
            (λ n, match n with
                  | 0 => Booking.Pending | 1 => Booking.Confirmed
                  | 2 => Booking.Paid | 3 => Booking.CheckedIn
                  | 4 => Booking.Active | 5 => Booking.CheckedOut
                  | 6 => Booking.Completed | 7 => Booking.Cancelled
                  | 8 => Booking.Rejected | _ => Booking.Expired
                  end%nat) _).
  by intros [].
Defined.

(** The virtual [durationInDays]:
    [Math.ceil(Math.abs(checkOutDate - checkInDate) / (1000*60*60*24))];
    both dates are required, so the virtual's fallback 0 is not taken. *)
Definition durationInDays (b : Booking.t) : Z :=
  - ((- Z.abs (Booking.checkOutDate b - Booking.checkInDate b)) / msPerDay).

Module Stats.

(** One group of [getBookingStats]: [count], [totalAmount] and
    [paidAmount] of the bookings of one status. *)
Record Group := {
  count : Z;
  totalAmount : Z;
  paidAmount : Z
}.

Definition empty : Group := {| count := 0; totalAmount := 0; paidAmount := 0 |}.

(** [$sum: 1], [$sum: '$pricing.totalAmount'], [$sum: '$pricing.paidAmount'] *)
Definition add (b : Booking.t) (g : Group) : Group :=
  {| count := count g + 1;
     totalAmount := totalAmount g + Booking.totalAmount (Booking.pricing b);
     paidAmount := paidAmount g + Booking.paidAmount (Booking.pricing b) |}.

(** The group of a list of bookings taken together. *)
Definition ofList (l : list Booking.t) : Group := foldr add empty l.

End Stats.

(** The documents of the booking collection that pass a filter
    ([$match], [find], [countDocuments]). *)
Definition matching (filter : Booking.t → bool) (db : DB) : list Booking.t :=
  List.filter filter (map_to_list (bookings db)).*2.

(** [bookingSchema.statics.getBookingStats]: the matching bookings grouped
    by status. *)
Definition groupByStatus (l : list Booking.t)
  : gmap Booking.Status Stats.Group :=
  foldr (λ b acc,
           <[Booking.status b :=
               Stats.add b (default Stats.empty (acc !! Booking.status b))]> acc)
        ∅ l.

Definition getBookingStats (filter : Booking.t → bool) (db : DB)
  : gmap Booking.Status Stats.Group :=
  groupByStatus (matching filter db).

(** [Booking.countDocuments(filter)] *)
Definition countDocuments (filter : Booking.t → bool) (db : DB) : Z :=
  Z.of_nat (length (matching filter db)).

(** The filter of [GET /api/bookings/stats]: a hostel owner's own
    bookings, every booking for an admin. *)
Definition statsFilter (user : User) (b : Booking.t) : bool :=
  match role user with
  | HostelOwner => bool_decide (Booking.owner b = uid user)
  | _ => true
  end.

Definition withStatus (s : Booking.Status) (filter : Booking.t → bool)
    (b : Booking.t) : bool :=
  filter b && bool_decide (Booking.status b = s).

(** [totalRevenue] of [GET /api/bookings/stats]: the paid amounts of the
    matching bookings in status Paid, Active or Completed; 0 when there
    are none. *)
Definition totalRevenue (filter : Booking.t → bool) (db : DB) : Z :=
  Stats.paidAmount
    (Stats.ofList
       (matching
          (λ b, filter b
                && bool_decide (Booking.status b
                                ∈ [Booking.Paid; Booking.Active; Booking.Completed]))
          db)).

(** ** Listing bookings ([GET /api/bookings/my-bookings]) *)

Module Page.

Record Pagination := {
  currentPage : Z;
  totalPages : Z;
  totalBookings : Z;
  hasNext : bool;
  hasPrev : bool
}.

End Page.

(** The filter built from the role of the user and the [status] query
    parameter (an absent or empty parameter does not filter). *)
Definition myBookingsFilter (user : User) (status : option string)
    (b : Booking.t) : bool :=
  match role user with
  | Student => bool_decide (Booking.student b = uid user)
  | HostelOwner => bool_decide (Booking.owner b = uid user)
  | _ => true
  end
  && match status with
     | Some s => if bool_decide (s = "") then true
                 else bool_decide (statusName (Booking.status b) = s)
     | None => true
     end.

(** [Math.ceil(total / limit)] for a positive [limit]. *)
Definition pagesFor (total limit : Z) : Z := - ((- total) / limit).

(** [GET /api/bookings/my-bookings].  The documents carry no [createdAt]
    here, so the order [.sort({ createdAt: -1 })] gives to the matching
    documents is an argument of the handler. *)
Definition myBookings (sortByCreatedAtDesc : list Booking.t → list Booking.t)
    (user : User) (status : option string) (page limit : option Z) (db : DB)
  : Response * option (list Booking.t * Page.Pagination) :=
  if negb (from_option (λ p, 1 <=? p) true page)
     || negb (from_option (λ l, (1 <=? l) && (l <=? 50)) true limit)
  then (validationFailed, None)
  else
    let page := default 1 page in
    let limit := default 10 limit in
    let skip := (page - 1) * limit in
    let found := sortByCreatedAtDesc (matching (myBookingsFilter user status) db) in
    let bookings := take (Z.to_nat limit) (drop (Z.to_nat skip) found) in
    let total := countDocuments (myBookingsFilter user status) db in
    (succeed 200 "",
     Some (bookings,
           {| Page.currentPage := page;
              Page.totalPages := pagesFor total limit;
              Page.totalBookings := total;
              Page.hasNext := skip + Z.of_nat (length bookings) <? total;
              Page.hasPrev := 1 <? page |})).

(** ** The route table of the booking router *)

Module Router.

Inductive Method := GET | POST | PUT.

Inductive Segment := Lit (s : string) | Param (name : string).

Inductive Handler :=
| CreateBooking | MyBookings | GetBooking | Confirm | Reject | Cancel
| CreatePaymentOrder | VerifyPayment | BookingStats.

#[global] Instance Method_eq_dec : EqDecision Method.
Proof. solve_decision. Defined.

#[global] Instance Handler_eq_dec : EqDecision Handler.
Proof. solve_decision. Defined.

(** The routes in the order in which [bookings.js] registers them. *)
Definition table : list (Method * list Segment * Handler) :=
  [ (POST, [], CreateBooking);
    (GET, [Lit "my-bookings"], MyBookings);
    (GET, [Param "id"], GetBooking);
    (PUT, [Param "id"; Lit "confirm"], Confirm);
    (PUT, [Param "id"; Lit "reject"], Reject);
    (PUT, [Param "id"; Lit "cancel"], Cancel);
    (POST, [Param "id"; Lit "payment"; Lit "create-order"], CreatePaymentOrder);
    (POST, [Param "id"; Lit "payment"; Lit "verify"], VerifyPayment);
    (GET, [Lit "stats"], BookingStats) ].

(** Express compares literal path segments without regard to case. *)
Definition lowerAscii (c : Ascii.ascii) : Ascii.ascii :=
  let n := Ascii.nat_of_ascii c in
  if (65 <=? n)%nat && (n <=? 90)%nat then Ascii.ascii_of_nat (n + 32) else c.

Fixpoint lower (s : string) : string :=
  match s with
  | EmptyString => EmptyString
  | String c s => String (lowerAscii c) (lower s)
  end.

(** A literal matches its own text; a parameter matches any non-empty
    segment. *)
Definition matchSegment (p : Segment) (s : string) : bool :=
  match p with
  | Lit t => bool_decide (lower t = lower s)
  | Param _ => negb (bool_decide (s = ""))
  end.

Fixpoint matchPath (ps : list Segment) (path : list string) : bool :=
  match ps, path with
  | [], [] => true
  | p :: ps, s :: path => matchSegment p s && matchPath ps path
  | _, _ => false
  end.

(** The first registered route with the method and a matching path
    handles the request; every handler of this router answers without
    passing the request on. *)
Definition dispatch (m : Method) (path : list string) : option Handler :=
  (λ route, route.2)
    <$> List.find (λ route, bool_decide (route.1.1 = m) && matchPath route.1.2 path)
          table.

End Router.

(** ** The booking form of the web client ([BookingModal]) *)

Module Preview.

(** The effect "Update duration when dates change":
    [Math.max(1, Math.ceil(days / 30))], for the whole days between the
    two dates as [differenceInDays] counts them. *)
Definition durationFor (days : Z) : Z := Z.max 1 (- ((- days) / 30)).

End Preview.

(** ** More sample data *)

Definition admin : User := {| uid := 1%nat; role := Admin |}.

(** [booking0] with a pending amount of 0 in place of 6500, as a write
    that bypasses [save()] can leave it. *)
Definition bookingStale : Booking.t :=
  Booking.setPricing
    (Booking.setPendingAmount 0 (Booking.pricing booking0)) booking0.

Definition dbStale : DB :=
  {| bookings := {[ 0%nat := bookingStale ]}; hostels := {[ 1%nat := hostel0 ]} |}.

(** The sample database after [alice] has cancelled [booking0], and one
    with two bookings. *)
Definition dbCancelled : DB :=
  (cancelBooking 0 alice 0%nat "change of plans" dbPending).2.

Definition dbTwo : DB :=
  {| bookings :=
       {[ 0%nat := booking0;
          1%nat := Booking.setStatus Booking.Confirmed bookingPaid ]};
     hostels := {[ 1%nat := hostel0 ]} |}.

(** A payment gateway that accepts every order under one order id. *)
Definition gateway0 (options : Order.Options) : option string :=
  Some "order_1".

(** A request for four times ten to the thirteenth months. *)
Definition reqLong : CreateRequest :=
  {| hostelId := 1%nat; roomType := Single;
     checkInDate := 20 * msPerDay; checkOutDate := 200 * msPerDay;
     duration := 40000000000000; foodOptions := None |}.

(** ** Basic facts about the store *)

Lemma findOne_None filter (m : gmap Id Booking.t) :
  findOne filter m = None ↔ ∀ k b, m !! k = Some b → filter b = false.
Proof.
  unfold findOne. split.
  - intros Hnone k b Hkb.
    apply (find_none _ _ Hnone (k, b)).
    apply list_elem_of_In, elem_of_map_to_list. exact Hkb.
  - intros Hall. destruct (List.find _ _) as [[k b]|] eqn:Hfind; [|done].
    apply find_some in Hfind as [Hin Hf].
    apply list_elem_of_In, elem_of_map_to_list in Hin.
    simpl in Hf. rewrite (Hall _ _ Hin) in Hf. done.
Qed.

Lemma findOne_Some filter (m : gmap Id Booking.t) k b :
  m !! k = Some b → filter b = true → is_Some (findOne filter m).
Proof.
  intros Hkb Hf. destruct (findOne filter m) eqn:Hfind; [eauto|].
  rewrite findOne_None in Hfind. rewrite (Hfind _ _ Hkb) in Hf. done.
Qed.

Lemma saveBooking_Some id b db db' :
  saveBooking id b db = Some db' →
  Booking.validate b = true
  ∧ db' = {| bookings := <[id := Booking.preSave "" b]> (bookings db);
             hostels := hostels db |}.
Proof. unfold saveBooking. case_match; naive_solver. Qed.

Lemma saveHostel_Some id h db db' :
  saveHostel id h db = Some db' →
  Hostel.validate h = true
  ∧ db' = {| bookings := bookings db; hostels := <[id := h]> (hostels db) |}.
Proof. unfold saveHostel. case_match; naive_solver. Qed.

Lemma validate_hasBookingId b :
  Booking.validate b = true → Booking.hasBookingId b = true.
Proof.
  unfold Booking.validate. intros Hvalid.
  repeat (apply andb_prop in Hvalid as [Hvalid _]). exact Hvalid.
Qed.

(** On a document that has a [bookingId] the hook only recomputes the
    pending amount, whatever id it would have generated. *)
Lemma preSave_hasBookingId generated b :
  Booking.hasBookingId b = true →
  Booking.preSave generated b
  = Booking.setPricing
      (Booking.setPendingAmount
         (Booking.totalAmount (Booking.pricing b)
          - Booking.paidAmount (Booking.pricing b))
         (Booking.pricing b)) b.
Proof. intros Hid. unfold Booking.preSave, Booking.setPricing. by rewrite Hid. Qed.

(** The id that the hook would generate plays no role in [save()]:
    validation has made sure that the document has one. *)
Lemma preSave_generated_unused generated b :
  Booking.validate b = true →
  Booking.preSave generated b = Booking.preSave "" b.
Proof.
  intros Hid%validate_hasBookingId. by rewrite !preSave_hasBookingId.
Qed.

(** The document that [POST /api/bookings] builds has no [bookingId] and
    so fails the [required] validator. *)
Lemma validate_newBooking user hostel req :
  Booking.validate (newBooking user hostel req) = false.
Proof. reflexivity. Qed.

Lemma validate_rooms_nonneg h :
  Hostel.validate h = true →
  Forall (λ r, 0 ≤ Hostel.availableRooms r) (Hostel.rooms h).
Proof.
  unfold Hostel.validate. rewrite !andb_true_iff.
  intros [[[[_ Hrooms] _] _] _].
  rewrite forallb_forall in Hrooms. apply Forall_forall.
  intros r Hr. apply list_elem_of_In, Hrooms in Hr.
  unfold Hostel.validRoom in Hr. apply andb_true_iff in Hr as [_ Hr]. lia.
Qed.

(** What the availability update writes. *)
Lemma updateAvailability_Some delta occupancy b db db' :
  updateAvailability delta occupancy b db = Some db' →
  bookings db' = bookings db
  ∧ (db' = db
     ∨ ∃ h i r,
         hostels db !! Booking.hostel b = Some h
         ∧ Hostel.findRoom (Booking.roomType b) h = Some (i, r)
         ∧ let h' :=
             Hostel.setCurrentOccupancy (Hostel.currentOccupancy h + occupancy)
               (Hostel.setRooms
                  (<[i := Hostel.setAvailableRooms
                            (Hostel.availableRooms r + delta) r]> (Hostel.rooms h)) h) in
           Hostel.validate h' = true
           ∧ hostels db' = <[Booking.hostel b := h']> (hostels db)).
Proof.
  unfold updateAvailability. intros Hupd.
  destruct (hostels db !! Booking.hostel b) as [h|] eqn:Hh;
    [|by simplify_eq; auto].
  destruct (Hostel.findRoom _ h) as [[i r]|] eqn:Hfind;
    [|by simplify_eq; auto].
  apply saveHostel_Some in Hupd as [Hvalid ->]. simpl.
  split; [done|]. right. exists h, i, r. auto.
Qed.

(** A tactic that walks through the early returns of a handler. *)
Ltac handler_cases :=
  repeat first
    [ progress simplify_eq/=
    | match goal with
      | H : saveBooking _ _ _ = Some _ |- _ =>
          apply saveBooking_Some in H as [? ?]
      | H : context [match ?x with _ => _ end] |- _ =>
          destruct x eqn:?
      | |- context [match ?x with _ => _ end] => destruct x eqn:?
      end ].

Lemma authorize_singleton r user :
  authorize [r] user = true ↔ role user = r.
Proof.
  unfold authorize. rewrite bool_decide_eq_true, list_elem_of_singleton. done.
Qed.

(** *** Inversion of the handlers *)

Lemma confirmBooking_success now user id db resp db' :
  confirmBooking now user id db = (resp, db') →
  success resp = true →
  ∃ booking,
    role user = HostelOwner
    ∧ bookings db !! id = Some booking
    ∧ Booking.owner booking = uid user
    ∧ Booking.status booking = Booking.Pending
    ∧ Booking.validate (markConfirmed now booking) = true
    ∧ resp = succeed 200 "Booking confirmed successfully"
    ∧ db' = {| bookings :=
                 <[id := Booking.preSave "" (markConfirmed now booking)]> (bookings db);
               hostels := hostels db |}.
Proof.
  unfold confirmBooking. intros Hrun Hok.
  destruct (authorize [HostelOwner] user) eqn:Hrole; simpl in Hrun;
    [|by simplify_eq].
  apply authorize_singleton in Hrole.
  destruct (bookings db !! id) as [booking|] eqn:Hb; [|by simplify_eq].
  destruct (bool_decide (Booking.owner booking = uid user)) eqn:Hown;
    simpl in Hrun; [|by simplify_eq].
  destruct (bool_decide (Booking.status booking = Booking.Pending)) eqn:Hst;
    simpl in Hrun; [|by simplify_eq].
  destruct (saveBooking _ _ _) as [db1|] eqn:Hsave; [|by simplify_eq].
  apply saveBooking_Some in Hsave as [Hvalid ->]. simplify_eq.
  apply bool_decide_eq_true in Hown, Hst. by exists booking.
Qed.

Lemma confirmBooking_failure now user id db resp db' :
  confirmBooking now user id db = (resp, db') →
  success resp = false → db' = db.
Proof. unfold confirmBooking. intros Hrun Hfail. handler_cases; done. Qed.

Lemma rejectBooking_success now user id reason db resp db' :
  rejectBooking now user id reason db = (resp, db') →
  success resp = true →
  ∃ booking,
    role user = HostelOwner
    ∧ bookings db !! id = Some booking
    ∧ Booking.owner booking = uid user
    ∧ Booking.status booking = Booking.Pending
    ∧ Booking.validate (markRejected now reason booking) = true
    ∧ resp = succeed 200 "Booking rejected successfully"
    ∧ db' = {| bookings :=
                 <[id := Booking.preSave "" (markRejected now reason booking)]>
                   (bookings db);
               hostels := hostels db |}.
Proof.
  unfold rejectBooking. intros Hrun Hok.
  destruct (authorize [HostelOwner] user) eqn:Hrole; simpl in Hrun;
    [|by simplify_eq].
  apply authorize_singleton in Hrole.
  destruct (bookings db !! id) as [booking|] eqn:Hb; [|by simplify_eq].
  destruct (bool_decide (Booking.owner booking = uid user)) eqn:Hown;
    simpl in Hrun; [|by simplify_eq].
  destruct (bool_decide (Booking.status booking = Booking.Pending)) eqn:Hst;
    simpl in Hrun; [|by simplify_eq].
  destruct (saveBooking _ _ _) as [db1|] eqn:Hsave; [|by simplify_eq].
  apply saveBooking_Some in Hsave as [Hvalid ->]. simplify_eq.
  apply bool_decide_eq_true in Hown, Hst. by exists booking.
Qed.

Lemma rejectBooking_failure now user id reason db resp db' :
  rejectBooking now user id reason db = (resp, db') →
  success resp = false → db' = db.
Proof. unfold rejectBooking. intros Hrun Hfail. handler_cases; done. Qed.

(** A cancellation that gets past its guards writes the booking first and
    the hostel second; the second write can fail on its own. *)
Lemma cancelBooking_cases now user id reason db resp db' :
  cancelBooking now user id reason db = (resp, db') →
  (db' = db ∧ success resp = false)
  ∨ ∃ booking db1,
      reason ≠ ""
      ∧ bookings db !! id = Some booking
      ∧ (Booking.student booking = uid user
         ∨ Booking.owner booking = uid user ∨ role user = Admin)
      ∧ Booking.canBeCancelled booking = true
      ∧ saveBooking id (markCancelled now user reason booking) db = Some db1
      ∧ ((updateAvailability 1 0 (markCancelled now user reason booking) db1
            = None
          ∧ db' = db1 ∧ success resp = false)
         ∨ (updateAvailability 1 0 (markCancelled now user reason booking) db1
              = Some db'
            ∧ resp = succeed 200 "Booking cancelled successfully")).
Proof.
  unfold cancelBooking. intros Hrun.
  destruct (bool_decide (reason = "")) eqn:Hreason; [by simplify_eq; left|].
  apply bool_decide_eq_false in Hreason.
  destruct (bookings db !! id) as [booking|] eqn:Hb; [|by simplify_eq; left].
  destruct (_ || _ || _) eqn:Hcan; simpl in Hrun; [|by simplify_eq; left].
  destruct (Booking.canBeCancelled booking) eqn:Hst; simpl in Hrun;
    [|by simplify_eq; left].
  destruct (saveBooking _ _ _) as [db1|] eqn:Hsave; [|by simplify_eq; left].
  right. exists booking, db1.
  rewrite !orb_true_iff, !bool_decide_eq_true in Hcan.
  repeat split; try done; [tauto|].
  destruct (updateAvailability _ _ _ _) as [db2|] eqn:Hupd; simplify_eq; auto.
Qed.

Section RoutesFacts.

Variable hmacSha256Hex : string → string → string.
Variable RAZORPAY_KEY_SECRET : option string.
Variable tzOffset : Z.

Local Abbreviation step := (step hmacSha256Hex RAZORPAY_KEY_SECRET tzOffset).
Local Abbreviation run := (run hmacSha256Hex RAZORPAY_KEY_SECRET tzOffset).
Local Abbreviation verifyPayment := (verifyPayment hmacSha256Hex RAZORPAY_KEY_SECRET).

(** Every handler leaves the hostel collection alone or writes one
    validated hostel document. *)
Lemma step_hostels op db :
  hostels (step op db).2 = hostels db
  ∨ ∃ hid h, Hostel.validate h = true
             ∧ hostels (step op db).2 = <[hid := h]> (hostels db).
Proof.
  destruct op; simpl.
  - unfold createBooking. handler_cases; auto.
  - unfold confirmBooking. handler_cases; auto.
  - unfold rejectBooking. handler_cases; auto.
  - unfold verifyPayment.
    repeat (case_match; simplify_eq/=; auto);
      repeat match goal with
      | H : saveBooking _ _ _ = Some _ |- _ =>
          apply saveBooking_Some in H as [? ->]
      | H : updateAvailability _ _ _ _ = Some _ |- _ =>
          apply updateAvailability_Some in H as [? [->|(?&?&?&?&?&?&?)]]
      end; simpl in *; eauto.
  - unfold cancelBooking.
    repeat (case_match; simplify_eq/=; auto);
      repeat match goal with
      | H : saveBooking _ _ _ = Some _ |- _ =>
          apply saveBooking_Some in H as [? ->]
      | H : updateAvailability _ _ _ _ = Some _ |- _ =>
          apply updateAvailability_Some in H as [? [->|(?&?&?&?&?&?&?)]]
      end; simpl in *; eauto.
Qed.

Lemma step_roomsNonNegative op db :
  roomsNonNegative db → roomsNonNegative (step op db).2.
Proof.
  unfold roomsNonNegative. intros Hinv.
  destruct (step_hostels op db) as [->|(hid & h & Hvalid & ->)]; [done|].
  apply map_Forall_insert_2; [|done]. by apply validate_rooms_nonneg.
Qed.

Lemma run_roomsNonNegative ops db :
  roomsNonNegative db → roomsNonNegative (run ops db).
Proof.
  revert db. induction ops as [|op ops IH]; intros db Hinv; [done|].
  simpl. apply IH. by apply step_roomsNonNegative.
Qed.

(** [POST /api/bookings] never gets past [booking.save()]: the answer is
    a failure and nothing is written. *)
Lemma createBooking_never_succeeds now user req db :
  success (createBooking tzOffset now user req db).1 = false
  ∧ (createBooking tzOffset now user req db).2 = db.
Proof.
  unfold createBooking.
  repeat case_match; try done;
    match goal with
    | H : saveBooking _ _ _ = Some _ |- _ =>
        apply saveBooking_Some in H as [H _];
        by rewrite validate_newBooking in H
    end.
Qed.

(** A verification that gets past its guards writes the booking first and
    the hostel second; the second write can fail on its own. *)
Lemma verifyPayment_cases now user id req db resp db' :
  verifyPayment now user id req db = (resp, db') →
  (db' = db ∧ success resp = false)
  ∨ ∃ booking secret db1,
      role user = Student
      ∧ bookings db !! id = Some booking
      ∧ Booking.student booking = uid user
      ∧ RAZORPAY_KEY_SECRET = Some secret
      ∧ hmacSha256Hex secret
          (razorpay_order_id req +:+ "|" +:+ razorpay_payment_id req)
        = razorpay_signature req
      ∧ saveBooking id (markPaid now req booking) db = Some db1
      ∧ ((updateAvailability (-1) 1 (markPaid now req booking) db1 = None
          ∧ db' = db1 ∧ success resp = false)
         ∨ (updateAvailability (-1) 1 (markPaid now req booking) db1 = Some db'
            ∧ resp = succeed 200 "Payment verified successfully")).
Proof.
  unfold verifyPayment. intros Hrun.
  destruct (authorize [Student] user) eqn:Hrole; simpl in Hrun;
    [|by simplify_eq; left].
  apply authorize_singleton in Hrole.
  destruct (_ || _ || _) eqn:Hempty; [by simplify_eq; left|].
  destruct (bookings db !! id) as [booking|] eqn:Hb; [|by simplify_eq; left].
  destruct (bool_decide (Booking.student booking = uid user)) eqn:Hstu;
    simpl in Hrun; [|by simplify_eq; left].
  destruct RAZORPAY_KEY_SECRET as [secret|] eqn:Hkey; [|by simplify_eq; left].
  destruct (bool_decide (hmacSha256Hex _ _ = _)) eqn:Hsig; simpl in Hrun;
    [|by simplify_eq; left].
  destruct (saveBooking _ _ _) as [db1|] eqn:Hsave; [|by simplify_eq; left].
  right. exists booking, secret, db1.
  apply bool_decide_eq_true in Hstu, Hsig.
  repeat split; try done.
  destruct (updateAvailability _ _ _ _) as [db2|] eqn:Hupd; simplify_eq; auto.
Qed.

End RoutesFacts.


(** ** Stored bookings stay valid *)

Lemma validate_pending_irrelevant b n :
  0 ≤ n →
  Booking.validate b = true →
  Booking.validate
    (Booking.setPricing (Booking.setPendingAmount n (Booking.pricing b)) b)
  = true.
Proof.
  unfold Booking.validate. simpl. rewrite !andb_true_iff.
  intros Hn Hvalid. split_and!; try apply Hvalid. by apply Z.leb_le.
Qed.

(** What [save] writes is a valid, consistent document as long as the
    amount paid does not exceed the total. *)
Lemma storedOk_preSave b :
  Booking.validate b = true →
  Booking.paidAmount (Booking.pricing b) ≤ Booking.totalAmount (Booking.pricing b) →
  storedOk (Booking.preSave "" b).
Proof.
  intros Hvalid Hpaid.
  rewrite preSave_hasBookingId by (by apply validate_hasBookingId).
  split; [|done]. apply validate_pending_irrelevant; [lia|done].
Qed.

Lemma storedOk_paid_le_total b :
  storedOk b →
  Booking.paidAmount (Booking.pricing b) ≤ Booking.totalAmount (Booking.pricing b).
Proof.
  intros [Hvalid Hpending]. unfold Booking.validate in Hvalid.
  rewrite !andb_true_iff in Hvalid.
  destruct Hvalid as [[[_ Hpend] _] _]. apply Z.leb_le in Hpend.
  unfold pendingConsistent in Hpending. lia.
Qed.

Lemma validate_total_nonneg b :
  Booking.validate b = true → 0 ≤ Booking.totalAmount (Booking.pricing b).
Proof.
  unfold Booking.validate. rewrite !andb_true_iff.
  intros [[[[[_ Htotal] _] _] _] _]. by apply Z.leb_le.
Qed.

Lemma validate_markRejected now reason b :
  Booking.validate b = true →
  Booking.validate (markRejected now reason b) = true.
Proof.
  unfold Booking.validate. simpl. rewrite !andb_true_iff.
  intros Hvalid. split_and!; try apply Hvalid. done.
Qed.

Lemma validate_markPaid now req b :
  Booking.validate b = true →
  Booking.validate (markPaid now req b) = true.
Proof.
  unfold Booking.validate. simpl. rewrite !andb_true_iff.
  intros Hvalid. split_and!; try apply Hvalid. done.
Qed.

(** Saving a document whose pricing is that of a stored one leaves the
    pricing as it was. *)
Lemma preSave_pricing b b' :
  pendingConsistent b →
  Booking.pricing b' = Booking.pricing b →
  Booking.pricing (Booking.preSave "" b') = Booking.pricing b.
Proof.
  unfold pendingConsistent, Booking.preSave. simpl. intros Hpending ->.
  destruct (Booking.pricing b). simpl in *. by rewrite Hpending.
Qed.

(** Saving a consistent document stores it as it is. *)
Lemma preSave_consistent b :
  Booking.hasBookingId b = true →
  pendingConsistent b → Booking.preSave "" b = b.
Proof.
  intros Hid Hpending. rewrite preSave_hasBookingId by done.
  unfold pendingConsistent in Hpending. rewrite <- Hpending.
  by destruct b as [? ? ? ? ? ? ? ? [] ? ? ? ? ? ? ?].
Qed.

Lemma saveBooking_bookingsOk id b db db' :
  bookingsOk db →
  Booking.paidAmount (Booking.pricing b) ≤ Booking.totalAmount (Booking.pricing b) →
  saveBooking id b db = Some db' →
  bookingsOk db'.
Proof.
  intros Hok Hpaid Hsave. apply saveBooking_Some in Hsave as [Hvalid ->].
  unfold bookingsOk. simpl. apply map_Forall_insert_2; [|done].
  by apply storedOk_preSave.
Qed.

Lemma updateAvailability_bookingsOk delta occupancy b db db' :
  bookingsOk db →
  updateAvailability delta occupancy b db = Some db' →
  bookingsOk db'.
Proof.
  intros Hok Hupd. apply updateAvailability_Some in Hupd as [Hsame _].
  unfold bookingsOk. by rewrite Hsame.
Qed.

Section StoredBookings.

Variable hmacSha256Hex : string → string → string.
Variable RAZORPAY_KEY_SECRET : option string.
Variable tzOffset : Z.

Lemma step_bookingsOk op db :
  bookingsOk db →
  bookingsOk (step hmacSha256Hex RAZORPAY_KEY_SECRET tzOffset op db).2.
Proof.
  intros Hok. destruct op as [now user req|now user id|now user id reason
                              |now user id req|now user id reason]; simpl.
  - by rewrite (proj2 (createBooking_never_succeeds tzOffset now user req db)).
  - destruct (confirmBooking now user id db) as [resp db'] eqn:Hrun.
    simpl. destruct (success resp) eqn:Hs.
    + destruct (confirmBooking_success _ _ _ _ _ _ Hrun Hs)
        as (b & _ & Hb & _ & _ & Hvalid & _ & ->).
      unfold bookingsOk. simpl. apply map_Forall_insert_2; [|done].
      apply storedOk_preSave; [done|].
      apply (storedOk_paid_le_total b). exact (Hok _ _ Hb).
    + by rewrite (confirmBooking_failure _ _ _ _ _ _ Hrun Hs).
  - destruct (rejectBooking now user id reason db) as [resp db'] eqn:Hrun.
    simpl. destruct (success resp) eqn:Hs.
    + destruct (rejectBooking_success _ _ _ _ _ _ _ Hrun Hs)
        as (b & _ & Hb & _ & _ & Hvalid & _ & ->).
      unfold bookingsOk. simpl. apply map_Forall_insert_2; [|done].
      apply storedOk_preSave; [done|].
      apply (storedOk_paid_le_total b). exact (Hok _ _ Hb).
    + by rewrite (rejectBooking_failure _ _ _ _ _ _ _ Hrun Hs).
  - destruct (verifyPayment _ _ now user id req db) as [resp db'] eqn:Hrun.
    simpl.
    apply verifyPayment_cases in Hrun
      as [[-> _]|(b & secret & db1 & _ & Hb & _ & _ & _ & Hsave & Hupd)];
      [done|].
    assert (bookingsOk db1) as Hok1.
    { apply (saveBooking_bookingsOk _ _ _ _ Hok) in Hsave; [done|]. simpl. lia. }
    destruct Hupd as [(_ & -> & _)|[Hupd _]]; [done|].
    by eapply updateAvailability_bookingsOk.
  - destruct (cancelBooking now user id reason db) as [resp db'] eqn:Hrun.
    simpl.
    apply cancelBooking_cases in Hrun
      as [[-> _]|(b & db1 & _ & Hb & _ & _ & Hsave & Hupd)]; [done|].
    assert (bookingsOk db1) as Hok1.
    { apply (saveBooking_bookingsOk _ _ _ _ Hok) in Hsave; [done|].
      apply (storedOk_paid_le_total b). exact (Hok _ _ Hb). }
    destruct Hupd as [(_ & -> & _)|[Hupd _]]; [done|].
    by eapply updateAvailability_bookingsOk.
Qed.

Lemma run_bookingsOk ops db :
  bookingsOk db →
  bookingsOk (run hmacSha256Hex RAZORPAY_KEY_SECRET tzOffset ops db).
Proof.
  revert db. induction ops as [|op ops IH]; intros db Hok; [done|].
  simpl. apply IH. by apply step_bookingsOk.
Qed.

End StoredBookings.

(** ** Refunds are never negative *)

Lemma binary_round_aux_sign s m e l :
  s = false → notNegative (binary_round_aux prec emax s m e l).
Proof.
  intros ->. unfold binary_round_aux.
  destruct (shr_fexp _ _ _ _ _) as [mrs' e'].
  destruct (shr_fexp _ _ _ _ _) as [mrs'' e''].
  destruct (shr_m mrs''); [done| |done]. by case_match.
Qed.

Lemma binary_round_sign m e : notNegative (binary_round prec emax false m e).
Proof.
  unfold binary_round. destruct (shl_align _ _ _) as [mz ez].
  by apply binary_round_aux_sign.
Qed.

Lemma binary_normalize_sign z e :
  0 ≤ z → notNegative (binary_normalize prec emax z e false).
Proof.
  intros Hz. destruct z as [|p|p]; [done| |lia]. apply binary_round_sign.
Qed.

Lemma numberOfZ_sign z : 0 ≤ z → notNegative (Prim2SF (numberOfZ z)).
Proof.
  intros Hz. unfold numberOfZ.
  pose proof (binary_normalize_sign z 0 Hz) as Hsign.
  destruct (binary_normalize prec emax z 0 false) as [[]|[]| |[] m e];
    try done; simpl.
  rewrite Z_ldexp_spec, of_uint63_spec.
  pose proof (Uint63.to_Z_bounded (Uint63Axioms.of_Z (Z.pos m))) as [Hpos _].
  pose proof (binary_normalize_sign _ 0 Hpos) as Hn.
  destruct (binary_normalize prec emax _ 0 false) as [[]|[]| |[] m' e'];
    try done.
  simpl. apply binary_round_sign.
Qed.

Lemma Math_floor_mul_nonneg x y :
  notNegative (Prim2SF x) → notNegative (Prim2SF y) →
  0 ≤ Math_floor (x * y)%float.
Proof.
  intros Hx Hy. unfold Math_floor. rewrite FloatAxioms.mul_spec.
  destruct (Prim2SF x) as [sx|sx| |[] mx ex], (Prim2SF y) as [sy|sy| |[] my ey];
    try done; simpl.
  pose proof (binary_round_aux_sign false (Z.pos (mx * my)) (ex + ey) loc_Exact
                eq_refl) as Hs.
  destruct (binary_round_aux _ _ _ _ _ _) as [?|?| |[] m e]; try done.
  case_match.
  - apply Z.mul_nonneg_nonneg; [lia|]. apply Z.pow_nonneg. lia.
  - apply Z.div_pos; [lia|]. apply Z.pow_pos_nonneg; lia.
Qed.

Lemma refundPercentage_sign days :
  notNegative (Prim2SF (refundPercentage days)).
Proof. unfold refundPercentage. repeat case_match; by vm_compute. Qed.

(** The refund recorded by a cancellation is never negative. *)
Lemma cancelRefund_nonneg now b : 0 ≤ cancelRefund now b.
Proof.
  unfold cancelRefund. destruct (0 <? _) eqn:Hpaid; [|done].
  apply Z.ltb_lt in Hpaid. unfold calculateRefund, refundFor.
  apply Math_floor_mul_nonneg; [|apply refundPercentage_sign].
  apply numberOfZ_sign. lia.
Qed.

(** A valid booking cancelled by a student or an administrator is a
    valid document. *)
Lemma validate_markCancelled now user reason b :
  Booking.validate b = true →
  role user ∈ [Student; Admin] →
  Booking.validate (markCancelled now user reason b) = true.
Proof.
  unfold Booking.validate. simpl. rewrite !andb_true_iff.
  intros Hvalid Hrole. split_and!; try apply Hvalid.
  unfold Booking.validCancellation. simpl. apply andb_true_iff. split.
  - apply bool_decide_eq_true.
    apply elem_of_cons in Hrole as [->|Hrole];
      [|apply list_elem_of_singleton in Hrole as ->]; simpl;
      repeat first [apply list_elem_of_here|apply list_elem_of_further].
  - apply Z.leb_le, cancelRefund_nonneg.
Qed.

(** ** What an accepted request writes *)

Lemma availableOf_lookup db hid ty h i r :
  hostels db !! hid = Some h →
  Hostel.findRoom ty h = Some (i, r) →
  availableOf db hid ty = Some (Hostel.availableRooms r).
Proof. intros Hh Hr. unfold availableOf. rewrite Hh. simpl. by rewrite Hr. Qed.

(** The room entry picked for a type stays the one picked after its
    [availableRooms] is overwritten. *)
Lemma findRoom_setAvailableRooms ty h i r n occ :
  Hostel.findRoom ty h = Some (i, r) →
  Hostel.findRoom ty
    (Hostel.setCurrentOccupancy occ
       (Hostel.setRooms (<[i := Hostel.setAvailableRooms n r]> (Hostel.rooms h)) h))
  = Some (i, Hostel.setAvailableRooms n r).
Proof.
  unfold Hostel.findRoom. simpl. intros Hfind.
  apply list_find_Some in Hfind as (Hi & Hty & Hbefore).
  apply list_find_Some. split_and!.
  - apply list_lookup_insert_eq. by eapply lookup_lt_Some.
  - done.
  - intros j y Hj Hlt. rewrite list_lookup_insert_ne in Hj by lia. eauto.
Qed.

Lemma validate_occupancy_nonneg h :
  Hostel.validate h = true → 0 ≤ Hostel.currentOccupancy h.
Proof.
  unfold Hostel.validate. rewrite !andb_true_iff. intros [_ Hocc]. lia.
Qed.

(** The hostel document stays valid when one room entry gets a new
    count and the occupancy a new value, neither negative. *)
Lemma validate_setAvailableRooms h i r n occ :
  Hostel.validate h = true →
  Hostel.rooms h !! i = Some r →
  0 ≤ n → 0 ≤ occ →
  Hostel.validate
    (Hostel.setCurrentOccupancy occ
       (Hostel.setRooms (<[i := Hostel.setAvailableRooms n r]> (Hostel.rooms h)) h))
  = true.
Proof.
  unfold Hostel.validate. simpl. rewrite !andb_true_iff.
  intros [[[[[[? ?] ?] Hrooms] ?] ?] Hocc] Hi Hn Hnew.
  split_and!; try done; [|by apply Z.leb_le].
  rewrite forallb_forall in Hrooms. apply forallb_forall.
  intros x Hx%list_elem_of_In. apply list_elem_of_lookup in Hx as [j Hj].
  destruct (decide (j = i)) as [->|Hne].
  - rewrite list_lookup_insert_eq in Hj by (by eapply lookup_lt_Some).
    simplify_eq. unfold Hostel.validRoom. simpl.
    assert (Hostel.validRoom r = true) as Hr.
    { apply Hrooms, list_elem_of_In, list_elem_of_lookup. eauto. }
    unfold Hostel.validRoom in Hr. apply andb_true_iff in Hr as [-> _].
    simpl. by apply Z.leb_le.
  - rewrite list_lookup_insert_ne in Hj by done.
    apply Hrooms, list_elem_of_In, list_elem_of_lookup. eauto.
Qed.

Lemma validate_markConfirmed now b :
  Booking.validate b = true → Booking.validate (markConfirmed now b) = true.
Proof. done. Qed.

Lemma validate_setRazorpayOrderId orderId b :
  Booking.validate b = true →
  Booking.validate (setRazorpayOrderId orderId b) = true.
Proof. done. Qed.

Lemma confirmBooking_accepted now user id db b :
  role user = HostelOwner →
  bookings db !! id = Some b →
  Booking.owner b = uid user →
  Booking.status b = Booking.Pending →
  Booking.validate b = true →
  confirmBooking now user id db
  = (succeed 200 "Booking confirmed successfully",
     {| bookings := <[id := Booking.preSave "" (markConfirmed now b)]> (bookings db);
        hostels := hostels db |}).
Proof.
  intros Hrole Hb Hown Hst Hvalid. unfold confirmBooking.
  apply authorize_singleton in Hrole. rewrite Hrole, Hb. simpl.
  rewrite !bool_decide_eq_true_2 by done. simpl.
  unfold saveBooking. by rewrite validate_markConfirmed.
Qed.

Lemma rejectBooking_accepted now user id reason db b :
  role user = HostelOwner →
  bookings db !! id = Some b →
  Booking.owner b = uid user →
  Booking.status b = Booking.Pending →
  Booking.validate b = true →
  rejectBooking now user id reason db
  = (succeed 200 "Booking rejected successfully",
     {| bookings :=
          <[id := Booking.preSave "" (markRejected now reason b)]> (bookings db);
        hostels := hostels db |}).
Proof.
  intros Hrole Hb Hown Hst Hvalid. unfold rejectBooking.
  apply authorize_singleton in Hrole. rewrite Hrole, Hb. simpl.
  rewrite !bool_decide_eq_true_2 by done. simpl.
  unfold saveBooking. by rewrite validate_markRejected.
Qed.

(** A cancellation that passes the guards and both validations writes
    the cancelled booking and gives a room back. *)
Lemma cancelBooking_accepted now user id reason db b h i r :
  reason ≠ "" →
  bookings db !! id = Some b →
  Booking.student b = uid user ∨ Booking.owner b = uid user
  ∨ role user = Admin →
  Booking.canBeCancelled b = true →
  Booking.validate (markCancelled now user reason b) = true →
  hostels db !! Booking.hostel b = Some h →
  Hostel.findRoom (Booking.roomType b) h = Some (i, r) →
  Hostel.validate h = true →
  cancelBooking now user id reason db
  = (succeed 200 "Booking cancelled successfully",
     {| bookings :=
          <[id := Booking.preSave "" (markCancelled now user reason b)]>
            (bookings db);
        hostels :=
          <[Booking.hostel b :=
              Hostel.setCurrentOccupancy (Hostel.currentOccupancy h + 0)
                (Hostel.setRooms
                   (<[i := Hostel.setAvailableRooms
                             (Hostel.availableRooms r + 1) r]>
                      (Hostel.rooms h)) h)]> (hostels db) |}).
Proof.
  intros Hreason Hb Hactor Hcan Hvalid Hh Hr Hvh. unfold cancelBooking.
  rewrite bool_decide_eq_false_2 by done. rewrite Hb.
  assert (bool_decide (Booking.student b = uid user)
          || bool_decide (Booking.owner b = uid user)
          || bool_decide (role user = Admin) = true) as ->.
  { rewrite !orb_true_iff, !bool_decide_eq_true. tauto. }
  simpl. rewrite Hcan. simpl. unfold saveBooking. rewrite Hvalid.
  unfold updateAvailability. simpl. rewrite Hh, Hr.
  unfold saveHostel. rewrite validate_setAvailableRooms; [done|done| | |].
  - apply list_find_Some in Hr as (Hi & _). done.
  - apply validate_rooms_nonneg in Hvh. rewrite Forall_lookup in Hvh.
    apply list_find_Some in Hr as (Hi & _). specialize (Hvh _ _ Hi).
    simpl in Hvh. lia.
  - apply validate_occupancy_nonneg in Hvh. lia.
Qed.

Lemma createPaymentOrder_accepted razorpayOrdersCreate user id db b orderId :
  role user = Student →
  bookings db !! id = Some b →
  Booking.student b = uid user →
  Booking.status b = Booking.Confirmed →
  0 < Booking.pendingAmount (Booking.pricing b) →
  razorpayOrdersCreate (orderOptions user b) = Some orderId →
  Booking.validate b = true →
  createPaymentOrder razorpayOrdersCreate user id db
  = (succeed 200 "",
     Some {| Order.orderId := orderId;
             Order.dataAmount :=
               Booking.totalAmount (Booking.pricing b)
               - Booking.paidAmount (Booking.pricing b);
             Order.dataCurrency := "INR";
             Order.dataBookingId := Booking.bookingId b |},
     {| bookings :=
          <[id := Booking.preSave "" (setRazorpayOrderId orderId b)]> (bookings db);
        hostels := hostels db |}).
Proof.
  intros Hrole Hb Hstu Hst Hpend Horder Hvalid. unfold createPaymentOrder.
  apply authorize_singleton in Hrole. rewrite Hrole, Hb. simpl.
  rewrite !bool_decide_eq_true_2 by done. simpl.
  rewrite (proj2 (Z.leb_gt _ _) Hpend), Horder.
  unfold saveBooking. rewrite validate_setRazorpayOrderId by done.
  simpl. apply validate_hasBookingId in Hvalid.
  unfold Booking.hasBookingId in *. simpl. by rewrite Hvalid.
Qed.

Section VerificationFacts.

Variable hmacSha256Hex : string → string → string.
Variable RAZORPAY_KEY_SECRET : option string.

Local Abbreviation verify :=
  (verifyPayment hmacSha256Hex RAZORPAY_KEY_SECRET).

(** A well-signed verification by the booking's student writes the paid
    booking, whatever happens to the hostel document afterwards. *)
Lemma verifyPayment_accepted now user id req db booking secret :
  Booking.validate booking = true →
  bookings db !! id = Some booking →
  role user = Student →
  Booking.student booking = uid user →
  RAZORPAY_KEY_SECRET = Some secret →
  wellSigned hmacSha256Hex secret req →
  bookings (verify now user id req db).2
  = <[id := Booking.preSave "" (markPaid now req booking)]> (bookings db)
  ∧ ((verify now user id req db).1 = succeed 200 "Payment verified successfully"
     ∨ (verify now user id req db).1
       = fail 500 "Server error while verifying payment").
Proof.
  intros Hvalid Hb Hrole Hstu Hkey (Hpid & Hoid & Hsig & Hmac).
  unfold verifyPayment. apply authorize_singleton in Hrole.
  rewrite Hrole. simpl.
  rewrite !(bool_decide_eq_false_2 (_ = "")) by done. simpl.
  rewrite Hb, Hkey. rewrite !bool_decide_eq_true_2 by done. simpl.
  destruct (saveBooking id (markPaid now req booking) db) as [db1|] eqn:Hsave;
    [|by unfold saveBooking in Hsave; rewrite validate_markPaid in Hsave].
  apply saveBooking_Some in Hsave as [_ ->].
  destruct (updateAvailability _ _ _ _) as [db2|] eqn:Hupd; simpl; [|auto].
  apply updateAvailability_Some in Hupd as [-> _]. auto.
Qed.

(** A well-signed verification whose room entry has a room left writes
    the paid booking and takes the room. *)
Lemma verifyPayment_takes_room now user id req db b secret h i r :
  Booking.validate b = true →
  bookings db !! id = Some b →
  role user = Student →
  Booking.student b = uid user →
  RAZORPAY_KEY_SECRET = Some secret →
  wellSigned hmacSha256Hex secret req →
  hostels db !! Booking.hostel b = Some h →
  Hostel.findRoom (Booking.roomType b) h = Some (i, r) →
  Hostel.validate h = true →
  0 < Hostel.availableRooms r →
  verify now user id req db
  = (succeed 200 "Payment verified successfully",
     {| bookings := <[id := Booking.preSave "" (markPaid now req b)]> (bookings db);
        hostels :=
          <[Booking.hostel b :=
              Hostel.setCurrentOccupancy (Hostel.currentOccupancy h + 1)
                (Hostel.setRooms
                   (<[i := Hostel.setAvailableRooms
                             (Hostel.availableRooms r + -1) r]>
                      (Hostel.rooms h)) h)]> (hostels db) |}).
Proof.
  intros Hvalid Hb Hrole Hstu Hkey (Hpid & Hoid & Hsig & Hmac) Hh Hr Hvh Hpos.
  unfold verifyPayment. apply authorize_singleton in Hrole.
  rewrite Hrole. simpl.
  rewrite !(bool_decide_eq_false_2 (_ = "")) by done. simpl.
  rewrite Hb, Hkey. rewrite !bool_decide_eq_true_2 by done. simpl.
  unfold saveBooking. rewrite validate_markPaid by done.
  unfold updateAvailability. simpl. rewrite Hh, Hr.
  unfold saveHostel. rewrite validate_setAvailableRooms; [done|done| | |].
  - apply list_find_Some in Hr as (Hi & _). done.
  - lia.
  - apply validate_occupancy_nonneg in Hvh. lia.
Qed.

End VerificationFacts.

(** ** Whole numbers in binary64

    A whole number below [2 ^ 53] is a Number, and products and sums of
    such numbers are exact as long as the result stays below [2 ^ 53]. *)

Lemma shl_spec q n : 0 ≤ n → Z.pos (shl q n) = Z.pos q * 2 ^ n.
Proof.
  intros Hn. destruct n as [|p|p]; [simpl; lia| |lia]. simpl shl.
  induction p as [|p IH] using Pos.peano_ind.
  - simpl. lia.
  - rewrite Pos.iter_succ, Pos2Z.inj_xO, IH, Pos2Z.inj_succ, Z.pow_succ_r; lia.
Qed.

Lemma shl_nonpos q n : n ≤ 0 → shl q n = q.
Proof. intros Hn. destruct n; [done|lia|done]. Qed.

Lemma shl_shl q m n : 0 ≤ m → 0 ≤ n → shl (shl q m) n = shl q (m + n).
Proof.
  intros Hm Hn. apply Pos2Z.inj. rewrite !shl_spec, Z.pow_add_r by lia. lia.
Qed.

Lemma shl_mul a b m n :
  0 ≤ m → 0 ≤ n → (shl a m * shl b n)%positive = shl (a * b) (m + n).
Proof.
  intros Hm Hn. apply Pos2Z.inj.
  rewrite Pos2Z.inj_mul, !shl_spec, Pos2Z.inj_mul, Z.pow_add_r by lia. lia.
Qed.

Lemma shl_add a b n : 0 ≤ n → (shl a n + shl b n)%positive = shl (a + b) n.
Proof.
  intros Hn. apply Pos2Z.inj.
  rewrite Pos2Z.inj_add, !shl_spec, Pos2Z.inj_add by lia. lia.
Qed.

Lemma digits2_pos_bounds q :
  2 ^ (Z.pos (digits2_pos q) - 1) ≤ Z.pos q < 2 ^ Z.pos (digits2_pos q).
Proof.
  induction q as [q IH|q IH|]; simpl digits2_pos.
  - rewrite Pos2Z.inj_succ, Z.pow_succ_r by lia.
    replace (Z.succ (Z.pos (digits2_pos q)) - 1)
      with (Z.succ (Z.pos (digits2_pos q) - 1)) by lia.
    rewrite Z.pow_succ_r by lia. lia.
  - rewrite Pos2Z.inj_succ, Z.pow_succ_r by lia.
    replace (Z.succ (Z.pos (digits2_pos q)) - 1)
      with (Z.succ (Z.pos (digits2_pos q) - 1)) by lia.
    rewrite Z.pow_succ_r by lia. lia.
  - simpl. lia.
Qed.

Lemma digits2_pos_le q n :
  0 ≤ n → Z.pos q < 2 ^ n → Z.pos (digits2_pos q) ≤ n.
Proof.
  intros Hn Hq. destruct (digits2_pos_bounds q) as [Hlow _].
  destruct (Z_le_gt_dec (Z.pos (digits2_pos q)) n) as [|Hgt]; [done|].
  assert (2 ^ n ≤ 2 ^ (Z.pos (digits2_pos q) - 1))
    by (apply Z.pow_le_mono_r; lia).
  lia.
Qed.

Lemma digits2_pos_shl q n :
  0 ≤ n → Z.pos (digits2_pos (shl q n)) = Z.pos (digits2_pos q) + n.
Proof.
  intros Hn. destruct n as [|p|p]; [simpl; lia| |lia]. clear Hn. simpl shl.
  induction p as [|p IH] using Pos.peano_ind.
  - simpl. lia.
  - rewrite Pos.iter_succ. simpl digits2_pos.
    rewrite Pos2Z.inj_succ, IH. lia.
Qed.

Lemma digits2_pos_mul a b :
  Z.pos (digits2_pos a) + Z.pos (digits2_pos b) - 1
  ≤ Z.pos (digits2_pos (a * b)).
Proof.
  destruct (digits2_pos_bounds a) as [Ha _], (digits2_pos_bounds b) as [Hb _].
  destruct (digits2_pos_bounds (a * b)) as [_ Hab].
  set (da := Z.pos (digits2_pos a)) in *.
  set (db := Z.pos (digits2_pos b)) in *.
  set (d := Z.pos (digits2_pos (a * b))) in *.
  destruct (Z_le_gt_dec (da + db - 1) d) as [|Hgt]; [done|].
  assert (2 ^ d ≤ 2 ^ (da + db - 2)) by (apply Z.pow_le_mono_r; lia).
  assert (2 ^ (da + db - 2) = 2 ^ (da - 1) * 2 ^ (db - 1)) as Hpow.
  { rewrite <- Z.pow_add_r by lia. f_equal. lia. }
  assert (0 < 2 ^ (da - 1)) by (apply Z.pow_pos_nonneg; lia).
  assert (0 < 2 ^ (db - 1)) by (apply Z.pow_pos_nonneg; lia).
  rewrite Pos2Z.inj_mul in Hab. nia.
Qed.

Lemma iter_pos_iter {A} (f : A → A) p x : SpecFloat.iter_pos f p x = Pos.iter f x p.
Proof.
  revert x. induction p as [p IH|p IH|]; intros x; simpl; [|by rewrite !IH|done].
  by rewrite !IH, <- !Pos.iter_swap.
Qed.

Lemma shr_exact q n m e :
  0 ≤ m ≤ n →
  shr {| shr_m := Z.pos (shl q n); shr_r := false; shr_s := false |} e m
  = ({| shr_m := Z.pos (shl q (n - m)); shr_r := false; shr_s := false |},
     e + m).
Proof.
  intros [Hm Hmn]. destruct m as [|p|p]; [|clear Hm|lia].
  { simpl. by rewrite Z.sub_0_r, Z.add_0_r. }
  unfold shr. f_equal. rewrite iter_pos_iter.
  replace n with ((n - Z.pos p) + Z.pos p) at 1 by lia.
  rewrite <- shl_shl by lia.
  generalize (shl q (n - Z.pos p)). intros r. simpl shl.
  induction p as [|p IH] using Pos.peano_ind.
  - done.
  - rewrite Pos.iter_succ_r, Pos.iter_succ. simpl shr_1. apply IH. lia.
Qed.

Lemma shl_align_spec mx ex ex' :
  shl_align mx ex ex' = (shl mx (ex - ex'), Z.min ex ex').
Proof.
  unfold shl_align, shl.
  destruct (ex' - ex) as [|d|d] eqn:Hd, (ex - ex') as [|p|p] eqn:Hp;
    try lia; f_equal; try lia.
  assert (p = d) as -> by lia. done.
Qed.

Lemma slack_nonneg q : Z.pos q < 2 ^ prec → 0 ≤ slack q.
Proof.
  intros Hq. unfold slack.
  pose proof (digits2_pos_le q prec ltac:(done) Hq). lia.
Qed.

Lemma binary_round_aux_shl s q j :
  Z.pos q < 2 ^ prec → slack q ≤ j →
  binary_round_aux prec emax s (Z.pos (shl q j)) (- j) loc_Exact
  = S754_finite s (shl q (slack q)) (- slack q).
Proof.
  intros Hq Hj. pose proof (slack_nonneg q Hq) as Hk.
  pose proof (Pos2Z.is_pos (digits2_pos q)) as Hd.
  unfold binary_round_aux.
  assert (shr_fexp prec emax (Z.pos (shl q j)) (- j) loc_Exact
          = ({| shr_m := Z.pos (shl q (slack q)); shr_r := false;
                shr_s := false |}, - slack q)) as ->.
  { unfold shr_fexp. simpl Zdigits2. simpl shr_record_of_loc.
    rewrite digits2_pos_shl by lia.
    replace (fexp prec emax (Z.pos (digits2_pos q) + j + - j) - - j)
      with (j - slack q)
      by (unfold fexp, emin, slack, prec, emax in *; lia).
    rewrite shr_exact by lia. repeat f_equal; lia. }
  simpl loc_of_shr_record. simpl round_nearest_even.
  assert (shr_fexp prec emax (Z.pos (shl q (slack q))) (- slack q) loc_Exact
          = ({| shr_m := Z.pos (shl q (slack q)); shr_r := false;
                shr_s := false |}, - slack q)) as ->.
  { unfold shr_fexp. simpl Zdigits2. simpl shr_record_of_loc.
    rewrite digits2_pos_shl by lia.
    replace (fexp prec emax (Z.pos (digits2_pos q) + slack q + - slack q)
             - - slack q) with 0
      by (unfold fexp, emin, slack, prec, emax in *; lia).
    done. }
  simpl shr_m. rewrite (proj2 (Z.leb_le _ _)); [done|].
  unfold slack, prec, emax in *. lia.
Qed.

(** Rounding a whole number below [2 ^ prec], however its mantissa is
    padded with zero bits, gives the number itself in normal form. *)
Lemma binary_round_shl s q j :
  Z.pos q < 2 ^ prec → 0 ≤ j →
  binary_round prec emax s (shl q j) (- j)
  = S754_finite s (shl q (slack q)) (- slack q).
Proof.
  intros Hq Hj. pose proof (slack_nonneg q Hq) as Hk.
  pose proof (Pos2Z.is_pos (digits2_pos q)) as Hd.
  unfold binary_round. rewrite shl_align_spec, digits2_pos_shl by lia.
  replace (fexp prec emax (Z.pos (digits2_pos q) + j + - j)) with (- slack q)
    by (unfold fexp, emin, slack, prec, emax in *; lia).
  destruct (Z_le_gt_dec (slack q) j) as [Hle|Hgt].
  - rewrite shl_nonpos by lia. rewrite Z.min_l by lia.
    by apply binary_round_aux_shl.
  - rewrite shl_shl by lia. rewrite Z.min_r by lia.
    replace (j + (- j - - slack q)) with (slack q) by lia.
    apply binary_round_aux_shl; [done|lia].
Qed.

Lemma Prim2SF_numberOfZ_pos q :
  Z.pos q < 2 ^ prec →
  Prim2SF (numberOfZ (Z.pos q)) = S754_finite false (shl q (slack q)) (- slack q).
Proof.
  intros Hq. pose proof (slack_nonneg q Hq) as Hk.
  pose proof (Pos2Z.is_pos (digits2_pos q)) as Hd.
  unfold numberOfZ. simpl binary_normalize.
  change (binary_round prec emax false q 0)
    with (binary_round prec emax false (shl q 0) (- 0)).
  rewrite (binary_round_shl false q 0 Hq ltac:(done)).
  apply Prim2SF_SF2Prim.
  unfold valid_binary, bounded, canonical_mantissa.
  rewrite digits2_pos_shl by lia.
  apply andb_true_iff. split; [apply Z.eqb_eq|apply Z.leb_le];
    unfold fexp, emin, slack, prec, emax in *; lia.
Qed.

Lemma Prim2SF_numberOfZ_zero : Prim2SF (numberOfZ 0) = S754_zero false.
Proof. vm_compute. reflexivity. Qed.

(** Products and sums of whole numbers are exact below [2 ^ 53]. *)
Lemma numberOfZ_mul a b :
  0 ≤ a < 2 ^ 53 → 0 ≤ b < 2 ^ 53 → a * b < 2 ^ 53 →
  (numberOfZ a * numberOfZ b)%float = numberOfZ (a * b).
Proof.
  change (2 ^ 53) with (2 ^ prec). intros Ha Hb Hab. apply Prim2SF_inj. rewrite FloatAxioms.mul_spec.
  destruct a as [|p|p], b as [|r|r]; try lia.
  - by rewrite Prim2SF_numberOfZ_zero.
  - by rewrite Prim2SF_numberOfZ_zero, Prim2SF_numberOfZ_pos by lia.
  - rewrite Z.mul_0_r.
    by rewrite Prim2SF_numberOfZ_zero, Prim2SF_numberOfZ_pos by lia.
  - assert (Z.pos p < 2 ^ prec) as Hp by lia.
    assert (Z.pos r < 2 ^ prec) as Hr by lia.
    pose proof (slack_nonneg p Hp). pose proof (slack_nonneg r Hr).
    change (Z.pos p * Z.pos r) with (Z.pos (p * r)) in *.
    rewrite !Prim2SF_numberOfZ_pos by done.
    unfold SF64mul, SFmul. simpl xorb. rewrite shl_mul by lia.
    replace (- slack p + - slack r) with (- (slack p + slack r)) by lia.
    apply binary_round_aux_shl; [done|].
    pose proof (digits2_pos_mul p r). unfold slack, prec in *. lia.
Qed.

Lemma numberOfZ_add a b :
  0 ≤ a → 0 ≤ b → a + b < 2 ^ 53 →
  (numberOfZ a + numberOfZ b)%float = numberOfZ (a + b).
Proof.
  change (2 ^ 53) with (2 ^ prec). intros Ha Hb Hab. apply Prim2SF_inj. rewrite FloatAxioms.add_spec.
  destruct a as [|p|p], b as [|r|r]; try lia.
  - by rewrite Prim2SF_numberOfZ_zero.
  - change (0 + Z.pos r) with (Z.pos r).
    by rewrite Prim2SF_numberOfZ_zero, !Prim2SF_numberOfZ_pos by lia.
  - rewrite Z.add_0_r.
    by rewrite Prim2SF_numberOfZ_zero, !Prim2SF_numberOfZ_pos by lia.
  - assert (Z.pos p < 2 ^ prec) as Hp by lia.
    assert (Z.pos r < 2 ^ prec) as Hr by lia.
    pose proof (slack_nonneg p Hp). pose proof (slack_nonneg r Hr).
    change (Z.pos p + Z.pos r) with (Z.pos (p + r)) in *.
    rewrite !Prim2SF_numberOfZ_pos by done.
    unfold SF64add, SFadd, cond_Zopp. rewrite !shl_align_spec. simpl fst.
    set (ez := Z.min (- slack p) (- slack r)).
    rewrite !shl_shl by lia.
    replace (slack p + (- slack p - ez)) with (- ez) by lia.
    replace (slack r + (- slack r - ez)) with (- ez) by lia.
    rewrite <- Pos2Z.inj_add, shl_add by lia. simpl binary_normalize.
    replace ez with (- - ez) at 2 by lia.
    apply binary_round_shl; [done|lia].
Qed.


Lemma orZero_numberOfZ z :
  0 ≤ z < 2 ^ 53 → orZero (numberOfZ z) = numberOfZ z.
Proof.
  change (2 ^ 53) with (2 ^ prec). intros Hz. destruct z as [|q|q]; [by vm_compute| |lia].
  unfold orZero, PrimFloat.is_nan. rewrite !FloatAxioms.eqb_spec.
  rewrite Prim2SF_numberOfZ_pos by lia.
  change (Prim2SF 0) with (S754_zero false).
  unfold SFeqb, SFcompare. by rewrite Z.compare_refl, Pos.compare_cont_refl.
Qed.

Lemma Math_floor_numberOfZ z :
  0 ≤ z < 2 ^ 53 → Math_floor (numberOfZ z) = z.
Proof.
  change (2 ^ 53) with (2 ^ prec). intros Hz. destruct z as [|q|q]; [by vm_compute| |lia].
  unfold Math_floor. rewrite Prim2SF_numberOfZ_pos by lia.
  pose proof (slack_nonneg q ltac:(lia)) as Hk.
  rewrite shl_spec by done.
  assert (0 < 2 ^ slack q) by (apply Z.pow_pos_nonneg; lia).
  case_match.
  - assert (slack q = 0) as -> by lia. simpl. lia.
  - rewrite Z.opp_involutive. apply Z.div_mul. lia.
Qed.

(** ** The claims *)

Lemma findOne_Some_inv filter (m : gmap Id Booking.t) k b :
  findOne filter m = Some (k, b) → m !! k = Some b ∧ filter b = true.
Proof.
  unfold findOne. intros Hfind. apply find_some in Hfind as [Hin Hf].
  by apply list_elem_of_In, elem_of_map_to_list in Hin.
Qed.

Section LifecycleClaims.

Variable hmacSha256Hex : string → string → string.
Variable RAZORPAY_KEY_SECRET : option string.
Variable tzOffset : Z.

Local Abbreviation run := (run hmacSha256Hex RAZORPAY_KEY_SECRET tzOffset).
Local Abbreviation verify :=
  (verifyPayment hmacSha256Hex RAZORPAY_KEY_SECRET).

(** C1 (amended): if no room entry has a negative [availableRooms], then
    after any sequence of createBooking, confirm, reject, payment
    verification and cancel calls none has.  The release done when a
    Paid booking is cancelled is a plain increment: for a valid booking
    and hostel the cancellation is answered with success and adds
    exactly one to the [availableRooms] of the room entry of the
    booking's type, whatever its [totalRooms] is; there is no cap and no
    InvalidRelease failure. *)
Theorem C1_availableRooms_never_negative ops db :
  roomsNonNegative db →
  roomsNonNegative (run ops db)
  ∧ ∀ db' now user id reason booking hostel i room,
      bookings db' !! id = Some booking →
      Booking.status booking = Booking.Paid →
      Booking.validate booking = true →
      role user = Student →
      Booking.student booking = uid user →
      reason ≠ "" →
      hostels db' !! Booking.hostel booking = Some hostel →
      Hostel.validate hostel = true →
      Hostel.findRoom (Booking.roomType booking) hostel = Some (i, room) →
      (cancelBooking now user id reason db').1
      = succeed 200 "Booking cancelled successfully"
      ∧ availableOf (cancelBooking now user id reason db').2
          (Booking.hostel booking) (Booking.roomType booking)
        = Some (Hostel.availableRooms room + 1).
Proof.
  intros Hinv. split; [by apply run_roomsNonNegative|].
  intros db' now user id reason booking hostel i room
    Hb Hst Hvalid Hrole Hstu Hreason Hh Hvh Hr.
  rewrite (cancelBooking_accepted now user id reason db' booking hostel i room);
    try done.
  - split; [done|]. unfold availableOf. simpl. rewrite lookup_insert_eq.
    simpl. by rewrite (findRoom_setAvailableRooms _ _ _ _ _ _ Hr).
  - by left.
  - unfold Booking.canBeCancelled. rewrite Hst. done.
  - apply validate_markCancelled; [done|]. rewrite Hrole.
    apply list_elem_of_here.
Qed.

(** C3: the verification route checks neither the status of the booking
    nor whether the payment was applied before.  For a valid booking in
    any status, a well-signed verification by its student is answered
    with success, marks the booking Paid in full and takes a room; the
    same request sent again is applied again: it succeeds, stamps
    [paidAt] anew and takes a second room. *)
Theorem C3_verifyPayment_applied_again
    now now' user id req db booking secret hostel i room :
  bookings db !! id = Some booking →
  Booking.validate booking = true →
  role user = Student →
  Booking.student booking = uid user →
  RAZORPAY_KEY_SECRET = Some secret →
  wellSigned hmacSha256Hex secret req →
  hostels db !! Booking.hostel booking = Some hostel →
  Hostel.validate hostel = true →
  Hostel.findRoom (Booking.roomType booking) hostel = Some (i, room) →
  1 < Hostel.availableRooms room →
  let first := verify now user id req db in
  let second := verify now' user id req first.2 in
  first.1 = succeed 200 "Payment verified successfully"
  ∧ second.1 = succeed 200 "Payment verified successfully"
  ∧ (∃ b1,
       bookings first.2 !! id = Some b1
       ∧ Booking.status b1 = Booking.Paid
       ∧ Booking.paidAmount (Booking.pricing b1)
         = Booking.totalAmount (Booking.pricing booking)
       ∧ Booking.pendingAmount (Booking.pricing b1) = 0
       ∧ Booking.paidAt b1 = Some now
       ∧ Booking.razorpayPaymentId (Booking.payment b1)
         = Some (razorpay_payment_id req))
  ∧ (∃ b2,
       bookings second.2 !! id = Some b2
       ∧ Booking.status b2 = Booking.Paid
       ∧ Booking.paidAmount (Booking.pricing b2)
         = Booking.totalAmount (Booking.pricing booking)
       ∧ Booking.paidAt b2 = Some now')
  ∧ availableOf first.2 (Booking.hostel booking) (Booking.roomType booking)
    = Some (Hostel.availableRooms room - 1)
  ∧ availableOf second.2 (Booking.hostel booking) (Booking.roomType booking)
    = Some (Hostel.availableRooms room - 2).
Proof.
  intros Hb Hvalid Hrole Hstu Hkey Hsigned Hh Hvh Hr Hrooms first second.
  assert (Hostel.rooms hostel !! i = Some room) as Hi
    by (by apply list_find_Some in Hr as (Hi & _)).
  pose proof (validate_occupancy_nonneg _ Hvh) as Hocc.
  set (b1 := Booking.preSave "" (markPaid now req booking)).
  set (room1 := Hostel.setAvailableRooms (Hostel.availableRooms room + -1) room).
  set (hostel1 :=
         Hostel.setCurrentOccupancy (Hostel.currentOccupancy hostel + 1)
           (Hostel.setRooms (<[i := room1]> (Hostel.rooms hostel)) hostel)).
  assert (first
          = (succeed 200 "Payment verified successfully",
             {| bookings := <[id := b1]> (bookings db);
                hostels := <[Booking.hostel booking := hostel1]> (hostels db) |}))
    as Hfirst.
  { apply (verifyPayment_takes_room hmacSha256Hex RAZORPAY_KEY_SECRET
             now user id req db booking secret hostel i room); try done. lia. }
  assert (Booking.validate b1 = true) as Hvalid1.
  { apply storedOk_preSave; [by apply validate_markPaid|]. simpl. lia. }
  assert (Hostel.validate hostel1 = true) as Hvh1.
  { apply validate_setAvailableRooms; try done; lia. }
  assert (Hostel.findRoom (Booking.roomType booking) hostel1 = Some (i, room1))
    as Hr1 by (by apply findRoom_setAvailableRooms).
  assert (second
          = (succeed 200 "Payment verified successfully",
             {| bookings :=
                  <[id := Booking.preSave "" (markPaid now' req b1)]>
                    (bookings first.2);
                hostels :=
                  <[Booking.hostel b1 :=
                      Hostel.setCurrentOccupancy
                        (Hostel.currentOccupancy hostel1 + 1)
                        (Hostel.setRooms
                           (<[i := Hostel.setAvailableRooms
                                     (Hostel.availableRooms room1 + -1) room1]>
                              (Hostel.rooms hostel1)) hostel1)]>
                    (hostels first.2) |})) as Hsecond.
  { apply (verifyPayment_takes_room hmacSha256Hex RAZORPAY_KEY_SECRET
             now' user id req first.2 b1 secret hostel1 i room1); try done.
    - rewrite Hfirst. simpl. apply lookup_insert_eq.
    - rewrite Hfirst. simpl. apply lookup_insert_eq.
    - simpl. lia. }
  rewrite Hsecond, Hfirst. simpl.
  split; [done|]. split; [done|]. split_and!.
  - exists b1. rewrite lookup_insert_eq. split_and!; try done. simpl. lia.
  - eexists. rewrite lookup_insert_eq. split_and!; done.
  - unfold availableOf. simpl. rewrite lookup_insert_eq. simpl.
    rewrite Hr1. simpl. f_equal; lia.
  - unfold availableOf. simpl. rewrite lookup_insert_eq. simpl.
    rewrite (findRoom_setAvailableRooms _ _ _ _ _ _ Hr1). simpl. f_equal; lia.
Qed.

(** C4: a payment-verification call whose signature differs from the
    digest of [orderId|paymentId] under the secret fails and leaves the
    whole database as it was (the booking's status, paid amount and
    payment sub-record, and every hostel's [availableRooms]); for the
    student of an existing booking the answer is the 400 "Invalid payment
    signature". *)
Theorem C4_tampered_signature_rejected now user id req db secret :
  RAZORPAY_KEY_SECRET = Some secret →
  hmacSha256Hex secret
    (razorpay_order_id req +:+ "|" +:+ razorpay_payment_id req)
  ≠ razorpay_signature req →
  (verify now user id req db).2 = db
  ∧ success (verify now user id req db).1 = false
  ∧ (∀ booking,
       bookings db !! id = Some booking →
       role user = Student →
       Booking.student booking = uid user →
       razorpay_payment_id req ≠ "" →
       razorpay_order_id req ≠ "" →
       razorpay_signature req ≠ "" →
       (verify now user id req db).1 = fail 400 "Invalid payment signature").
Proof.
  intros Hkey Hsig. split_and!.
  - destruct (verify now user id req db) as [resp db'] eqn:Hrun.
    apply verifyPayment_cases in Hrun
      as [[-> _]|(b & secret' & db1 & _ & _ & _ & Hkey' & Hmac & _)]; [done|].
    congruence.
  - destruct (verify now user id req db) as [resp db'] eqn:Hrun.
    apply verifyPayment_cases in Hrun
      as [[_ Hfail]|(b & secret' & db1 & _ & _ & _ & Hkey' & Hmac & _)];
      [done|].
    congruence.
  - intros booking Hb Hrole Hstu Hpid Hoid Hnonempty.
    unfold verifyPayment. apply authorize_singleton in Hrole.
    rewrite Hrole. simpl.
    rewrite !(bool_decide_eq_false_2 (_ = "")) by done. simpl.
    rewrite Hb, Hkey. rewrite bool_decide_eq_true_2 by done. simpl.
    by rewrite bool_decide_eq_false_2 by done.
Qed.

(** C7 (amended): for every valid booking in status Pending, a reject
    call by the hostel's owner succeeds, moves the booking to Rejected
    and records a cancellation sub-record with [cancelledBy = "Owner"];
    the hostel documents, and so every [availableRooms], stay as they
    were.  On a booking whose status is not Pending the call fails and
    changes nothing. *)
Theorem C7_reject_pending now user id reason db booking :
  Booking.validate booking = true →
  bookings db !! id = Some booking →
  (Booking.status booking = Booking.Pending →
   role user = HostelOwner →
   Booking.owner booking = uid user →
   (rejectBooking now user id reason db).1
   = succeed 200 "Booking rejected successfully"
   ∧ hostels (rejectBooking now user id reason db).2 = hostels db
   ∧ ∃ booking',
       bookings (rejectBooking now user id reason db).2
       = <[id := booking']> (bookings db)
       ∧ Booking.status booking' = Booking.Rejected
       ∧ (Booking.cancelledBy <$> Booking.cancellation booking') = Some "Owner"
       ∧ Booking.cancelledAt booking' = Some now)
  ∧ (Booking.status booking ≠ Booking.Pending →
     success (rejectBooking now user id reason db).1 = false
     ∧ (rejectBooking now user id reason db).2 = db).
Proof.
  intros Hvalid Hb. split.
  - intros Hst Hrole Hown.
    rewrite (rejectBooking_accepted now user id reason db booking) by done.
    simpl. split_and!; [done..|]. eexists. split_and!; done.
  - intros Hst.
    destruct (rejectBooking now user id reason db) as [resp db'] eqn:Hrun.
    simpl.
    assert (success resp = false) as Hfail.
    { destruct (success resp) eqn:Hs; [|done].
      destruct (rejectBooking_success _ _ _ _ _ _ _ Hrun Hs)
        as (b & _ & Hb' & _ & Hpending & _). congruence. }
    split; [done|]. by eapply rejectBooking_failure.
Qed.

(** C10 (amended): for every booking whose stored pending amount is the
    total less the paid amount, a successful cancel (which requires the
    status to be Pending, Confirmed or Paid) leaves the booking's pricing
    fields, [totalAmount], [paidAmount] and [pendingAmount] among them,
    and its payment sub-record as they were, and records the computed
    refund in [cancellation.refundAmount]. *)
Theorem C10_cancel_preserves_pricing now user id reason db resp db' booking :
  pendingConsistent booking →
  bookings db !! id = Some booking →
  cancelBooking now user id reason db = (resp, db') →
  success resp = true →
  Booking.status booking ∈ [Booking.Pending; Booking.Confirmed; Booking.Paid]
  ∧ ∃ booking',
      bookings db' !! id = Some booking'
      ∧ Booking.status booking' = Booking.Cancelled
      ∧ Booking.pricing booking' = Booking.pricing booking
      ∧ Booking.payment booking' = Booking.payment booking
      ∧ (Booking.refundAmount <$> Booking.cancellation booking')
        = Some (cancelRefund now booking).
Proof.
  intros Hpending Hb Hrun Hs.
  apply cancelBooking_cases in Hrun
    as [[_ Hfail]|(b & db1 & _ & Hb' & _ & Hcan & Hsave & Hupd)];
    [congruence|].
  assert (b = booking) as -> by congruence.
  split; [by apply bool_decide_eq_true in Hcan|].
  destruct Hupd as [(_ & _ & Hfail)|[Hupd _]]; [congruence|].
  apply updateAvailability_Some in Hupd as [-> _].
  apply saveBooking_Some in Hsave as [_ ->]. simpl.
  eexists. split; [apply lookup_insert_eq|].
  split_and!; [done| |done..].
  by apply preSave_pricing.
Qed.

End LifecycleClaims.

Section CreateBookingClaims.

Variable tzOffset : Z.

Local Abbreviation createBooking := (createBooking tzOffset).

(** C2: [POST /api/bookings] never creates a booking.  The document it
    builds has no [bookingId]; the schema requires one and the hook that
    would generate it runs only after validation, so [booking.save()]
    throws: every call is answered with a failure and leaves the
    database as it was, and a call that passes every check of the route
    is answered with the 500 "Server error while creating booking".
    When no room of the type is available the call fails with the "no
    rooms available" answer once the earlier checks have passed. *)
Theorem C2_createBooking_never_persists now user req db :
  success (createBooking now user req db).1 = false
  ∧ (createBooking now user req db).2 = db
  ∧ (∀ hostel i roomInfo,
       role user = Student → 1 ≤ duration req →
       startOfDay tzOffset now ≤ checkInDate req →
       checkInDate req < checkOutDate req →
       hostels db !! hostelId req = Some hostel →
       Hostel.status hostel = Hostel.Active →
       Hostel.isVerified hostel = true →
       Hostel.findRoom (roomType req) hostel = Some (i, roomInfo) →
       0 < Hostel.availableRooms roomInfo →
       findOne (isActiveBookingOf (uid user)) (bookings db) = None →
       (createBooking now user req db).1
       = fail 500 "Server error while creating booking")
  ∧ (∀ hostel,
       role user = Student → 1 ≤ duration req →
       startOfDay tzOffset now ≤ checkInDate req →
       checkInDate req < checkOutDate req →
       hostels db !! hostelId req = Some hostel →
       Hostel.status hostel = Hostel.Active →
       Hostel.isVerified hostel = true →
       (∀ n, availableOf db (hostelId req) (roomType req) = Some n → n ≤ 0) →
       (createBooking now user req db).1 = roomUnavailable (roomType req)).
Proof.
  destruct (createBooking_never_succeeds tzOffset now user req db)
    as [Hfail Hsame].
  split; [exact Hfail|]. split; [exact Hsame|]. split.
  - intros hostel i roomInfo Hrole Hdur Hin Hout Hh Hact Hver Hroom Hpos Hdup.
    unfold createBooking.
    apply authorize_singleton in Hrole. rewrite Hrole. simpl.
    rewrite (proj2 (Z.leb_le _ _) Hdur). simpl.
    rewrite (proj2 (Z.ltb_ge _ _) Hin).
    rewrite (proj2 (Z.leb_gt _ _) Hout).
    rewrite Hh, Hact, Hver, Hroom. simpl.
    rewrite (proj2 (Z.leb_gt _ _) Hpos), Hdup.
    done.
  - intros hostel Hrole Hdur Hin Hout Hh Hact Hver Hnone.
    unfold createBooking.
    apply authorize_singleton in Hrole. rewrite Hrole. simpl.
    rewrite (proj2 (Z.leb_le _ _) Hdur). simpl.
    rewrite (proj2 (Z.ltb_ge _ _) Hin).
    rewrite (proj2 (Z.leb_gt _ _) Hout).
    rewrite Hh, Hact, Hver. simpl.
    destruct (Hostel.findRoom (roomType req) hostel) as [[i roomInfo]|] eqn:Hroom;
      [|done].
    specialize (Hnone _ (availableOf_lookup _ _ _ _ _ _ Hh Hroom)).
    by rewrite (proj2 (Z.leb_le _ _) Hnone).
Qed.

(** C9 (amended): createBooking fails, changing nothing, whenever the
    student already holds a booking whose status is Pending, Confirmed,
    Paid, CheckedIn or Active, with the "already have an active booking"
    answer once the earlier checks have passed; and it gives that answer
    only when the student holds a booking in one of those five statuses,
    so a CheckedOut booking does not trigger it. *)
Theorem C9_duplicate_active_booking now user req db :
  ((∃ k b, bookings db !! k = Some b
           ∧ Booking.student b = uid user
           ∧ Booking.status b ∈ activeStatuses) →
   success (createBooking now user req db).1 = false
   ∧ (createBooking now user req db).2 = db
   ∧ (∀ n, role user = Student → 1 ≤ duration req →
        startOfDay tzOffset now ≤ checkInDate req →
        checkInDate req < checkOutDate req →
        (∃ hostel, hostels db !! hostelId req = Some hostel
                   ∧ Hostel.status hostel = Hostel.Active
                   ∧ Hostel.isVerified hostel = true) →
        availableOf db (hostelId req) (roomType req) = Some n → 0 < n →
        (createBooking now user req db).1
        = fail 400 "You already have an active booking"))
  ∧ ((createBooking now user req db).1
     = fail 400 "You already have an active booking" →
     ∃ k b, bookings db !! k = Some b
            ∧ Booking.student b = uid user
            ∧ Booking.status b ∈ activeStatuses).
Proof.
  split.
  - intros (k & b & Hkb & Hstu & Hst).
    assert (is_Some (findOne (isActiveBookingOf (uid user)) (bookings db)))
      as [found Hfound].
    { apply (findOne_Some _ _ k b Hkb). unfold isActiveBookingOf.
      by rewrite !bool_decide_eq_true_2. }
    destruct (createBooking_never_succeeds tzOffset now user req db)
      as [Hfail Hsame].
    split; [exact Hfail|]. split; [exact Hsame|].
    intros n Hrole Hdur Hin Hout (hostel & Hh & Hact & Hver) Havail Hpos.
    unfold createBooking.
    apply authorize_singleton in Hrole. rewrite Hrole. simpl.
    rewrite (proj2 (Z.leb_le _ _) Hdur). simpl.
    rewrite (proj2 (Z.ltb_ge _ _) Hin).
    rewrite (proj2 (Z.leb_gt _ _) Hout).
    rewrite Hh, Hact, Hver. simpl.
    unfold availableOf in Havail. rewrite Hh in Havail. simpl in Havail.
    destruct (Hostel.findRoom (roomType req) hostel) as [[i roomInfo]|] eqn:Hroom;
      [|done].
    simpl in Havail. simplify_eq.
    by rewrite (proj2 (Z.leb_gt _ _) Hpos), Hfound.
  - unfold createBooking, roleNotAuthorized, validationFailed,
      roomUnavailable.
    intros Hanswer.
    repeat match type of Hanswer with
           | context [match ?x with _ => _ end] => destruct x eqn:?
           end; simpl in Hanswer; try discriminate Hanswer.
    match goal with
    | H : findOne _ _ = Some ?kb |- _ =>
        destruct kb as [k b]; apply findOne_Some_inv in H as [Hkb Hactive]
    end.
    unfold isActiveBookingOf in Hactive.
    apply andb_true_iff in Hactive as [Hstu Hst].
    apply bool_decide_eq_true in Hstu, Hst. by exists k, b.
Qed.

End CreateBookingClaims.

(** C6 (amended): the total that createBooking puts on the booking
    document it builds is computed in binary64 floating-point
    arithmetic, each product and sum rounded to the nearest Number:
    [(monthlyRent·duration + securityDeposit) + maintenanceCharges·duration],
    to which the hostel's monthly food cost times the duration is added
    when a food plan is selected and the hostel offers food; otherwise
    (so when no plan is selected) nothing is added.  Rent 1000, duration
    6, deposit 500, maintenance 0 and no food term give 6500.  When the
    prices are whole numbers and the exact sum is below [2 ^ 53], the
    total is that exact sum. *)
Theorem C6_totalAmount_formula hostel req :
  let p := Hostel.pricing hostel in
  let food := Hostel.foodOptions hostel in
  let d := numberOfZ (duration req) in
  let base :=
    (Hostel.monthlyRent p * d + orZero (Hostel.securityDeposit p)
     + orZero (Hostel.maintenanceCharges p) * d)%float in
  (foodSelected req = true → Hostel.available food = true →
   computeTotalAmount hostel req = (base + Hostel.monthlyCost food * d)%float)
  ∧ (foodSelected req = false ∨ Hostel.available food = false →
     computeTotalAmount hostel req = base)
  ∧ (Hostel.monthlyRent p = 1000%float → duration req = 6 →
     Hostel.securityDeposit p = 500%float →
     Hostel.maintenanceCharges p = 0%float →
     foodSelected req = false ∨ Hostel.available food = false →
     computeTotalAmount hostel req = 6500%float)
  ∧ (∀ user,
       Booking.totalAmount (Booking.pricing (newBooking user hostel req))
       = wholeAmount (computeTotalAmount hostel req))
  ∧ ∀ rent deposit maintenance meals,
      Hostel.monthlyRent p = numberOfZ rent →
      Hostel.securityDeposit p = numberOfZ deposit →
      Hostel.maintenanceCharges p = numberOfZ maintenance →
      Hostel.monthlyCost food = numberOfZ meals →
      0 ≤ rent → 0 ≤ deposit → 0 ≤ maintenance → 0 ≤ meals →
      1 ≤ duration req < 2 ^ 53 →
      let foodTerm :=
        if foodSelected req && Hostel.available food
        then meals * duration req else 0 in
      let exact :=
        rent * duration req + deposit + maintenance * duration req
        + foodTerm in
      exact < 2 ^ 53 →
      computeTotalAmount hostel req = numberOfZ exact
      ∧ ∀ user,
          Booking.totalAmount (Booking.pricing (newBooking user hostel req))
          = exact.
Proof.
  intros p food d base.
  assert (foodSelected req = false ∨ Hostel.available food = false →
          computeTotalAmount hostel req = base) as Hbase.
  { intros Hno. unfold computeTotalAmount. fold p food d.
    destruct Hno as [->| ->]; [done|]. by rewrite andb_false_r. }
  split_and!.
  - intros Hsel Havail. unfold computeTotalAmount. fold p food d.
    by rewrite Hsel, Havail.
  - exact Hbase.
  - intros Hrent Hdur Hdep Hmaint Hno. rewrite (Hbase Hno).
    unfold base, d. rewrite Hrent, Hdur, Hdep, Hmaint.
    vm_compute. reflexivity.
  - done.
  - intros rent deposit maintenance meals Hrent Hdep Hmaint Hmeals
      Hr Hd Hm Hf Hdur foodTerm exact Hexact.
    assert (computeTotalAmount hostel req = numberOfZ exact) as Htotal.
    { unfold computeTotalAmount. fold p food.
      rewrite Hrent, Hdep, Hmaint, Hmeals.
      subst exact foodTerm. set (n := duration req) in *.
      assert (0 < 2 ^ 53) by done.
      destruct (foodSelected req && Hostel.available food).
      - rewrite !orZero_numberOfZ by nia.
        rewrite !numberOfZ_mul by nia. rewrite !numberOfZ_add by nia.
        done.
      - rewrite !orZero_numberOfZ by nia.
        rewrite !numberOfZ_mul by nia. rewrite !numberOfZ_add by nia.
        f_equal. lia. }
    split; [exact Htotal|]. intros user. simpl.
    rewrite Htotal. apply Math_floor_numberOfZ.
    subst exact foodTerm. destruct (foodSelected req && Hostel.available food);
      nia.
Qed.

(** C5: the refund is 90%, 70%, 50%, 20% or 0% of the paid amount by the
    number of days to check-in, rounded down: the code gives 9000, 5000
    and 0 on the three sample inputs, but for a paid amount of 45000
    twenty days before check-in it computes [45000 * 0.7] in binary
    floating point, 31499.999999999996, and refunds 31499 where
    [floor(45000 × 70%)] is 31500.  The cancel route records that
    amount. *)
Theorem C5_refund_seventy_percent_tier :
  refundFor 10000 35 = 9000
  ∧ refundFor 10000 10 = 5000
  ∧ refundFor 10000 (-1) = 0
  ∧ Booking.paidAmount (Booking.pricing bookingPaid) = 45000
  ∧ daysUntilCheckIn (Booking.checkInDate bookingPaid) 0 = 20
  ∧ specRefund 45000 20 = 31500
  ∧ calculateRefund bookingPaid 0 = 31499
  ∧ (cancelBooking 0 alice 0%nat "change of plans" (dbWith Booking.Paid)).1
    = succeed 200 "Booking cancelled successfully"
  ∧ refundRecorded
      (cancelBooking 0 alice 0%nat "change of plans" (dbWith Booking.Paid)).2
      0%nat
    = Some 31499.
Proof. split_and!; vm_compute; reflexivity. Qed.

(** C8: confirm succeeds only on a booking that exists, is Pending and
    is owned by the caller, who has the HostelOwner role; in every other
    case the database is unchanged and the answer is 404 (not found), 403
    (forbidden) or the 400 "cannot be confirmed in current status"; on a
    Paid booking the owner gets the latter.  Cancel succeeds only from
    Pending, Confirmed or Paid; from any other status it fails and
    changes nothing, and on a Completed booking an entitled caller gets
    the 400 "cannot be cancelled in current status". *)
Theorem C8_transition_guards now user id reason db :
  (success (confirmBooking now user id db).1 = true →
   ∃ b, bookings db !! id = Some b
        ∧ Booking.status b = Booking.Pending
        ∧ Booking.owner b = uid user
        ∧ role user = HostelOwner)
  ∧ ((¬ ∃ b, bookings db !! id = Some b
             ∧ Booking.status b = Booking.Pending
             ∧ Booking.owner b = uid user
             ∧ role user = HostelOwner) →
     (confirmBooking now user id db).2 = db
     ∧ (confirmBooking now user id db).1
       ∈ [ fail 404 "Booking not found";
           roleNotAuthorized;
           fail 403 "Not authorized to confirm this booking";
           fail 400 "Booking cannot be confirmed in current status" ])
  ∧ (∀ b, bookings db !! id = Some b →
          role user = HostelOwner → Booking.owner b = uid user →
          Booking.status b = Booking.Paid →
          confirmBooking now user id db
          = (fail 400 "Booking cannot be confirmed in current status", db))
  ∧ (success (cancelBooking now user id reason db).1 = true →
     ∃ b, bookings db !! id = Some b
          ∧ Booking.status b ∈ [Booking.Pending; Booking.Confirmed; Booking.Paid])
  ∧ (∀ b, bookings db !! id = Some b →
          Booking.status b ∉ [Booking.Pending; Booking.Confirmed; Booking.Paid] →
          success (cancelBooking now user id reason db).1 = false
          ∧ (cancelBooking now user id reason db).2 = db)
  ∧ (∀ b, bookings db !! id = Some b →
          Booking.status b = Booking.Completed →
          reason ≠ "" →
          Booking.student b = uid user ∨ Booking.owner b = uid user
          ∨ role user = Admin →
          cancelBooking now user id reason db
          = (fail 400 "Booking cannot be cancelled in current status", db)).
Proof.
  split_and!.
  - intros Hs.
    destruct (confirmBooking now user id db) as [resp db'] eqn:Hrun.
    destruct (confirmBooking_success _ _ _ _ _ _ Hrun Hs)
      as (b & ? & ? & ? & ? & _). by exists b.
  - intros Hnot. unfold confirmBooking, authorize.
    case_bool_decide as Hrole; simpl; [|set_solver].
    apply list_elem_of_singleton in Hrole.
    destruct (bookings db !! id) as [b|] eqn:Hb; simpl; [|set_solver].
    case_bool_decide as Hown; simpl; [|set_solver].
    case_bool_decide as Hst; simpl; [|set_solver].
    destruct Hnot. by exists b.
  - intros b Hb Hrole Hown Hst. unfold confirmBooking.
    apply authorize_singleton in Hrole. rewrite Hrole, Hb. simpl.
    rewrite bool_decide_eq_true_2 by done. simpl.
    rewrite bool_decide_eq_false_2 by (rewrite Hst; done). done.
  - intros Hs.
    destruct (cancelBooking now user id reason db) as [resp db'] eqn:Hrun.
    apply cancelBooking_cases in Hrun
      as [[_ Hfail]|(b & db1 & _ & Hb & _ & Hcan & _)];
      [simpl in Hs; congruence|].
    exists b. split; [done|]. by apply bool_decide_eq_true in Hcan.
  - intros b Hb Hst.
    destruct (cancelBooking now user id reason db) as [resp db'] eqn:Hrun.
    apply cancelBooking_cases in Hrun
      as [[-> Hfail]|(b' & db1 & _ & Hb' & _ & Hcan & _)]; [done|].
    apply bool_decide_eq_true in Hcan. congruence.
  - intros b Hb Hst Hreason Hactor. unfold cancelBooking.
    rewrite bool_decide_eq_false_2 by done. rewrite Hb.
    assert (bool_decide (Booking.student b = uid user)
            || bool_decide (Booking.owner b = uid user)
            || bool_decide (role user = Admin) = true) as ->.
    { rewrite !orb_true_iff, !bool_decide_eq_true. tauto. }
    simpl. unfold Booking.canBeCancelled. rewrite Hst. done.
Qed.

(** ** The claims on the sample data *)

Lemma dbWith_roomsNonNegative s : roomsNonNegative (dbWith s).
Proof.
  unfold roomsNonNegative, dbWith. simpl. apply map_Forall_singleton.
  repeat constructor. simpl. lia.
Qed.

Lemma pay0_wellSigned : wellSigned toyHmac "key" pay0.
Proof. split_and!; [discriminate..|reflexivity]. Qed.

Lemma C1_availableRooms_never_negative_witness :
  roomsNonNegative (dbWith Booking.Paid)
  ∧ roomsNonNegative
      (run toyHmac (Some "key") 0
         [OpCancel 0 alice 0%nat "change of plans"] (dbWith Booking.Paid)).
Proof.
  split; [exact (dbWith_roomsNonNegative Booking.Paid)|].
  exact (proj1 (C1_availableRooms_never_negative toyHmac (Some "key") 0
                  [OpCancel 0 alice 0%nat "change of plans"]
                  (dbWith Booking.Paid)
                  (dbWith_roomsNonNegative Booking.Paid))).
Defined.

(** C1 as stated fails: at a hostel that lists both of its two single
    rooms as available, the student's cancellation of a Paid booking is
    answered with success and leaves three rooms available out of two. *)
Lemma C1_cancel_exceeds_totalRooms :
  roomsWithinTotal (dbWith Booking.Paid)
  ∧ (Booking.status <$> bookings (dbWith Booking.Paid) !! 0%nat)
    = Some Booking.Paid
  ∧ (cancelBooking 0 alice 0%nat "change of plans" (dbWith Booking.Paid)).1
    = succeed 200 "Booking cancelled successfully"
  ∧ (Hostel.rooms
       <$> hostels (cancelBooking 0 alice 0%nat "change of plans"
                      (dbWith Booking.Paid)).2 !! 1%nat)
    = Some [ {| Hostel.type := Single; Hostel.totalRooms := 2;
                Hostel.availableRooms := 3 |} ]
  ∧ ¬ roomsWithinTotal
        (cancelBooking 0 alice 0%nat "change of plans" (dbWith Booking.Paid)).2.
Proof.
  assert ((Hostel.rooms
             <$> hostels (cancelBooking 0 alice 0%nat "change of plans"
                            (dbWith Booking.Paid)).2 !! 1%nat)
          = Some [ {| Hostel.type := Single; Hostel.totalRooms := 2;
                      Hostel.availableRooms := 3 |} ]) as Hrooms
    by (vm_compute; reflexivity).
  split_and!.
  - unfold roomsWithinTotal, dbWith. simpl. apply map_Forall_singleton.
    repeat constructor; simpl; lia.
  - vm_compute. reflexivity.
  - vm_compute. reflexivity.
  - exact Hrooms.
  - intros Hinv.
    destruct (hostels (cancelBooking 0 alice 0%nat "change of plans"
                         (dbWith Booking.Paid)).2 !! 1%nat) as [h|] eqn:Hh;
      [|discriminate Hrooms].
    apply (map_Forall_lookup_1 _ _ _ _ Hinv) in Hh. simpl in Hh, Hrooms.
    injection Hrooms as Hrooms. rewrite Hrooms in Hh.
    apply Forall_cons_1 in Hh as [Hbad _]. simpl in Hbad. lia.
Qed.

Lemma C2_createBooking_never_persists_witness :
  createBooking 0 0 alice req0 db0
  = (fail 500 "Server error while creating booking", db0).
Proof.
  destruct (C2_createBooking_never_persists 0 0 alice req0 db0)
    as (_ & Hdb & Hanswer & _).
  apply injective_projections; simpl; [|exact Hdb].
  apply (Hanswer hostel0 0%nat
           {| Hostel.type := Single; Hostel.totalRooms := 2;
              Hostel.availableRooms := 2 |});
    first [reflexivity | by vm_compute].
Defined.

Lemma C3_verifyPayment_applied_again_witness :
  (Booking.status <$> bookings dbConfirmed !! 0%nat) = Some Booking.Confirmed
  ∧ wellSigned toyHmac "key" pay0
  ∧ availableOf dbConfirmed 1%nat Single = Some 2
  ∧ (verifyPayment toyHmac (Some "key") 0 alice 0%nat pay0 dbConfirmed).1
    = succeed 200 "Payment verified successfully"
  ∧ (verifyPayment toyHmac (Some "key") 5 alice 0%nat pay0
       (verifyPayment toyHmac (Some "key") 0 alice 0%nat pay0 dbConfirmed).2).1
    = succeed 200 "Payment verified successfully"
  ∧ availableOf
      (verifyPayment toyHmac (Some "key") 5 alice 0%nat pay0
         (verifyPayment toyHmac (Some "key") 0 alice 0%nat pay0 dbConfirmed).2).2
      1%nat Single
    = Some 0.
Proof.
  assert (∃ b, bookings dbConfirmed !! 0%nat = Some b
               ∧ Booking.status b = Booking.Confirmed
               ∧ Booking.validate b = true
               ∧ Booking.student b = uid alice
               ∧ Booking.hostel b = 1%nat
               ∧ Booking.roomType b = Single)
    as (b & Hb & Hst & Hvalid & Hstu & Hhostel & Hty).
  { eexists. split_and!; vm_compute; reflexivity. }
  assert (hostels dbConfirmed !! Booking.hostel b = Some hostel0) as Hh
    by (rewrite Hhostel; vm_compute; reflexivity).
  assert (Hostel.findRoom (Booking.roomType b) hostel0
          = Some (0%nat, {| Hostel.type := Single; Hostel.totalRooms := 2;
                            Hostel.availableRooms := 2 |})) as Hr
    by (rewrite Hty; vm_compute; reflexivity).
  destruct (C3_verifyPayment_applied_again toyHmac (Some "key")
              0 5 alice 0%nat pay0 dbConfirmed b "key" hostel0 _ _
              Hb Hvalid eq_refl Hstu eq_refl pay0_wellSigned Hh eq_refl Hr
              eq_refl)
    as (Hfirst & Hsecond & _ & _ & _ & Hrooms).
  rewrite Hhostel, Hty in Hrooms.
  split_and!; [by rewrite Hb; simpl; rewrite Hst|exact pay0_wellSigned
              |vm_compute; reflexivity|exact Hfirst|exact Hsecond|exact Hrooms].
Defined.

Lemma C4_tampered_signature_rejected_witness :
  toyHmac "key"
    (razorpay_order_id payTampered +:+ "|" +:+ razorpay_payment_id payTampered)
  ≠ razorpay_signature payTampered
  ∧ verifyPayment toyHmac (Some "key") 0 alice 0%nat payTampered dbConfirmed
    = (fail 400 "Invalid payment signature", dbConfirmed)
  ∧ (Booking.status <$> bookings dbConfirmed !! 0%nat) = Some Booking.Confirmed.
Proof.
  assert (toyHmac "key"
            (razorpay_order_id payTampered +:+ "|"
             +:+ razorpay_payment_id payTampered)
          ≠ razorpay_signature payTampered) as Hsig
    by (vm_compute; discriminate).
  destruct (C4_tampered_signature_rejected toyHmac (Some "key")
              0 alice 0%nat payTampered dbConfirmed "key" eq_refl Hsig)
    as (Hdb & _ & Hresp).
  split_and!; [exact Hsig| |vm_compute; reflexivity].
  apply injective_projections; simpl; [|exact Hdb].
  apply (Hresp (Booking.preSave "" (markConfirmed 0 booking0))).
  - vm_compute. reflexivity.
  - reflexivity.
  - reflexivity.
  - discriminate.
  - discriminate.
  - discriminate.
Defined.

Lemma C6_totalAmount_formula_witness :
  computeTotalAmount hostel0 req0 = 6500%float.
Proof.
  destruct (C6_totalAmount_formula hostel0 req0) as (_ & _ & Hexample & _).
  apply Hexample; try reflexivity. by left.
Defined.

(** C6 as stated fails.  When the student selects a food plan at a hostel
    that lists a monthly food cost of 500 but does not offer food, the
    document records the selected plan with monthly cost 500 and is
    priced at 6500, not at 6500 + 500·6.  And the arithmetic is not
    exact: for 4·10¹³ months at 1000 with a deposit of 500 the total is
    40000000000000496, the exact sum being 40000000000000500. *)
Lemma C6_total_is_not_the_exact_sum :
  Booking.foodOptions (newBooking alice hostel0 reqFood)
  = {| Booking.selected := true; Booking.monthlyCost := 500 |}
  ∧ computeTotalAmount hostel0 reqFood = 6500%float
  ∧ Booking.totalAmount (Booking.pricing (newBooking alice hostel0 reqFood))
    = 6500
  ∧ 1000 * duration reqFood + 500 + 0 * duration reqFood
    + 500 * duration reqFood = 9500
  ∧ computeTotalAmount hostel0 reqLong = 40000000000000496%float
  ∧ Booking.totalAmount (Booking.pricing (newBooking alice hostel0 reqLong))
    = 40000000000000496
  ∧ 1000 * duration reqLong + 500 + 0 * duration reqLong
    = 40000000000000500.
Proof. split_and!; vm_compute; reflexivity. Qed.

Lemma C7_reject_pending_witness :
  Booking.validate booking0 = true
  ∧ bookings dbPending !! 0%nat = Some booking0
  ∧ (rejectBooking 0 olga 0%nat None dbPending).1
    = succeed 200 "Booking rejected successfully".
Proof.
  assert (Booking.validate booking0 = true) as Hvalid
    by (vm_compute; reflexivity).
  assert (bookings dbPending !! 0%nat = Some booking0) as Hb
    by (vm_compute; reflexivity).
  split_and!; [exact Hvalid|exact Hb|].
  apply (proj1 (C7_reject_pending 0 olga 0%nat None dbPending _ Hvalid Hb));
    reflexivity.
Defined.

(** C7 as stated fails: the owner's reject of a Pending booking succeeds
    and moves it to Rejected, and the two available single rooms stay
    two; nothing is released. *)
Lemma C7_reject_releases_nothing :
  (Booking.status <$> bookings dbPending !! 0%nat) = Some Booking.Pending
  ∧ (rejectBooking 0 olga 0%nat None dbPending).1
    = succeed 200 "Booking rejected successfully"
  ∧ (Booking.status <$> bookings (rejectBooking 0 olga 0%nat None dbPending).2
                          !! 0%nat)
    = Some Booking.Rejected
  ∧ availableOf dbPending 1%nat Single = Some 2
  ∧ availableOf (rejectBooking 0 olga 0%nat None dbPending).2 1%nat Single
    = Some 2.
Proof. split_and!; vm_compute; reflexivity. Qed.

Lemma C8_transition_guards_witness :
  confirmBooking 0 olga 0%nat dbPaid
  = (fail 400 "Booking cannot be confirmed in current status", dbPaid)
  ∧ cancelBooking 0 alice 0%nat "change of plans" (dbWith Booking.Completed)
    = (fail 400 "Booking cannot be cancelled in current status",
       dbWith Booking.Completed).
Proof.
  destruct (C8_transition_guards 0 olga 0%nat "change of plans" dbPaid)
    as (_ & _ & Hconfirm & _).
  destruct (C8_transition_guards 0 alice 0%nat "change of plans"
              (dbWith Booking.Completed))
    as (_ & _ & _ & _ & _ & Hcancel).
  assert (∃ b, bookings dbPaid !! 0%nat = Some b
               ∧ Booking.owner b = uid olga
               ∧ Booking.status b = Booking.Paid) as (b & Hb & Hown & Hst).
  { eexists. split_and!; vm_compute; reflexivity. }
  split.
  - apply (Hconfirm b Hb); [reflexivity|exact Hown|exact Hst].
  - apply (Hcancel (Booking.setStatus Booking.Completed bookingPaid)).
    + vm_compute. reflexivity.
    + reflexivity.
    + discriminate.
    + left. reflexivity.
Defined.

Lemma C9_duplicate_active_booking_witness :
  createBooking 0 0 alice req0 dbPending
  = (fail 400 "You already have an active booking", dbPending).
Proof.
  destruct (proj1 (C9_duplicate_active_booking 0 0 alice req0 dbPending))
    as (_ & Hdb & Hanswer).
  { exists 0%nat, booking0.
    split_and!; [vm_compute; reflexivity|reflexivity|apply list_elem_of_here]. }
  apply injective_projections; simpl; [|exact Hdb].
  apply (Hanswer 2); first [reflexivity | by vm_compute | idtac].
  exists hostel0. split_and!; first [reflexivity | by vm_compute].
Defined.

(** C9 as stated fails: for a student whose only booking is CheckedOut, a
    status that is not terminal, the duplicate check finds nothing, and
    the answer to the request is not the duplicate-booking error. *)
Lemma C9_checkedOut_does_not_block :
  (Booking.status <$> bookings dbCheckedOut !! 0%nat) = Some Booking.CheckedOut
  ∧ (Booking.student <$> bookings dbCheckedOut !! 0%nat) = Some (uid alice)
  ∧ findOne (isActiveBookingOf (uid alice)) (bookings dbCheckedOut) = None
  ∧ (createBooking 0 0 alice req0 dbCheckedOut).1
    = fail 500 "Server error while creating booking"
  ∧ (createBooking 0 0 alice req0 dbCheckedOut).1
    ≠ fail 400 "You already have an active booking".
Proof. split_and!; [vm_compute; reflexivity..|vm_compute; discriminate]. Qed.

Lemma C10_cancel_preserves_pricing_witness :
  success (cancelBooking 0 alice 0%nat "change of plans" dbPaid).1 = true
  ∧ ∃ b b',
      bookings dbPaid !! 0%nat = Some b
      ∧ pendingConsistent b
      ∧ bookings (cancelBooking 0 alice 0%nat "change of plans" dbPaid).2 !! 0%nat
        = Some b'
      ∧ Booking.pricing b' = Booking.pricing b.
Proof.
  assert (∃ b, bookings dbPaid !! 0%nat = Some b ∧ pendingConsistent b)
    as (b & Hb & Hpending).
  { eexists. split; vm_compute; reflexivity. }
  assert (success (cancelBooking 0 alice 0%nat "change of plans" dbPaid).1 = true)
    as Hs by (vm_compute; reflexivity).
  split; [exact Hs|].
  destruct (C10_cancel_preserves_pricing
              0 alice 0%nat "change of plans" dbPaid _ _ b
              Hpending Hb (surjective_pairing _) Hs)
    as (_ & b' & Hb' & _ & Hpricing & _).
  exists b, b'. split_and!; [exact Hb|exact Hpending|exact Hb'|exact Hpricing].
Defined.

(** C10 as stated fails: a Pending booking stored with a total of 6500,
    nothing paid and a pending amount of 0 is cancelled with success,
    and the save puts its pending amount at 6500. *)
Lemma C10_cancel_recomputes_pendingAmount :
  (Booking.status <$> bookings dbStale !! 0%nat) = Some Booking.Pending
  ∧ (Booking.validate <$> bookings dbStale !! 0%nat) = Some true
  ∧ (Booking.pendingAmount ∘ Booking.pricing <$> bookings dbStale !! 0%nat)
    = Some 0
  ∧ (cancelBooking 0 alice 0%nat "change of plans" dbStale).1
    = succeed 200 "Booking cancelled successfully"
  ∧ (Booking.pendingAmount ∘ Booking.pricing
       <$> bookings (cancelBooking 0 alice 0%nat "change of plans" dbStale).2
             !! 0%nat)
    = Some 6500.
Proof. split_and!; vm_compute; reflexivity. Qed.

(** * Beyond the claims: the rest of the booking code *)

(** ** How the routes rewrite the booking collection *)

Lemma createPaymentOrder_cases razorpayOrdersCreate user id db resp data db' :
  createPaymentOrder razorpayOrdersCreate user id db = (resp, data, db') →
  (db' = db ∧ success resp = false ∧ data = None)
  ∨ ∃ booking orderId,
      role user = Student
      ∧ bookings db !! id = Some booking
      ∧ Booking.student booking = uid user
      ∧ Booking.status booking = Booking.Confirmed
      ∧ 0 < Booking.pendingAmount (Booking.pricing booking)
      ∧ razorpayOrdersCreate (orderOptions user booking) = Some orderId
      ∧ Booking.validate booking = true
      ∧ resp = succeed 200 ""
      ∧ data = Some {| Order.orderId := orderId;
                       Order.dataAmount :=
                         Booking.totalAmount (Booking.pricing booking)
                         - Booking.paidAmount (Booking.pricing booking);
                       Order.dataCurrency := "INR";
                       Order.dataBookingId := Booking.bookingId booking |}
      ∧ db' = {| bookings :=
                   <[id := Booking.preSave "" (setRazorpayOrderId orderId booking)]>
                     (bookings db);
                 hostels := hostels db |}.
Proof.
  unfold createPaymentOrder. intros Hrun.
  destruct (authorize [Student] user) eqn:Hrole; simpl in Hrun;
    [|by simplify_eq; left].
  apply authorize_singleton in Hrole.
  destruct (bookings db !! id) as [booking|] eqn:Hb; [|by simplify_eq; left].
  destruct (bool_decide (Booking.student booking = uid user)) eqn:Hstu;
    simpl in Hrun; [|by simplify_eq; left].
  destruct (bool_decide (Booking.status booking = Booking.Confirmed)) eqn:Hst;
    simpl in Hrun; [|by simplify_eq; left].
  destruct (Booking.pendingAmount (Booking.pricing booking) <=? 0) eqn:Hpend;
    [by simplify_eq; left|].
  destruct (razorpayOrdersCreate _) as [orderId|] eqn:Horder;
    [|by simplify_eq; left].
  destruct (saveBooking _ _ _) as [db1|] eqn:Hsave; [|by simplify_eq; left].
  apply saveBooking_Some in Hsave as [Hvalid ->]. simplify_eq.
  apply bool_decide_eq_true in Hstu, Hst. apply Z.leb_gt in Hpend.
  assert (Booking.validate booking = true) as Hvalid' by exact Hvalid.
  right. exists booking, orderId. split_and!; try done.
  apply validate_hasBookingId in Hvalid'.
  unfold Booking.hasBookingId in *. simpl. by rewrite Hvalid'.
Qed.

Lemma createPaymentOrder_booking razorpayOrdersCreate user id db k b :
  bookings db !! k = Some b →
  ∃ b', bookings (createPaymentOrder razorpayOrdersCreate user id db).2 !! k
        = Some b'
        ∧ (b' = b ∨ evolves b b').
Proof.
  intros Hk.
  destruct (createPaymentOrder razorpayOrdersCreate user id db)
    as [[resp data] db'] eqn:Hrun. simpl.
  apply createPaymentOrder_cases in Hrun
    as [(-> & _)|(booking & orderId & _ & Hb & _ & Hst & _ & _ & _ & _ & _ & ->)];
    [eauto|].
  simpl. destruct (decide (k = id)) as [->|Hne].
  - rewrite lookup_insert_eq. eexists. split; [done|]. right.
    assert (booking = b) as -> by congruence. by constructor.
  - rewrite lookup_insert_ne by done. eauto.
Qed.

Lemma createPaymentOrder_new razorpayOrdersCreate user id db k :
  bookings db !! k = None →
  bookings (createPaymentOrder razorpayOrdersCreate user id db).2 !! k = None.
Proof.
  intros Hk.
  destruct (createPaymentOrder razorpayOrdersCreate user id db)
    as [[resp data] db'] eqn:Hrun. simpl.
  apply createPaymentOrder_cases in Hrun
    as [(-> & _)|(booking & orderId & _ & Hb & _ & _ & _ & _ & _ & _ & _ & ->)];
    [done|].
  simpl. rewrite lookup_insert_ne; [done|]. congruence.
Qed.

Section ServerFacts.

Variable hmacSha256Hex : string → string → string.
Variable RAZORPAY_KEY_SECRET : option string.
Variable tzOffset : Z.

Local Abbreviation step := (step hmacSha256Hex RAZORPAY_KEY_SECRET tzOffset).
Local Abbreviation handle := (handle hmacSha256Hex RAZORPAY_KEY_SECRET tzOffset).
Local Abbreviation serve := (serve hmacSha256Hex RAZORPAY_KEY_SECRET tzOffset).

(** A stored booking stays stored; a route leaves it alone or rewrites it
    in one of the five ways of [evolves]. *)
Lemma step_booking op db k b :
  bookings db !! k = Some b →
  ∃ b', bookings (step op db).2 !! k = Some b' ∧ (b' = b ∨ evolves b b').
Proof.
  intros Hk. destruct op as [now user req|now user id|now user id reason
                             |now user id req|now user id reason]; simpl.
  - rewrite (proj2 (createBooking_never_succeeds tzOffset now user req db)).
    eauto.
  - destruct (confirmBooking now user id db) as [resp db'] eqn:Hrun.
    simpl. destruct (success resp) eqn:Hs.
    + destruct (confirmBooking_success _ _ _ _ _ _ Hrun Hs)
        as (b0 & _ & Hb & _ & Hst & _ & _ & ->).
      simpl. destruct (decide (k = id)) as [->|Hne].
      * rewrite lookup_insert_eq. eexists. split; [done|]. right.
        assert (b0 = b) as -> by congruence. by constructor.
      * rewrite lookup_insert_ne by done. eauto.
    + rewrite (confirmBooking_failure _ _ _ _ _ _ Hrun Hs). eauto.
  - destruct (rejectBooking now user id reason db) as [resp db'] eqn:Hrun.
    simpl. destruct (success resp) eqn:Hs.
    + destruct (rejectBooking_success _ _ _ _ _ _ _ Hrun Hs)
        as (b0 & _ & Hb & _ & Hst & _ & _ & ->).
      simpl. destruct (decide (k = id)) as [->|Hne].
      * rewrite lookup_insert_eq. eexists. split; [done|]. right.
        assert (b0 = b) as -> by congruence. by constructor.
      * rewrite lookup_insert_ne by done. eauto.
    + rewrite (rejectBooking_failure _ _ _ _ _ _ _ Hrun Hs). eauto.
  - destruct (verifyPayment _ _ now user id req db) as [resp db'] eqn:Hrun.
    simpl.
    apply verifyPayment_cases in Hrun
      as [[-> _]|(b0 & secret & db1 & _ & Hb & _ & _ & _ & Hsave & Hupd)];
      [eauto|].
    assert (bookings db' = bookings db1) as ->.
    { destruct Hupd as [(_ & -> & _)|[Hupd _]]; [done|].
      by apply updateAvailability_Some in Hupd as [-> _]. }
    apply saveBooking_Some in Hsave as [_ ->]. simpl.
    destruct (decide (k = id)) as [->|Hne].
    + rewrite lookup_insert_eq. eexists. split; [done|]. right.
      assert (b0 = b) as -> by congruence. by constructor.
    + rewrite lookup_insert_ne by done. eauto.
  - destruct (cancelBooking now user id reason db) as [resp db'] eqn:Hrun.
    simpl.
    apply cancelBooking_cases in Hrun
      as [[-> _]|(b0 & db1 & _ & Hb & _ & Hcan & Hsave & Hupd)]; [eauto|].
    assert (bookings db' = bookings db1) as ->.
    { destruct Hupd as [(_ & -> & _)|[Hupd _]]; [done|].
      by apply updateAvailability_Some in Hupd as [-> _]. }
    apply saveBooking_Some in Hsave as [Hvalid ->]. simpl.
    destruct (decide (k = id)) as [->|Hne].
    + rewrite lookup_insert_eq. eexists. split; [done|]. right.
      assert (b0 = b) as -> by congruence. by constructor.
    + rewrite lookup_insert_ne by done. eauto.
Qed.

(** No lifecycle route stores a booking under an id that had none. *)
Lemma step_new op db k :
  bookings db !! k = None →
  bookings (step op db).2 !! k = None.
Proof.
  intros Hk. destruct op as [now user req|now user id|now user id reason
                             |now user id req|now user id reason]; simpl.
  - by rewrite (proj2 (createBooking_never_succeeds tzOffset now user req db)).
  - destruct (confirmBooking now user id db) as [resp db'] eqn:Hrun.
    simpl. destruct (success resp) eqn:Hs.
    + destruct (confirmBooking_success _ _ _ _ _ _ Hrun Hs)
        as (b0 & _ & Hb & _ & _ & _ & _ & ->).
      simpl. rewrite lookup_insert_ne; congruence.
    + by rewrite (confirmBooking_failure _ _ _ _ _ _ Hrun Hs).
  - destruct (rejectBooking now user id reason db) as [resp db'] eqn:Hrun.
    simpl. destruct (success resp) eqn:Hs.
    + destruct (rejectBooking_success _ _ _ _ _ _ _ Hrun Hs)
        as (b0 & _ & Hb & _ & _ & _ & _ & ->).
      simpl. rewrite lookup_insert_ne; congruence.
    + by rewrite (rejectBooking_failure _ _ _ _ _ _ _ Hrun Hs).
  - destruct (verifyPayment _ _ now user id req db) as [resp db'] eqn:Hrun.
    simpl.
    apply verifyPayment_cases in Hrun
      as [[-> _]|(b0 & secret & db1 & _ & Hb & _ & _ & _ & Hsave & Hupd)];
      [done|].
    assert (bookings db' = bookings db1) as ->.
    { destruct Hupd as [(_ & -> & _)|[Hupd _]]; [done|].
      by apply updateAvailability_Some in Hupd as [-> _]. }
    apply saveBooking_Some in Hsave as [_ ->]. simpl.
    rewrite lookup_insert_ne; congruence.
  - destruct (cancelBooking now user id reason db) as [resp db'] eqn:Hrun.
    simpl.
    apply cancelBooking_cases in Hrun
      as [[-> _]|(b0 & db1 & _ & Hb & _ & Hcan & Hsave & Hupd)]; [done|].
    assert (bookings db' = bookings db1) as ->.
    { destruct Hupd as [(_ & -> & _)|[Hupd _]]; [done|].
      by apply updateAvailability_Some in Hupd as [-> _]. }
    apply saveBooking_Some in Hsave as [_ ->]. simpl.
    rewrite lookup_insert_ne; congruence.
Qed.

Lemma handle_booking r db k b :
  bookings db !! k = Some b →
  ∃ b', bookings (handle r db) !! k = Some b' ∧ (b' = b ∨ evolves b b').
Proof.
  destruct r as [op|g user id]; simpl.
  - apply step_booking.
  - apply createPaymentOrder_booking.
Qed.

Lemma handle_new r db k :
  bookings db !! k = None →
  bookings (handle r db) !! k = None.
Proof.
  destruct r as [op|g user id]; simpl.
  - apply step_new.
  - apply createPaymentOrder_new.
Qed.

(** A booking stored after a request was stored before it, and is the
    same or rewritten in one of the ways of [evolves]. *)
Lemma handle_origin r db k b' :
  bookings (handle r db) !! k = Some b' →
  ∃ b, bookings db !! k = Some b ∧ (b' = b ∨ evolves b b').
Proof.
  intros Hk'. destruct (bookings db !! k) as [b|] eqn:Hk.
  - destruct (handle_booking r db k b Hk) as (b'' & Hk'' & Hev).
    exists b. split; [done|]. congruence.
  - by rewrite (handle_new r db k Hk) in Hk'.
Qed.

(** Induction over the requests served: a property of bookings that
    survives each rewrite and holds of every stored booking still holds
    of every stored booking afterwards. *)
Lemma serve_booking_ind (P : Booking.t → Prop) :
  (∀ b b', P b → evolves b b' → P b') →
  ∀ rs db,
    (∀ k b, bookings db !! k = Some b → P b) →
    ∀ k b, bookings (serve rs db) !! k = Some b → P b.
Proof.
  intros Hstep rs. induction rs as [|r rs IH]; intros db Hinv; [exact Hinv|].
  simpl. apply IH. intros k b' Hk'.
  destruct (handle_origin r db k b' Hk') as (b & Hk & [->|Hev]).
  - by eapply Hinv.
  - eapply Hstep; [|done]. by eapply Hinv.
Qed.

(** The lifecycle operations are six-route histories without orders. *)
Lemma serve_lifecycle ops db :
  serve (Lifecycle <$> ops) db
  = run hmacSha256Hex RAZORPAY_KEY_SECRET tzOffset ops db.
Proof. revert db. induction ops as [|op ops IH]; intros db; simpl; auto. Qed.

End ServerFacts.

(** ** Invariants of the booking collection *)

Lemma sameTerms_refl b : sameTerms b b.
Proof. by repeat split. Qed.

Lemma sameTerms_trans b1 b2 b3 :
  sameTerms b1 b2 → sameTerms b2 b3 → sameTerms b1 b3.
Proof.
  unfold sameTerms. intros H12 H23.
  destruct_and!. split_and!; congruence.
Qed.

Lemma evolves_sameTerms b b' : evolves b b' → sameTerms b b'.
Proof. destruct 1; by repeat split. Qed.

(** Membership in a list written out, as goal and as hypothesis. *)
Ltac listed :=
  repeat first [apply list_elem_of_here|apply list_elem_of_further].

Ltac unlisted H :=
  repeat (apply elem_of_cons in H as [H|H]; [try discriminate H|]);
  try (by apply elem_of_nil in H).

Lemma evolves_status b b' :
  evolves b b' →
  Booking.status b'
  ∈ [Booking.Confirmed; Booking.Paid; Booking.Cancelled; Booking.Rejected]
  ∨ Booking.status b' = Booking.status b.
Proof.
  destruct 1 as [now b Hst|now reason b Hst|now user reason b Hcan Hvalid
                 |now req b|orderId b Hst]; simpl;
    first [by right | left; listed].
Qed.

Lemma evolves_paymentState b b' :
  paymentState b → evolves b b' → paymentState b'.
Proof.
  intros (Hpending & Hpaid & Hstamp & Hopen & Hstatus) Hev.
  unfold paymentState.
  destruct Hev as [now b1 Hst|now reason b1 Hst|now user reason b1 Hcan Hvalid
                   |now req b1|orderId b1 Hst]; simpl.
  - split_and!; [done|done|done| |done].
    intros _. apply Hopen. rewrite Hst. listed.
  - split_and!; [done|done|done| |done]. intros H. unlisted H.
  - split_and!; [done|done|done| |done]. intros H. unlisted H.
  - split_and!; [lia|by right|done| |].
    + intros H. unlisted H.
    + intros _. split_and!; [done|lia|eauto|eauto].
  - split_and!; [done|done|done|done|].
    intros Hpaid'. rewrite Hst in Hpaid'. done.
Qed.

Lemma evolves_cancellationState b b' :
  cancellationState b → evolves b b' → cancellationState b'.
Proof.
  intros [Hhas Hrec] Hev. unfold cancellationState.
  destruct Hev as [now b1 Hst|now reason b1 Hst|now user reason b1 Hcan Hvalid
                   |now req b1|orderId b1 Hst]; simpl.
  - split; [intros H; unlisted H|]. intros c Hc.
    destruct (Hrec c Hc) as (? & ? & ? & ? & _). split_and!; done.
  - split; [eauto|]. intros c [= <-]. simpl.
    split_and!; [listed|done|split; [done|lia]|done|done|done].
  - split; [eauto|]. intros c [= <-]. simpl.
    unfold Booking.validate in Hvalid. rewrite !andb_true_iff in Hvalid.
    destruct Hvalid as [_ Hvalid]. simpl in Hvalid.
    unfold Booking.validCancellation in Hvalid. simpl in Hvalid.
    apply andb_true_iff in Hvalid as [Hby Hrefund].
    apply bool_decide_eq_true in Hby. apply Z.leb_le in Hrefund.
    split_and!; [done|done| | |done|].
    + destruct (0 <? cancelRefund now b1) eqn:Hpos;
        [apply Z.ltb_lt in Hpos|apply Z.ltb_ge in Hpos]; split; try done; lia.
    + destruct (0 <? cancelRefund now b1) eqn:Hpos;
        [apply Z.ltb_lt in Hpos|apply Z.ltb_ge in Hpos]; split; try done; lia.
    + intros _. by destruct (role user).
  - split; [intros H; unlisted H|]. intros c Hc.
    destruct (Hrec c Hc) as (? & ? & ? & ? & _). split_and!; done.
  - split; [intros H; rewrite Hst in H; unlisted H|]. intros c Hc.
    destruct (Hrec c Hc) as (? & ? & ? & ? & _).
    split_and!; try done; rewrite Hst; done.
Qed.

Section BookingInvariants.

Variable hmacSha256Hex : string → string → string.
Variable RAZORPAY_KEY_SECRET : option string.
Variable tzOffset : Z.

Local Abbreviation handle := (handle hmacSha256Hex RAZORPAY_KEY_SECRET tzOffset).
Local Abbreviation serve := (serve hmacSha256Hex RAZORPAY_KEY_SECRET tzOffset).

(** X1: no route deletes a booking or changes the terms fixed at its
    creation: after any sequence of requests the booking is still stored
    under its id with the same student, hostel, owner, room type, dates,
    duration, rent, deposit, maintenance charges, total amount and food
    options. *)
Theorem bookings_keep_their_terms rs db k b :
  bookings db !! k = Some b →
  ∃ b', bookings (serve rs db) !! k = Some b' ∧ sameTerms b b'.
Proof.
  revert db b. induction rs as [|r rs IH]; intros db b Hk; simpl.
  - exists b. split; [done|apply sameTerms_refl].
  - destruct (handle_booking hmacSha256Hex RAZORPAY_KEY_SECRET tzOffset r db k b Hk)
      as (b1 & Hk1 & Hev).
    destruct (IH _ _ Hk1) as (b' & Hk' & Hsame).
    exists b'. split; [done|].
    destruct Hev as [->|Hev]; [done|].
    eapply sameTerms_trans; [by apply evolves_sameTerms|done].
Qed.

(** X2: no request adds a booking, and the only statuses the routes write
    are Confirmed, Paid, Cancelled and Rejected: a booking stored after
    any sequence of requests was stored under the same id before, and its
    status is the one it had or one of these four.  No route moves a
    booking to Pending, CheckedIn, Active, CheckedOut, Completed or
    Expired. *)
Theorem statuses_the_routes_write rs db k b' :
  bookings (serve rs db) !! k = Some b' →
  ∃ b, bookings db !! k = Some b
       ∧ (Booking.status b' = Booking.status b
          ∨ Booking.status b'
            ∈ [Booking.Confirmed; Booking.Paid; Booking.Cancelled;
               Booking.Rejected]).
Proof.
  revert db. induction rs as [|r rs IH]; intros db Hk'; simpl in Hk'.
  - exists b'. split; [done|by left].
  - destruct (IH _ Hk') as (b1 & Hk1 & Hstatus).
    destruct (handle_origin hmacSha256Hex RAZORPAY_KEY_SECRET tzOffset
                r db k b1 Hk1) as (b & Hk & Hev).
    exists b. split; [done|].
    destruct Hev as [->|Hev]; [done|].
    destruct Hstatus as [->|Hwritten]; [|by right].
    destruct (evolves_status _ _ Hev) as [Hwritten| ->]; [by right|by left].
Qed.

(** X3: the routes keep every booking unpaid or paid in full, never in
    part.  If of every stored booking the pending amount is the total
    less the paid amount, the paid amount is 0 or the total and 0 without
    a payment stamp, a Pending or Confirmed booking has paid nothing and
    a Paid one has paid the total and carries the payment stamp and the
    gateway's payment id, then the same holds of every stored booking
    after any sequence of requests. *)
Theorem payment_state_is_kept rs db :
  (∀ k b, bookings db !! k = Some b → paymentState b) →
  ∀ k b, bookings (serve rs db) !! k = Some b → paymentState b.
Proof.
  apply (serve_booking_ind hmacSha256Hex RAZORPAY_KEY_SECRET tzOffset
           paymentState).
  apply evolves_paymentState.
Qed.

(** X4: the routes keep the cancellation data of every booking in line
    with its status.  If every stored Cancelled or Rejected booking
    carries a cancellation record and a cancellation stamp, and every
    stored cancellation record names Student, Owner or Admin, has a
    non-negative refund amount, the refund status Pending exactly when
    that amount is positive and Not Applicable exactly when it is 0, by
    "Owner" with refund 0 on a Rejected booking and not by "Owner" on a
    Cancelled one, then the same holds after any sequence of requests (no
    route ever marks a refund Processed or Failed). *)
Theorem cancellation_record_is_kept rs db :
  (∀ k b, bookings db !! k = Some b → cancellationState b) →
  ∀ k b, bookings (serve rs db) !! k = Some b → cancellationState b.
Proof.
  apply (serve_booking_ind hmacSha256Hex RAZORPAY_KEY_SECRET tzOffset
           cancellationState).
  apply evolves_cancellationState.
Qed.

End BookingInvariants.

(** ** Who can cancel, and what is refunded *)

(** X5: a cancellation by a user whose role is HostelOwner or Parent
    never goes through: the role name is written to [cancelledBy], whose
    schema only admits Student, Owner and Admin, so the save is refused;
    the database is unchanged, and when the request passes the route's
    own guards the answer is the 500 server error. *)
Theorem owner_role_cannot_cancel now user id reason db :
  role user ∈ [HostelOwner; Parent] →
  (cancelBooking now user id reason db).2 = db
  ∧ success (cancelBooking now user id reason db).1 = false
  ∧ ∀ b, bookings db !! id = Some b →
         reason ≠ "" →
         Booking.student b = uid user ∨ Booking.owner b = uid user →
         Booking.canBeCancelled b = true →
         (cancelBooking now user id reason db).1
         = fail 500 "Server error while cancelling booking".
Proof.
  intros Hrole.
  assert (∀ b, Booking.validate (markCancelled now user reason b) = false)
    as Hinvalid.
  { intros b. unfold Booking.validate. simpl.
    unfold Booking.validCancellation. simpl.
    assert (bool_decide (roleName (role user) ∈ ["Student"; "Owner"; "Admin"])
            = false) as ->.
    { apply elem_of_cons in Hrole as [->|Hrole];
        [|apply list_elem_of_singleton in Hrole as ->]; by vm_compute. }
    simpl. by rewrite !andb_false_r. }
  split_and!.
  - destruct (cancelBooking now user id reason db) as [resp db'] eqn:Hrun.
    apply cancelBooking_cases in Hrun
      as [[-> _]|(b & db1 & _ & _ & _ & _ & Hsave & _)]; [done|].
    apply saveBooking_Some in Hsave as [Hvalid _]. by rewrite Hinvalid in Hvalid.
  - destruct (cancelBooking now user id reason db) as [resp db'] eqn:Hrun.
    apply cancelBooking_cases in Hrun
      as [[_ Hfail]|(b & db1 & _ & _ & _ & _ & Hsave & _)]; [done|].
    apply saveBooking_Some in Hsave as [Hvalid _]. by rewrite Hinvalid in Hvalid.
  - intros b Hb Hreason Hactor Hcan. unfold cancelBooking.
    rewrite bool_decide_eq_false_2 by done. rewrite Hb.
    assert (bool_decide (Booking.student b = uid user)
            || bool_decide (Booking.owner b = uid user)
            || bool_decide (role user = Admin) = true) as ->.
    { rewrite !orb_true_iff, !bool_decide_eq_true. tauto. }
    simpl. rewrite Hcan. simpl. unfold saveBooking. by rewrite Hinvalid.
Qed.

Lemma Math_floor_mul_zero x : Math_floor (x * 0)%float = 0.
Proof.
  unfold Math_floor. rewrite FloatAxioms.mul_spec.
  change (Prim2SF 0%float) with (S754_zero false).
  destruct (Prim2SF x) as [s|s| |s m e]; reflexivity.
Qed.

Lemma daysUntilCheckIn_spec checkIn now d :
  daysUntilCheckIn checkIn now = d
  ↔ (d - 1) * msPerDay < checkIn - now ≤ d * msPerDay.
Proof.
  unfold daysUntilCheckIn.
  assert (0 < msPerDay) as Hpos by (by vm_compute).
  generalize dependent msPerDay. intros m Hpos.
  pose proof (Z.div_mod (- (checkIn - now)) m ltac:(lia)) as Hdm.
  pose proof (Z.mod_pos_bound (- (checkIn - now)) m Hpos) as Hbound.
  split.
  - intros <-. lia.
  - intros Hd.
    assert (Z.div (- (checkIn - now)) m = - d); [|lia].
    symmetry. apply (Z.div_unique _ _ _ (d * m - (checkIn - now))); lia.
Qed.

Lemma daysUntilCheckIn_nonpos checkIn now :
  daysUntilCheckIn checkIn now ≤ 0 ↔ checkIn ≤ now.
Proof.
  assert ((daysUntilCheckIn checkIn now - 1) * msPerDay
          < checkIn - now ≤ daysUntilCheckIn checkIn now * msPerDay) as Hd
    by (by apply daysUntilCheckIn_spec).
  assert (0 < msPerDay) as Hpos by (by vm_compute).
  generalize dependent (daysUntilCheckIn checkIn now).
  generalize dependent msPerDay. intros m Hpos d Hd.
  split; nia.
Qed.

(** X6: the number of days to check-in is the time left rounded up to
    whole days: it is the one [d] with
    [(d − 1) days < checkInDate − now ≤ d days].  So a started day counts
    as a whole one, and the count is at most 0 exactly when the check-in
    time has been reached. *)
Theorem daysUntilCheckIn_rounds_up checkIn now :
  let d := daysUntilCheckIn checkIn now in
  (d - 1) * msPerDay < checkIn - now ≤ d * msPerDay
  ∧ (∀ d', (d' - 1) * msPerDay < checkIn - now ≤ d' * msPerDay → d' = d)
  ∧ (d ≤ 0 ↔ checkIn ≤ now).
Proof.
  intros d.
  assert ((d - 1) * msPerDay < checkIn - now ≤ d * msPerDay) as Hd
    by (by apply daysUntilCheckIn_spec).
  split; [exact Hd|]. split.
  - intros d' Hd'. symmetry. by apply daysUntilCheckIn_spec.
  - apply daysUntilCheckIn_nonpos.
Qed.

(** X7: cancelling on or after the check-in time refunds nothing,
    whatever was paid, and so does cancelling a booking on which nothing
    was paid; the cancellation record then has refund amount 0 and refund
    status Not Applicable. *)
Theorem no_refund_after_check_in now user reason b :
  Booking.checkInDate b ≤ now ∨ Booking.paidAmount (Booking.pricing b) ≤ 0 →
  cancelRefund now b = 0
  ∧ ∃ c, Booking.cancellation (markCancelled now user reason b) = Some c
         ∧ Booking.refundAmount c = 0
         ∧ Booking.refundStatus c = Booking.RefundNotApplicable.
Proof.
  intros Hcase.
  assert (cancelRefund now b = 0) as Hzero.
  { unfold cancelRefund.
    destruct (0 <? Booking.paidAmount (Booking.pricing b)) eqn:Hpaid; [|done].
    apply Z.ltb_lt in Hpaid. destruct Hcase as [Hlate|]; [|lia].
    unfold calculateRefund, refundFor, refundPercentage.
    apply daysUntilCheckIn_nonpos in Hlate.
    rewrite !(proj2 (Z.ltb_ge _ _)) by lia.
    apply Math_floor_mul_zero. }
  split; [done|]. unfold markCancelled. simpl. rewrite Hzero. simpl.
  eexists. split; [done|]. done.
Qed.

(** ** Invariants of the hostel collection *)

Lemma list_find_insert_same {A} (P : A → Prop) `{!∀ x, Decision (P x)}
    (l : list A) i x y :
  l !! i = Some x →
  (P x ↔ P y) →
  list_find P (<[i := y]> l)
  = (λ jz, (jz.1, if decide (jz.1 = i) then y else jz.2)) <$> list_find P l.
Proof.
  revert i. induction l as [|z l IH]; intros i Hi HP; [done|].
  destruct i as [|i]; simpl in *.
  - simplify_eq.
    destruct (decide (P x)) as [Hx|Hx], (decide (P y)) as [Hy|Hy];
      try tauto; simpl; try done.
    by destruct (list_find P l) as [[j w]|].
  - destruct (decide (P z)); [done|].
    rewrite (IH i Hi HP).
    destruct (list_find P l) as [[j w]|]; simpl; [|done].
    f_equal. f_equal. destruct (decide (j = i)), (decide (S j = S i)); done || lia.
Qed.

(** What a write of the availability update does to any count. *)
Lemma availableOf_update db b delta occupancy db' hid ty n :
  updateAvailability delta occupancy b db = Some db' →
  availableOf db hid ty = Some n →
  ∃ n', availableOf db' hid ty = Some n'
        ∧ (n' = n ∨ (n' = n + delta ∧ 0 ≤ n'
                     ∧ hid = Booking.hostel b ∧ ty = Booking.roomType b)).
Proof.
  intros Hupd Hn.
  apply updateAvailability_Some in Hupd
    as [_ [->|(h & i & r & Hh & Hr & Hvalid & Hhostels)]]; [eauto|].
  unfold availableOf in *. rewrite Hhostels.
  destruct (decide (hid = Booking.hostel b)) as [->|Hne];
    [|rewrite lookup_insert_ne by done; eauto].
  rewrite lookup_insert_eq. rewrite Hh in Hn. simpl in *.
  unfold Hostel.findRoom in *. simpl.
  apply list_find_Some in Hr as Hr'. destruct Hr' as (Hi & Hty & _).
  rewrite (list_find_insert_same _ _ i r) by done.
  destruct (list_find (λ r0, Hostel.type r0 = ty) (Hostel.rooms h))
    as [[j w]|] eqn:Hfind; [|done].
  simpl in *. simplify_eq. destruct (decide (j = i)) as [->|Hji].
  - simpl. assert (w = r) as ->.
    { apply list_find_Some in Hfind as (Hj & _). congruence. }
    destruct (decide (ty = Booking.roomType b)) as [->|Hty'].
    + eexists. split; [done|]. right. split_and!; try done.
      apply validate_rooms_nonneg in Hvalid. simpl in Hvalid.
      rewrite Forall_lookup in Hvalid.
      apply (Hvalid i (Hostel.setAvailableRooms
                         (Hostel.availableRooms r + delta) r)).
      apply list_lookup_insert_eq. by eapply lookup_lt_Some.
    + apply list_find_Some in Hfind as (_ & Hw & _). congruence.
  - eauto.
Qed.

Lemma sameListing_refl h : sameListing h h.
Proof. by repeat split. Qed.

Lemma sameListing_trans h1 h2 h3 :
  sameListing h1 h2 → sameListing h2 h3 → sameListing h1 h3.
Proof.
  unfold sameListing. intros H12 H23. destruct_and!. split_and!; congruence.
Qed.

(** What a write of the availability update does to any hostel. *)
Lemma hostel_update db b delta occupancy db' hid h :
  updateAvailability delta occupancy b db = Some db' →
  hostels db !! hid = Some h →
  ∃ h', hostels db' !! hid = Some h'
        ∧ sameListing h h'
        ∧ (Hostel.currentOccupancy h' = Hostel.currentOccupancy h
           ∨ Hostel.currentOccupancy h' = Hostel.currentOccupancy h + occupancy).
Proof.
  intros Hupd Hh.
  apply updateAvailability_Some in Hupd
    as [_ [->|(h0 & i & r & Hh0 & Hr & _ & Hhostels)]].
  { exists h. split_and!; [done|apply sameListing_refl|by left]. }
  rewrite Hhostels. destruct (decide (hid = Booking.hostel b)) as [->|Hne].
  - rewrite lookup_insert_eq. assert (h0 = h) as -> by congruence.
    eexists. split; [done|]. split; [|by right].
    repeat split. simpl. rewrite list_fmap_insert.
    apply list_insert_id. rewrite list_lookup_fmap.
    apply list_find_Some in Hr as (-> & _). done.
  - rewrite lookup_insert_ne by done.
    exists h. split_and!; [done|apply sameListing_refl|by left].
Qed.

Lemma hostel_update_None db b delta occupancy db' hid :
  updateAvailability delta occupancy b db = Some db' →
  hostels db !! hid = None →
  hostels db' !! hid = None.
Proof.
  intros Hupd Hh.
  apply updateAvailability_Some in Hupd
    as [_ [->|(h0 & i & r & Hh0 & Hr & _ & Hhostels)]]; [done|].
  rewrite Hhostels. rewrite lookup_insert_ne; [done|]. congruence.
Qed.

Section HostelInvariants.

Variable hmacSha256Hex : string → string → string.
Variable RAZORPAY_KEY_SECRET : option string.
Variable tzOffset : Z.

Local Abbreviation handle := (handle hmacSha256Hex RAZORPAY_KEY_SECRET tzOffset).
Local Abbreviation serve := (serve hmacSha256Hex RAZORPAY_KEY_SECRET tzOffset).

(** A request leaves the hostel collection alone or runs one
    availability update on it, with the deltas of its route. *)
Lemma handle_hostels r db :
  hostels (handle r db) = hostels db
  ∨ ∃ b db1 db2,
      hostels db1 = hostels db
      ∧ hostels db2 = hostels (handle r db)
      ∧ updateAvailability (roomDelta r) (occupancyDelta r) b db1 = Some db2.
Proof.
  destruct r as [[now user req|now user id|now user id reason
                  |now user id req|now user id reason]|g user id]; simpl.
  - rewrite (proj2 (createBooking_never_succeeds tzOffset now user req db)).
    by left.
  - destruct (confirmBooking now user id db) as [resp db'] eqn:Hrun.
    simpl. destruct (success resp) eqn:Hs.
    + destruct (confirmBooking_success _ _ _ _ _ _ Hrun Hs)
        as (? & _ & _ & _ & _ & _ & _ & ->). by left.
    + rewrite (confirmBooking_failure _ _ _ _ _ _ Hrun Hs). by left.
  - destruct (rejectBooking now user id reason db) as [resp db'] eqn:Hrun.
    simpl. destruct (success resp) eqn:Hs.
    + destruct (rejectBooking_success _ _ _ _ _ _ _ Hrun Hs)
        as (? & _ & _ & _ & _ & _ & _ & ->). by left.
    + rewrite (rejectBooking_failure _ _ _ _ _ _ _ Hrun Hs). by left.
  - destruct (verifyPayment _ _ now user id req db) as [resp db'] eqn:Hrun.
    simpl.
    apply verifyPayment_cases in Hrun
      as [[-> _]|(b0 & secret & db1 & _ & _ & _ & _ & _ & Hsave & Hupd)];
      [by left|].
    apply saveBooking_Some in Hsave as [_ Hdb1].
    destruct Hupd as [(_ & -> & _)|[Hupd _]]; [left; by rewrite Hdb1|].
    right. eexists _, db1, db'. split_and!; [by rewrite Hdb1|done|done].
  - destruct (cancelBooking now user id reason db) as [resp db'] eqn:Hrun.
    simpl.
    apply cancelBooking_cases in Hrun
      as [[-> _]|(b0 & db1 & _ & _ & _ & _ & Hsave & Hupd)]; [by left|].
    apply saveBooking_Some in Hsave as [_ Hdb1].
    destruct Hupd as [(_ & -> & _)|[Hupd _]]; [left; by rewrite Hdb1|].
    right. eexists _, db1, db'. split_and!; [by rewrite Hdb1|done|done].
  - destruct (createPaymentOrder g user id db) as [[resp data] db'] eqn:Hrun.
    simpl.
    apply createPaymentOrder_cases in Hrun
      as [(-> & _)|(? & ? & _ & _ & _ & _ & _ & _ & _ & _ & _ & ->)]; by left.
Qed.

(** X8: no request adds or removes a hostel or edits its listing: after
    any sequence of requests the same hostel ids are stored, each with
    the same owner, pricing, food options, status, verification flag and
    capacity, and with the same room entries (type and total) in the same
    order; the occupancy counter never goes down. *)
Theorem hostel_listings_are_kept rs db hid :
  match hostels db !! hid with
  | None => hostels (serve rs db) !! hid = None
  | Some h =>
      ∃ h', hostels (serve rs db) !! hid = Some h'
            ∧ sameListing h h'
            ∧ Hostel.currentOccupancy h ≤ Hostel.currentOccupancy h'
  end.
Proof.
  revert db. induction rs as [|r rs IH]; intros db; simpl.
  - destruct (hostels db !! hid) as [h|] eqn:Hh; [|done].
    exists h. split_and!; [done|apply sameListing_refl|done].
  - specialize (IH (handle r db)).
    destruct (handle_hostels r db)
      as [Hsame|(b & db1 & db2 & Hdb1 & Hdb2 & Hupd)].
    { by rewrite Hsame in IH. }
    rewrite <- Hdb1. rewrite <- Hdb2 in IH.
    destruct (hostels db1 !! hid) as [h|] eqn:Hh.
    + destruct (hostel_update _ _ _ _ _ _ _ Hupd Hh) as (h1 & Hh1 & Hsame & Hocc).
      rewrite Hh1 in IH. destruct IH as (h' & Hh' & Hsame' & Hocc').
      exists h'. split_and!; [done|by eapply sameListing_trans|].
      assert (0 ≤ occupancyDelta r) by (by destruct r as [[]|]). lia.
    + by rewrite (hostel_update_None _ _ _ _ _ _ Hupd Hh) in IH.
Qed.

(** X9: one request changes an [availableRooms] count by at most one
    room: the count of a hostel and room type stays as it is, or goes
    down by one on a payment verification, or up by one on a
    cancellation, and only for the hostel and room type of the booking
    concerned; a changed count is never negative.  Creating, confirming
    and rejecting bookings and creating payment orders leave every count
    as it is. *)
Theorem one_room_at_a_time r db hid ty n :
  availableOf db hid ty = Some n →
  ∃ n', availableOf (handle r db) hid ty = Some n'
        ∧ (n' = n ∨ (n' = n + roomDelta r ∧ 0 ≤ n')).
Proof.
  intros Hn.
  assert (∀ d1 d2, hostels d1 = hostels d2 →
                   availableOf d1 hid ty = availableOf d2 hid ty) as Hext.
  { intros d1 d2 Heq. unfold availableOf. by rewrite Heq. }
  destruct (handle_hostels r db)
    as [Hsame|(b & db1 & db2 & Hdb1 & Hdb2 & Hupd)].
  { exists n. rewrite (Hext _ _ Hsame). auto. }
  rewrite <- (Hext _ _ Hdb1) in Hn.
  destruct (availableOf_update _ _ _ _ _ _ _ _ Hupd Hn) as (n' & Hn' & Hcase).
  exists n'. rewrite <- (Hext _ _ Hdb2). split; [done|].
  destruct Hcase as [->|(-> & ? & _)]; auto.
Qed.

End HostelInvariants.

(** ** Confirmation, payment orders and the path to a paid booking *)

Section PaidPath.

Variable hmacSha256Hex : string → string → string.
Variable RAZORPAY_KEY_SECRET : option string.

Local Abbreviation verify :=
  (verifyPayment hmacSha256Hex RAZORPAY_KEY_SECRET).

(** X10: confirmation by the owner of a Pending booking that passes the
    schema validators and whose pending amount is the total less the paid
    amount always succeeds and changes nothing but the status, which
    becomes Confirmed, and the confirmation stamp: every other field of
    the booking, every other booking and every hostel stay as they
    were. *)
Theorem confirm_only_stamps now user id db b :
  storedOk b →
  bookings db !! id = Some b →
  Booking.status b = Booking.Pending →
  role user = HostelOwner →
  Booking.owner b = uid user →
  confirmBooking now user id db
  = (succeed 200 "Booking confirmed successfully",
     {| bookings :=
          <[id := Booking.setConfirmedAt now
                    (Booking.setStatus Booking.Confirmed b)]> (bookings db);
        hostels := hostels db |}).
Proof.
  intros [Hvalid Hpending] Hb Hst Hrole Hown.
  rewrite (confirmBooking_accepted now user id db b) by done.
  rewrite preSave_consistent; [done| |done].
  apply validate_hasBookingId. by apply validate_markConfirmed.
Qed.

(** X11: a payment order is created only for a Confirmed booking of the
    calling student whose stored pending amount is positive.  The gateway
    is asked for that stored pending amount times 100 (paise, in INR), a
    binary64 product, with the receipt "booking_" followed by the booking
    id; the answer reports the total less the paid amount, which the save
    has put in the pending amount; and the only other change to the
    database is the order id stored in the booking's payment sub-record.
    A refused request changes nothing. *)
Theorem payment_order_is_for_the_pending_amount razorpayOrdersCreate user id db :
  let out := createPaymentOrder razorpayOrdersCreate user id db in
  (success out.1.1 = false → out.2 = db ∧ out.1.2 = None)
  ∧ (success out.1.1 = true →
     ∃ b orderId,
       bookings db !! id = Some b
       ∧ Booking.student b = uid user
       ∧ Booking.status b = Booking.Confirmed
       ∧ 0 < Booking.pendingAmount (Booking.pricing b)
       ∧ razorpayOrdersCreate
           {| Order.amount :=
                (numberOfZ (Booking.pendingAmount (Booking.pricing b)) * 100)%float;
              Order.currency := "INR";
              Order.receipt :=
                "booking_" +:+ default "undefined" (Booking.bookingId b);
              Order.bookingId := Booking.bookingId b;
              Order.studentId := uid user;
              Order.hostelId := Booking.hostel b |} = Some orderId
       ∧ out.1.2 = Some {| Order.orderId := orderId;
                           Order.dataAmount :=
                             Booking.totalAmount (Booking.pricing b)
                             - Booking.paidAmount (Booking.pricing b);
                           Order.dataCurrency := "INR";
                           Order.dataBookingId := Booking.bookingId b |}
       ∧ out.2
         = {| bookings :=
                <[id := Booking.setPricing
                          (Booking.setPendingAmount
                             (Booking.totalAmount (Booking.pricing b)
                              - Booking.paidAmount (Booking.pricing b))
                             (Booking.pricing b))
                          (setRazorpayOrderId orderId b)]> (bookings db);
              hostels := hostels db |}).
Proof.
  intros out.
  destruct (createPaymentOrder razorpayOrdersCreate user id db)
    as [[resp data] db'] eqn:Hrun.
  subst out. simpl.
  apply createPaymentOrder_cases in Hrun
    as [(-> & Hfail & ->)
       |(b & orderId & _ & Hb & Hstu & Hst & Hpos & Horder & Hvalid & -> & ->
         & ->)].
  { split; [done|]. intros Hs. rewrite Hs in Hfail. done. }
  split; [done|]. intros _. exists b, orderId.
  split_and!; try done.
  rewrite preSave_hasBookingId; [done|].
  apply validate_hasBookingId. by apply validate_setRazorpayOrderId.
Qed.

(** X12: a well-signed verification by the student of a booking that
    passes the schema validators marks the booking Paid whatever its
    status was (the route has no status guard, so this holds for a
    Cancelled or Rejected booking as for a Confirmed one); it stores the
    payment id and signature of the request, keeps the order id stored
    before without comparing it with the request's, and keeps an earlier
    cancellation record. *)
Theorem verification_ignores_status now user id req db b secret :
  Booking.validate b = true →
  bookings db !! id = Some b →
  role user = Student →
  Booking.student b = uid user →
  RAZORPAY_KEY_SECRET = Some secret →
  wellSigned hmacSha256Hex secret req →
  ∃ b',
    bookings (verify now user id req db).2 !! id = Some b'
    ∧ Booking.status b' = Booking.Paid
    ∧ Booking.paidAmount (Booking.pricing b')
      = Booking.totalAmount (Booking.pricing b)
    ∧ Booking.razorpayPaymentId (Booking.payment b')
      = Some (razorpay_payment_id req)
    ∧ Booking.razorpaySignature (Booking.payment b')
      = Some (razorpay_signature req)
    ∧ Booking.razorpayOrderId (Booking.payment b')
      = Booking.razorpayOrderId (Booking.payment b)
    ∧ Booking.cancellation b' = Booking.cancellation b
    ∧ Booking.cancelledAt b' = Booking.cancelledAt b.
Proof.
  intros Hvalid Hb Hrole Hstu Hkey Hsigned.
  destruct (verifyPayment_accepted hmacSha256Hex RAZORPAY_KEY_SECRET
              now user id req db b secret) as [Hbookings _]; try done.
  rewrite Hbookings, lookup_insert_eq. eexists. split; [done|]. done.
Qed.

(** X13: the routes compose into the intended path from a stored request
    to a paid booking.  For a Pending booking that passes the schema
    validators and is not paid in full, at a valid hostel document with a
    room of its type left, confirmation by the hostel's owner succeeds,
    then the student's payment order succeeds (if the gateway accepts it)
    and reports the total less the paid amount, then the student's
    well-signed verification succeeds; the booking ends Paid in full with
    both stamps, the order id and the payment id, and the room count of
    the booked type is one lower than before. *)
Theorem pending_booking_to_paid
    t1 t2 user owner id db b hostel i room g orderId secret vreq :
  bookings db !! id = Some b →
  Booking.validate b = true →
  Booking.status b = Booking.Pending →
  Booking.paidAmount (Booking.pricing b) < Booking.totalAmount (Booking.pricing b) →
  role owner = HostelOwner →
  Booking.owner b = uid owner →
  role user = Student →
  Booking.student b = uid user →
  hostels db !! Booking.hostel b = Some hostel →
  Hostel.validate hostel = true →
  Hostel.findRoom (Booking.roomType b) hostel = Some (i, room) →
  0 < Hostel.availableRooms room →
  (∀ options, g options = Some orderId) →
  RAZORPAY_KEY_SECRET = Some secret →
  wellSigned hmacSha256Hex secret vreq →
  ∃ db2 db3 db4 b',
    confirmBooking t1 owner id db
    = (succeed 200 "Booking confirmed successfully", db2)
    ∧ createPaymentOrder g user id db2
      = (succeed 200 "",
         Some {| Order.orderId := orderId;
                 Order.dataAmount :=
                   Booking.totalAmount (Booking.pricing b)
                   - Booking.paidAmount (Booking.pricing b);
                 Order.dataCurrency := "INR";
                 Order.dataBookingId := Booking.bookingId b |},
         db3)
    ∧ verify t2 user id vreq db3
      = (succeed 200 "Payment verified successfully", db4)
    ∧ bookings db4 !! id = Some b'
    ∧ Booking.status b' = Booking.Paid
    ∧ Booking.paidAmount (Booking.pricing b')
      = Booking.totalAmount (Booking.pricing b)
    ∧ Booking.pendingAmount (Booking.pricing b') = 0
    ∧ Booking.confirmedAt b' = Some t1
    ∧ Booking.paidAt b' = Some t2
    ∧ Booking.razorpayOrderId (Booking.payment b') = Some orderId
    ∧ Booking.razorpayPaymentId (Booking.payment b')
      = Some (razorpay_payment_id vreq)
    ∧ availableOf db4 (Booking.hostel b) (Booking.roomType b)
      = Some (Hostel.availableRooms room - 1).
Proof.
  intros Hb Hvalid Hst Hdue Hrole Hown Hstudent Hstu Hh Hvh Hroom Hpos Hg Hkey
    Hsigned.
  pose proof (validate_hasBookingId _ Hvalid) as Hid.
  set (b2 := Booking.preSave "" (markConfirmed t1 b)).
  assert (storedOk b2) as [Hvalid2 _].
  { apply storedOk_preSave; [by apply validate_markConfirmed|simpl; lia]. }
  set (b3 := Booking.preSave "" (setRazorpayOrderId orderId b2)).
  assert (storedOk b3) as [Hvalid3 _].
  { apply storedOk_preSave; [by apply validate_setRazorpayOrderId|simpl; lia]. }
  assert (Booking.bookingId b2 = Booking.bookingId b) as Hid2.
  { subst b2. unfold Booking.preSave. simpl.
    unfold Booking.hasBookingId in *. simpl. by rewrite Hid. }
  eexists _, _, _, _. split_and!.
  - apply (confirmBooking_accepted t1 owner id _ b); done.
  - rewrite (createPaymentOrder_accepted g user id _ b2 orderId); try done.
    + fold b3. rewrite Hid2. repeat f_equal.
    + simpl. apply lookup_insert_eq.
    + simpl. lia.
  - apply (verifyPayment_takes_room hmacSha256Hex RAZORPAY_KEY_SECRET
             t2 user id vreq _ b3 secret hostel i room); try done.
    simpl. apply lookup_insert_eq.
  - simpl. apply lookup_insert_eq.
  - done.
  - done.
  - simpl. lia.
  - done.
  - done.
  - done.
  - done.
  - unfold availableOf. simpl. rewrite lookup_insert_eq. simpl.
    rewrite (findRoom_setAvailableRooms _ _ _ _ _ _ Hroom). simpl.
    f_equal; lia.
Qed.

End PaidPath.

(** ** The length of a stay *)

(** X14: the virtual [durationInDays] is the time between check-in and
    check-out, in either order, rounded up to whole days: it is the one
    [d] with [(d − 1) days < |checkOutDate − checkInDate| ≤ d days].  It
    is never negative, it is 0 exactly when the two dates are the same
    instant, and so it is at least 1 for every booking that ends after it
    starts. *)
Theorem durationInDays_rounds_up b :
  let span := Z.abs (Booking.checkOutDate b - Booking.checkInDate b) in
  let d := durationInDays b in
  (d - 1) * msPerDay < span ≤ d * msPerDay
  ∧ (∀ d', (d' - 1) * msPerDay < span ≤ d' * msPerDay → d' = d)
  ∧ 0 ≤ d
  ∧ (d = 0 ↔ Booking.checkInDate b = Booking.checkOutDate b)
  ∧ (Booking.checkInDate b < Booking.checkOutDate b → 1 ≤ d).
Proof.
  intros span d.
  assert (d = daysUntilCheckIn span 0) as Hd.
  { subst d span. unfold durationInDays, daysUntilCheckIn.
    by rewrite Z.sub_0_r. }
  assert ((d - 1) * msPerDay < span ≤ d * msPerDay) as Hspan.
  { pose proof (proj1 (daysUntilCheckIn_spec span 0 d) (eq_sym Hd)). lia. }
  assert (0 ≤ span) as Hnonneg by (subst span; lia).
  assert (0 < msPerDay) as Hpos by (by vm_compute).
  split; [exact Hspan|]. split; [|split; [|split]].
  - intros d' Hd'. rewrite Hd. symmetry.
    apply daysUntilCheckIn_spec. lia.
  - generalize dependent msPerDay. intros m Hm Hpos. nia.
  - assert (span = 0 ↔ Booking.checkInDate b = Booking.checkOutDate b)
      as <- by (subst span; lia).
    generalize dependent msPerDay. intros m Hm Hpos. split; nia.
  - intros Hlt. assert (0 < span) by (subst span; lia).
    generalize dependent msPerDay. intros m Hm Hpos. nia.
Qed.

(** ** Booking statistics *)

Lemma matching_and f g db :
  matching (λ b, f b && g b) db = List.filter g (matching f db).
Proof.
  unfold matching. induction ((map_to_list (bookings db)).*2) as [|b l IH];
    [done|].
  simpl. destruct (f b); simpl; [|exact IH].
  destruct (g b); by rewrite IH.
Qed.

Lemma matching_stored f db b :
  b ∈ matching f db ↔ f b = true ∧ ∃ k, bookings db !! k = Some b.
Proof.
  unfold matching. rewrite list_elem_of_In, filter_In, <- list_elem_of_In.
  rewrite list_elem_of_fmap. split.
  - intros [([k b'] & -> & Hin) Hf]. split; [done|]. exists k.
    by apply elem_of_map_to_list.
  - intros [Hf [k Hk]]. split; [|done]. exists (k, b). split; [done|].
    by apply elem_of_map_to_list.
Qed.

(** The group of a status, with the empty group for a status that has no
    booking, is the group of the bookings of that status. *)
Lemma groupByStatus_lookup l s :
  groupByStatus l !! s
  = match List.filter (λ b, bool_decide (Booking.status b = s)) l with
    | [] => None
    | ls => Some (Stats.ofList ls)
    end.
Proof.
  induction l as [|b l IH]; [done|].
  simpl. case_bool_decide as Hs.
  - subst s. rewrite lookup_insert_eq, IH.
    by destruct (List.filter _ l).
  - by rewrite lookup_insert_ne.
Qed.

Lemma groupByStatus_default l s :
  default Stats.empty (groupByStatus l !! s)
  = Stats.ofList (List.filter (λ b, bool_decide (Booking.status b = s)) l).
Proof. rewrite groupByStatus_lookup. by destruct (List.filter _ l). Qed.

Lemma count_ofList l : Stats.count (Stats.ofList l) = Z.of_nat (length l).
Proof. induction l as [|b l IH]; [done|]. simpl. lia. Qed.

Lemma revenue_statuses s :
  bool_decide (s ∈ [Booking.Paid; Booking.Active; Booking.Completed])
  = bool_decide (s = Booking.Paid) || bool_decide (s = Booking.Active)
    || bool_decide (s = Booking.Completed).
Proof. by destruct s; vm_compute. Qed.

Lemma totalRevenue_by_status filter db :
  let paid s :=
    Stats.paidAmount
      (Stats.ofList
         (List.filter (λ b, bool_decide (Booking.status b = s))
            (matching filter db))) in
  totalRevenue filter db
  = paid Booking.Paid + paid Booking.Active + paid Booking.Completed.
Proof.
  unfold totalRevenue. rewrite matching_and.
  induction (matching filter db) as [|b l IH]; [done|].
  simpl in IH |- *. rewrite revenue_statuses.
  destruct (Booking.status b); simpl; lia.
Qed.

(** X15: The status breakdown of [getBookingStats] has a group exactly
    for the statuses that some matching booking has; the group of a status
    counts the matching bookings of that status and sums their total and
    paid amounts. *)
Lemma status_breakdown filter db s :
  match getBookingStats filter db !! s with
  | None => countDocuments (withStatus s filter) db = 0
  | Some g =>
      g = Stats.ofList (matching (withStatus s filter) db)
      ∧ Stats.count g = countDocuments (withStatus s filter) db
      ∧ 0 < Stats.count g
  end.
Proof.
  unfold getBookingStats, countDocuments, withStatus.
  rewrite matching_and, groupByStatus_lookup.
  destruct (List.filter _ (matching filter db)) as [|b l] eqn:Hl; [done|].
  split; [done|]. rewrite count_ofList. simpl length. lia.
Qed.

(** X16: The overview of [GET /api/bookings/stats] agrees with the status
    breakdown it is sent with: the total is the sum of the groups' counts,
    the count of one status is its group's count, and the revenue is the
    paid amount of the groups Paid, Active and Completed. *)
Lemma stats_overview_agrees filter db :
  let group s := default Stats.empty (getBookingStats filter db !! s) in
  countDocuments filter db
  = foldr (λ s n, Stats.count (group s) + n) 0 allStatuses
  ∧ (∀ s, countDocuments (withStatus s filter) db = Stats.count (group s))
  ∧ totalRevenue filter db
    = Stats.paidAmount (group Booking.Paid)
      + Stats.paidAmount (group Booking.Active)
      + Stats.paidAmount (group Booking.Completed).
Proof.
  intros group.
  assert (∀ s, group s
               = Stats.ofList
                   (List.filter (λ b, bool_decide (Booking.status b = s))
                      (matching filter db))) as Hgroup
    by (intros s; apply groupByStatus_default).
  unfold countDocuments, withStatus, allStatuses. simpl foldr.
  split; [|split; [intros s|]]; rewrite !Hgroup, ?matching_and;
    clear group Hgroup.
  - rewrite !count_ofList.
    induction (matching filter db) as [|b l IH]; [done|].
    simpl length. simpl in IH |- *.
    destruct (Booking.status b); simpl; lia.
  - by rewrite count_ofList.
  - apply totalRevenue_by_status.
Qed.

(** ** Listing bookings page by page *)

Lemma pagesFor_spec total limit :
  0 < limit →
  (pagesFor total limit - 1) * limit < total ≤ pagesFor total limit * limit.
Proof.
  intros Hpos. unfold pagesFor.
  pose proof (Z.div_mod (- total) limit ltac:(lia)) as Hdm.
  pose proof (Z.mod_pos_bound (- total) limit Hpos) as Hbound.
  lia.
Qed.

(** Consecutive chunks of a list make up its prefix. *)
Lemma chunks_take {A} (l : list A) (size k : nat) :
  concat ((λ i, take size (drop (i * size) l)) <$> seq 0 k)
  = take (k * size) l.
Proof.
  induction k as [|k IH]; [done|].
  rewrite seq_S, fmap_app, concat_app, IH. simpl.
  rewrite app_nil_r, take_take_drop. f_equal. lia.
Qed.

Lemma myBookings_accepted sortByCreatedAtDesc user status page limit db :
  from_option (λ p, 1 ≤ p) True page →
  from_option (λ l, 1 ≤ l ≤ 50) True limit →
  myBookings sortByCreatedAtDesc user status page limit db
  = let skip := (default 1 page - 1) * default 10 limit in
    let found :=
      sortByCreatedAtDesc (matching (myBookingsFilter user status) db) in
    let bookings :=
      take (Z.to_nat (default 10 limit)) (drop (Z.to_nat skip) found) in
    let total := countDocuments (myBookingsFilter user status) db in
    (succeed 200 "",
     Some (bookings,
           {| Page.currentPage := default 1 page;
              Page.totalPages := pagesFor total (default 10 limit);
              Page.totalBookings := total;
              Page.hasNext := skip + Z.of_nat (length bookings) <? total;
              Page.hasPrev := 1 <? default 1 page |})).
Proof.
  intros Hpage Hlimit. unfold myBookings.
  assert (from_option (λ p, 1 <=? p) true page = true) as ->
    by (destruct page; simpl in *; [lia|done]).
  assert (from_option (λ l, (1 <=? l) && (l <=? 50)) true limit = true) as ->
    by (destruct limit; simpl in *; [lia|done]).
  done.
Qed.

Section Listing.

Variable sortByCreatedAtDesc : list Booking.t → list Booking.t.
Hypothesis sort_permutes : ∀ l, sortByCreatedAtDesc l ≡ₚ l.

Local Abbreviation myBookings := (myBookings sortByCreatedAtDesc).

(** X18: A valid listing request is answered with at most [limit]
    bookings (10 when no limit is given, never more than 50), each a
    stored booking that passes the filter: a student is shown only own
    bookings and a hostel owner only bookings of own hostels.  The page
    has a next page exactly when it is not the last one, and a previous
    page exactly when it is not the first. *)
Lemma my_bookings_one_page user status page limit db :
  from_option (λ p, 1 ≤ p) True page →
  from_option (λ l, 1 ≤ l ≤ 50) True limit →
  ∃ found pg,
    myBookings user status page limit db = (succeed 200 "", Some (found, pg))
    ∧ Z.of_nat (length found) ≤ default 10 limit ≤ 50
    ∧ (∀ b, b ∈ found →
            myBookingsFilter user status b = true
            ∧ (∃ k, bookings db !! k = Some b)
            ∧ (role user = Student → Booking.student b = uid user)
            ∧ (role user = HostelOwner → Booking.owner b = uid user))
    ∧ Page.currentPage pg = default 1 page
    ∧ Page.totalBookings pg = countDocuments (myBookingsFilter user status) db
    ∧ (Page.hasNext pg = true ↔ Page.currentPage pg < Page.totalPages pg)
    ∧ (Page.hasPrev pg = true ↔ 1 < Page.currentPage pg).
Proof using sort_permutes.
  intros Hpage Hlimit. rewrite myBookings_accepted by done.
  eexists _, _. split; [done|]. simpl.
  set (p := default 1 page). set (n := default 10 limit).
  assert (1 ≤ p) as Hp by (subst p; destruct page; simpl in *; lia).
  assert (1 ≤ n ≤ 50) as Hn by (subst n; destruct limit; simpl in *; lia).
  set (l := sortByCreatedAtDesc (matching (myBookingsFilter user status) db)).
  assert (countDocuments (myBookingsFilter user status) db
          = Z.of_nat (length l)) as Htotal.
  { unfold countDocuments. subst l. by rewrite (sort_permutes _). }
  split; [|split; [|split; [done|split; [done|split]]]].
  - rewrite length_take. lia.
  - intros b Hb. apply subseteq_take, subseteq_drop in Hb.
    subst l. rewrite (sort_permutes _) in Hb.
    apply matching_stored in Hb as [Hf Hk].
    split; [done|]. split; [done|].
    unfold myBookingsFilter in Hf. apply andb_prop in Hf as [Hf _].
    split; intros Hrole; rewrite Hrole in Hf; by apply bool_decide_eq_true in Hf.
  - rewrite Htotal, Z.ltb_lt, length_take, length_drop.
    pose proof (pagesFor_spec (Z.of_nat (length l)) n ltac:(lia)) as Hpages.
    generalize dependent (pagesFor (Z.of_nat (length l)) n).
    intros t Hpages. split; intros Hlt; nia.
  - apply Z.ltb_lt.
Qed.

(** X19: The pages of a listing, taken in order from the first to the
    last, are the matching bookings in the listing's order: each booking
    is on exactly one page. *)
Lemma my_bookings_pages_cover user status limit db :
  1 ≤ limit ≤ 50 →
  let pageAt p :=
    from_option fst [] (myBookings user status (Some p) (Some limit) db).2 in
  let pages :=
    pagesFor (countDocuments (myBookingsFilter user status) db) limit in
  concat (pageAt <$> ((λ i, Z.of_nat i + 1) <$> seq 0 (Z.to_nat pages)))
  = sortByCreatedAtDesc (matching (myBookingsFilter user status) db).
Proof using sort_permutes.
  intros Hlimit pageAt pages.
  set (l := sortByCreatedAtDesc (matching (myBookingsFilter user status) db)).
  assert (countDocuments (myBookingsFilter user status) db
          = Z.of_nat (length l)) as Htotal.
  { unfold countDocuments. subst l. by rewrite (sort_permutes _). }
  rewrite <- list_fmap_compose.
  rewrite (list_fmap_ext _
             (λ i, take (Z.to_nat limit) (drop (i * Z.to_nat limit) l))).
  - rewrite chunks_take. apply take_ge.
    subst pages. rewrite Htotal.
    pose proof (pagesFor_spec (Z.of_nat (length l)) limit ltac:(lia)) as Hpages.
    generalize dependent (pagesFor (Z.of_nat (length l)) limit).
    intros t Hpages. nia.
  - intros ? i _. unfold pageAt. simpl.
    rewrite myBookings_accepted by (simpl; lia).
    simpl. fold l. do 2 f_equal. lia.
Qed.

End Listing.

(** ** Routing *)

Lemma dispatch_get_one s :
  s ≠ "" →
  Router.dispatch Router.GET [s]
  = Some (if bool_decide (Router.lower s = "my-bookings")
          then Router.MyBookings else Router.GetBooking).
Proof.
  intros Hs. unfold Router.dispatch, Router.table. simpl.
  rewrite (bool_decide_eq_false_2 (s = "")) by done. simpl.
  rewrite andb_true_r.
  case_bool_decide as Hl; case_bool_decide as Hr; try done; congruence.
Qed.

Ltac route_cases :=
  unfold Router.dispatch, Router.table; simpl;
  rewrite ?andb_false_r, ?andb_true_r; simpl;
  repeat (case_bool_decide; simpl; try done); try done.

(** X20: No request reaches the statistics handler: [GET /stats] is
    registered after [GET /:id], which takes every one-segment GET path
    other than [my-bookings], so a request for [/stats] is handled as a
    request for the booking with id "stats". *)
Lemma stats_route_is_shadowed :
  (∀ m path, Router.dispatch m path ≠ Some Router.BookingStats)
  ∧ (∀ s, Router.lower s = "stats" →
          Router.dispatch Router.GET [s] = Some Router.GetBooking)
  ∧ (∀ h, h ≠ Router.BookingStats →
          ∃ m path, Router.dispatch m path = Some h).
Proof.
  split; [|split].
  - intros m path.
    destruct path as [|s [|t [|u [|v path]]]].
    + by destruct m.
    + destruct m; [|route_cases..].
      destruct (decide (s = "")) as [->|Hs]; [done|].
      rewrite dispatch_get_one by done. by case_bool_decide.
    + destruct m; route_cases.
    + destruct m; route_cases.
    + destruct m; route_cases.
  - intros s Hs. rewrite dispatch_get_one.
    + rewrite bool_decide_eq_false_2; [done|]. by rewrite Hs.
    + by intros ->.
  - intros h Hh. destruct h; [..|done].
    + by exists Router.POST, [].
    + by exists Router.GET, ["my-bookings"].
    + by exists Router.GET, ["1"].
    + by exists Router.PUT, ["1"; "confirm"].
    + by exists Router.PUT, ["1"; "reject"].
    + by exists Router.PUT, ["1"; "cancel"].
    + by exists Router.POST, ["1"; "payment"; "create-order"].
    + by exists Router.POST, ["1"; "payment"; "verify"].
Qed.

(** ** The booking form *)

(** X22: The duration the form derives from the two dates is the least
    number of 30-day months, at least one, that covers the days between
    them; so it always passes the server's check of the duration. *)
Lemma form_duration_is_least days :
  1 ≤ Preview.durationFor days
  ∧ days ≤ 30 * Preview.durationFor days
  ∧ ∀ months, 1 ≤ months → days ≤ 30 * months →
              Preview.durationFor days ≤ months.
Proof.
  unfold Preview.durationFor.
  pose proof (Z.div_mod (- days) 30 ltac:(lia)) as Hdm.
  pose proof (Z.mod_pos_bound (- days) 30 ltac:(lia)) as Hbound.
  split; [lia|]. split; [lia|]. intros months Hone Hcover. lia.
Qed.

(** ** The properties on the sample data *)

Lemma dbPending_booking0 : bookings dbPending !! 0%nat = Some booking0.
Proof. vm_compute. reflexivity. Qed.

Lemma dbPending_only_booking0 k b :
  bookings dbPending !! k = Some b → b = booking0.
Proof.
  unfold dbPending. simpl. intros Hk.
  by apply lookup_singleton_Some in Hk as [_ <-].
Qed.

Lemma bookings_keep_their_terms_witness :
  bookings dbPending !! 0%nat = Some booking0
  ∧ ∃ b',
      bookings
        (serve toyHmac (Some "key") 0
           [Lifecycle (OpConfirm 0 olga 0%nat);
            CreateOrder gateway0 alice 0%nat;
            Lifecycle (OpVerify 0 alice 0%nat pay0);
            Lifecycle (OpCancel 0 alice 0%nat "change of plans")]
           dbPending) !! 0%nat = Some b'
      ∧ sameTerms booking0 b'.
Proof.
  split; [exact dbPending_booking0|].
  exact (bookings_keep_their_terms toyHmac (Some "key") 0 _ dbPending 0%nat
           booking0 dbPending_booking0).
Defined.

Lemma statuses_the_routes_write_witness :
  ∃ b',
    bookings
      (serve toyHmac (Some "key") 0
         [Lifecycle (OpConfirm 0 olga 0%nat);
          Lifecycle (OpVerify 0 alice 0%nat pay0)]
         dbPending) !! 0%nat = Some b'
    ∧ Booking.status b' = Booking.Paid
    ∧ ∃ b,
        bookings dbPending !! 0%nat = Some b
        ∧ (Booking.status b' = Booking.status b
           ∨ Booking.status b'
             ∈ [Booking.Confirmed; Booking.Paid; Booking.Cancelled;
                Booking.Rejected]).
Proof.
  assert (∃ b',
            bookings
              (serve toyHmac (Some "key") 0
                 [Lifecycle (OpConfirm 0 olga 0%nat);
                  Lifecycle (OpVerify 0 alice 0%nat pay0)]
                 dbPending) !! 0%nat = Some b'
            ∧ Booking.status b' = Booking.Paid) as (b' & Hb' & Hst).
  { eexists. split; vm_compute; reflexivity. }
  exists b'. split; [exact Hb'|]. split; [exact Hst|].
  exact (statuses_the_routes_write toyHmac (Some "key") 0 _ dbPending 0%nat b'
           Hb').
Defined.

Lemma payment_state_is_kept_witness :
  (∀ k b, bookings dbPending !! k = Some b → paymentState b)
  ∧ ∃ b,
      bookings
        (serve toyHmac (Some "key") 0
           [Lifecycle (OpConfirm 0 olga 0%nat);
            Lifecycle (OpVerify 0 alice 0%nat pay0)]
           dbPending) !! 0%nat = Some b
      ∧ Booking.status b = Booking.Paid
      ∧ paymentState b.
Proof.
  assert (∀ k b, bookings dbPending !! k = Some b → paymentState b) as Hstart.
  { intros k b ->%dbPending_only_booking0. unfold paymentState. simpl.
    split_and!; [reflexivity|by left|done|done|discriminate]. }
  split; [exact Hstart|].
  assert (∃ b,
            bookings
              (serve toyHmac (Some "key") 0
                 [Lifecycle (OpConfirm 0 olga 0%nat);
                  Lifecycle (OpVerify 0 alice 0%nat pay0)]
                 dbPending) !! 0%nat = Some b
            ∧ Booking.status b = Booking.Paid) as (b & Hb & Hst).
  { eexists. split; vm_compute; reflexivity. }
  exists b. split; [exact Hb|]. split; [exact Hst|].
  exact (payment_state_is_kept toyHmac (Some "key") 0 _ dbPending Hstart
           0%nat b Hb).
Defined.

Lemma cancellation_record_is_kept_witness :
  (∀ k b, bookings dbPending !! k = Some b → cancellationState b)
  ∧ ∃ b,
      bookings
        (serve toyHmac (Some "key") 0
           [Lifecycle (OpCancel 0 alice 0%nat "change of plans")]
           dbPending) !! 0%nat = Some b
      ∧ Booking.status b = Booking.Cancelled
      ∧ is_Some (Booking.cancellation b)
      ∧ is_Some (Booking.cancelledAt b).
Proof.
  assert (∀ k b, bookings dbPending !! k = Some b → cancellationState b)
    as Hstart.
  { intros k b ->%dbPending_only_booking0. unfold cancellationState. simpl.
    split; [|discriminate]. intros H. unlisted H. }
  split; [exact Hstart|].
  assert (∃ b,
            bookings
              (serve toyHmac (Some "key") 0
                 [Lifecycle (OpCancel 0 alice 0%nat "change of plans")]
                 dbPending) !! 0%nat = Some b
            ∧ Booking.status b = Booking.Cancelled) as (b & Hb & Hst).
  { eexists. split; vm_compute; reflexivity. }
  destruct (cancellation_record_is_kept toyHmac (Some "key") 0 _ dbPending
              Hstart 0%nat b Hb) as [Hrecord _].
  exists b. split; [exact Hb|]. split; [exact Hst|].
  apply Hrecord. rewrite Hst. apply list_elem_of_here.
Defined.

Lemma owner_role_cannot_cancel_witness :
  role olga ∈ [HostelOwner; Parent]
  ∧ bookings dbPending !! 0%nat = Some booking0
  ∧ Booking.owner booking0 = uid olga
  ∧ Booking.canBeCancelled booking0 = true
  ∧ cancelBooking 0 olga 0%nat "sold out" dbPending
    = (fail 500 "Server error while cancelling booking", dbPending).
Proof.
  assert (role olga ∈ [HostelOwner; Parent]) as Hrole
    by apply list_elem_of_here.
  split; [exact Hrole|]. split; [exact dbPending_booking0|].
  split; [reflexivity|]. split; [reflexivity|].
  destruct (owner_role_cannot_cancel 0 olga 0%nat "sold out" dbPending Hrole)
    as (Hdb & _ & Hresp).
  apply injective_projections; simpl; [|exact Hdb].
  apply (Hresp booking0 dbPending_booking0).
  - discriminate.
  - right. reflexivity.
  - reflexivity.
Defined.

Lemma no_refund_after_check_in_witness :
  (Booking.checkInDate bookingPaid ≤ 20 * msPerDay
   ∨ Booking.paidAmount (Booking.pricing bookingPaid) ≤ 0)
  ∧ Booking.paidAmount (Booking.pricing bookingPaid) = 45000
  ∧ cancelRefund (20 * msPerDay) bookingPaid = 0.
Proof.
  assert (Booking.checkInDate bookingPaid ≤ 20 * msPerDay
          ∨ Booking.paidAmount (Booking.pricing bookingPaid) ≤ 0) as Hlate
    by (left; simpl; lia).
  split; [exact Hlate|]. split; [reflexivity|].
  exact (proj1 (no_refund_after_check_in (20 * msPerDay) alice "too late"
                  bookingPaid Hlate)).
Defined.

Lemma one_room_at_a_time_witness :
  availableOf dbConfirmed 1%nat Single = Some 2
  ∧ ∃ n',
      availableOf
        (handle toyHmac (Some "key") 0
           (Lifecycle (OpVerify 0 alice 0%nat pay0)) dbConfirmed)
        1%nat Single = Some n'
      ∧ (n' = 2
         ∨ (n' = 2 + roomDelta (Lifecycle (OpVerify 0 alice 0%nat pay0))
            ∧ 0 ≤ n')).
Proof.
  assert (availableOf dbConfirmed 1%nat Single = Some 2) as Hrooms
    by (vm_compute; reflexivity).
  split; [exact Hrooms|].
  exact (one_room_at_a_time toyHmac (Some "key") 0
           (Lifecycle (OpVerify 0 alice 0%nat pay0)) dbConfirmed 1%nat Single 2
           Hrooms).
Defined.

Lemma confirm_only_stamps_witness :
  storedOk booking0
  ∧ bookings dbPending !! 0%nat = Some booking0
  ∧ Booking.status booking0 = Booking.Pending
  ∧ role olga = HostelOwner
  ∧ Booking.owner booking0 = uid olga
  ∧ confirmBooking 5 olga 0%nat dbPending
    = (succeed 200 "Booking confirmed successfully",
       {| bookings :=
            <[0%nat := Booking.setConfirmedAt 5
                         (Booking.setStatus Booking.Confirmed booking0)]>
              (bookings dbPending);
          hostels := hostels dbPending |}).
Proof.
  assert (storedOk booking0) as Hok by (split; reflexivity).
  split; [exact Hok|]. split; [exact dbPending_booking0|].
  split; [reflexivity|]. split; [reflexivity|]. split; [reflexivity|].
  exact (confirm_only_stamps 5 olga 0%nat dbPending booking0 Hok
           dbPending_booking0 eq_refl eq_refl eq_refl).
Defined.

Lemma payment_order_is_for_the_pending_amount_witness :
  success (createPaymentOrder gateway0 alice 0%nat dbConfirmed).1.1 = true
  ∧ ∃ b orderId,
      bookings dbConfirmed !! 0%nat = Some b
      ∧ Booking.pendingAmount (Booking.pricing b) = 6500
      ∧ (createPaymentOrder gateway0 alice 0%nat dbConfirmed).1.2
        = Some {| Order.orderId := orderId;
                  Order.dataAmount :=
                    Booking.totalAmount (Booking.pricing b)
                    - Booking.paidAmount (Booking.pricing b);
                  Order.dataCurrency := "INR";
                  Order.dataBookingId := Booking.bookingId b |}.
Proof.
  assert (success (createPaymentOrder gateway0 alice 0%nat dbConfirmed).1.1
          = true) as Hok by (vm_compute; reflexivity).
  split; [exact Hok|].
  destruct (payment_order_is_for_the_pending_amount gateway0 alice 0%nat
              dbConfirmed) as [_ Hdone].
  destruct (Hdone Hok) as (b & orderId & Hb & _ & _ & _ & _ & Hdata & _).
  exists b, orderId. split; [exact Hb|]. split; [|exact Hdata].
  assert (bookings dbConfirmed !! 0%nat
          = Some (Booking.preSave "" (markConfirmed 0 booking0))) as Hb'
    by (vm_compute; reflexivity).
  pose proof (eq_trans (eq_sym Hb) Hb') as Heq. injection Heq as ->.
  reflexivity.
Defined.

Lemma verification_ignores_status_witness :
  wellSigned toyHmac "key" pay0
  ∧ ∃ b b',
      bookings dbCancelled !! 0%nat = Some b
      ∧ Booking.validate b = true
      ∧ Booking.status b = Booking.Cancelled
      ∧ Booking.student b = uid alice
      ∧ bookings (verifyPayment toyHmac (Some "key") 9 alice 0%nat pay0
                    dbCancelled).2 !! 0%nat = Some b'
      ∧ Booking.status b' = Booking.Paid.
Proof.
  split; [exact pay0_wellSigned|].
  assert (∃ b, bookings dbCancelled !! 0%nat = Some b
               ∧ Booking.validate b = true
               ∧ Booking.status b = Booking.Cancelled
               ∧ Booking.student b = uid alice)
    as (b & Hb & Hvalid & Hst & Hstu).
  { eexists. split_and!; vm_compute; reflexivity. }
  destruct (verification_ignores_status toyHmac (Some "key") 9 alice 0%nat
              pay0 dbCancelled b "key" Hvalid Hb eq_refl Hstu
              eq_refl pay0_wellSigned) as (b' & Hb' & Hpaid & _).
  exists b, b'. split; [exact Hb|]. split; [exact Hvalid|].
  split; [exact Hst|]. split; [exact Hstu|]. split; [exact Hb'|exact Hpaid].
Defined.

Lemma pending_booking_to_paid_witness :
  bookings dbPending !! 0%nat = Some booking0
  ∧ Booking.validate booking0 = true
  ∧ Hostel.validate hostel0 = true
  ∧ availableOf dbPending 1%nat Single = Some 2
  ∧ wellSigned toyHmac "key" pay0
  ∧ ∃ db2 db3 db4 b,
      confirmBooking 1 olga 0%nat dbPending
      = (succeed 200 "Booking confirmed successfully", db2)
      ∧ (createPaymentOrder gateway0 alice 0%nat db2).2 = db3
      ∧ verifyPayment toyHmac (Some "key") 2 alice 0%nat pay0 db3
        = (succeed 200 "Payment verified successfully", db4)
      ∧ bookings db4 !! 0%nat = Some b
      ∧ Booking.status b = Booking.Paid
      ∧ Booking.paidAmount (Booking.pricing b) = 6500
      ∧ availableOf db4 1%nat Single = Some 1.
Proof.
  assert (Booking.validate booking0 = true) as Hvalid by reflexivity.
  assert (Hostel.validate hostel0 = true) as Hvh by reflexivity.
  assert (Booking.paidAmount (Booking.pricing booking0)
          < Booking.totalAmount (Booking.pricing booking0)) as Hdue
    by reflexivity.
  assert (0 < Hostel.availableRooms
                {| Hostel.type := Single; Hostel.totalRooms := 2;
                   Hostel.availableRooms := 2 |}) as Hpos by reflexivity.
  split; [exact dbPending_booking0|]. split; [exact Hvalid|].
  split; [exact Hvh|]. split; [vm_compute; reflexivity|].
  split; [exact pay0_wellSigned|].
  destruct (pending_booking_to_paid toyHmac (Some "key") 1 2 alice olga 0%nat
              dbPending booking0 hostel0 0%nat _ gateway0 "order_1" "key" pay0
              dbPending_booking0 Hvalid eq_refl Hdue eq_refl eq_refl eq_refl
              eq_refl eq_refl Hvh eq_refl Hpos (λ _, eq_refl) eq_refl
              pay0_wellSigned)
    as (db2 & db3 & db4 & b & Hconfirm & Horder & Hverify & Hb & Hst & Hpaid
        & _ & _ & _ & _ & _ & Hleft).
  exists db2, db3, db4, b.
  split; [exact Hconfirm|]. split; [exact (f_equal snd Horder)|].
  split; [exact Hverify|]. split; [exact Hb|]. split; [exact Hst|].
  split; [exact Hpaid|exact Hleft].
Defined.

Lemma my_bookings_one_page_witness :
  (∀ l : list Booking.t, l ≡ₚ l)
  ∧ 2 ≤ 2
  ∧ 1 ≤ 1 ≤ 50
  ∧ ∃ found pg,
      myBookings (λ l, l) admin None (Some 2) (Some 1) dbTwo
      = (succeed 200 "", Some (found, pg))
      ∧ Z.of_nat (length found) ≤ 1
      ∧ Page.totalBookings pg = 2
      ∧ (Page.hasPrev pg = true ↔ 1 < Page.currentPage pg).
Proof.
  assert (∀ l : list Booking.t, l ≡ₚ l) as Hsort by (intros l; reflexivity).
  assert (1 ≤ 2) as Hpage by lia.
  assert (1 ≤ 1 ≤ 50) as Hlimit by lia.
  split; [exact Hsort|]. split; [lia|]. split; [exact Hlimit|].
  destruct (my_bookings_one_page (λ l, l) Hsort admin None (Some 2) (Some 1) dbTwo
              Hpage Hlimit)
    as (found & pg & Hrun & [Hlen _] & _ & _ & Htotal & _ & Hprev).
  exists found, pg. split; [exact Hrun|]. split; [exact Hlen|].
  split; [|exact Hprev].
  rewrite Htotal. vm_compute. reflexivity.
Defined.

Lemma my_bookings_pages_cover_witness :
  (∀ l : list Booking.t, l ≡ₚ l)
  ∧ 1 ≤ 1 ≤ 50
  ∧ pagesFor (countDocuments (myBookingsFilter admin None) dbTwo) 1 = 2
  ∧ concat
      ((λ p, from_option fst []
               (myBookings (λ l, l) admin None (Some p) (Some 1) dbTwo).2)
         <$> ((λ i, Z.of_nat i + 1)
                <$> seq 0
                      (Z.to_nat
                         (pagesFor
                            (countDocuments (myBookingsFilter admin None) dbTwo)
                            1))))
    = matching (myBookingsFilter admin None) dbTwo.
Proof.
  assert (∀ l : list Booking.t, l ≡ₚ l) as Hsort by (intros l; reflexivity).
  assert (1 ≤ 1 ≤ 50) as Hlimit by lia.
  split; [exact Hsort|]. split; [exact Hlimit|].
  split; [vm_compute; reflexivity|].
  exact (my_bookings_pages_cover (λ l, l) Hsort admin None 1 dbTwo Hlimit).
Defined.
